(** * bookAggr: order-book synchronisation and cross-exchange aggregation

    A shallow embedding of the exchange connectors
    ([webhelpers/helpers/{Binance,Backpack,OKX,Kucoin,Kraken,Bybit}.ts]) and of
    the aggregation code of [app/page.tsx], followed by the properties that
    the design document states about them.

    [Binance] is embedded with its event loop (socket events, timers and
    snapshot requests) and with [changeTickers] and [unsubscribeAll].  Of
    the other connectors the file has the book handlers and the segments
    of [initializeOrderBook], of [Bybit] the constructor and the two book
    handlers.  The keep-alive traffic is left out apart from the pong of
    [Binance].

    Conventions of the embedding.
    - A JavaScript [number] that carries a price, a quantity or a
      consistency marker is an exact quantity, represented in [Z] (a price
      or a size counts ticks of the instrument's grid), wherever the code
      stores it, compares it or uses it as a key.  [parseFloat] and
      [parseInt] happen at the wire boundary: a wire level [[price, qty]]
      is the pair of the two parsed numbers.
    - The page adds sizes.  [Page] has these sums exact, which is what
      they are as long as no addition rounds; [PageFloat] is the same code
      with a size as the binary64 value of the source and every addition
      rounded, and it is there that a property which depends on the order
      of the additions is settled.
    - [Map<number, number>] (a ladder, the aggregation accumulator) is an
      insertion-ordered association list, because the code iterates
      [entries()].  The string-keyed maps of a connector are only read and
      written by key, they are [gmap string _].
    - [Date.now()] is an argument [now] of the handler that reads it.
    - An [async] function is cut at its [await]s: the code up to the first
      [await] is a state transformer, every suspended continuation and
      every armed timer is an entry of the [pending] list of the state, and
      the event loop is the [step] function of the connector. *)

From stdpp Require Import gmap strings list sorting.
From Stdlib Require Import ZArith Lia Ascii.
From Stdlib Require Floats.
Import PrimFloat.

Local Open Scope Z_scope.

(** ** JavaScript [Map] with insertion order *)

Module JsMap.
Section JsMap.
Context {K V : Type} `{EqDecision K}.

Definition t := list (K * V).

Definition empty : t := [].

(** [m.get(k)] *)
Fixpoint get (k : K) (m : t) : option V :=
  match m with
  | [] => None
  | (k', v) :: m' => if decide (k = k') then Some v else get k m'
  end.

(** [m.set(k, v)]: an existing key keeps its position, a new key is
    appended. *)
Fixpoint set (k : K) (v : V) (m : t) : t :=
  match m with
  | [] => [(k, v)]
  | (k', v') :: m' =>
      if decide (k = k') then (k, v) :: m' else (k', v') :: set k v m'
  end.

(** [m.delete(k)] *)
Fixpoint delete (k : K) (m : t) : t :=
  match m with
  | [] => []
  | (k', v') :: m' =>
      if decide (k = k') then delete k m' else (k', v') :: delete k m'
  end.

(** [m.entries()] in iteration order. *)
Definition entries (m : t) : list (K * V) := m.

Definition keys (m : t) : list K := m.*1.

(** Keys of a [Map] are pairwise distinct. *)
Definition wf (m : t) : Prop := NoDup (keys m).
End JsMap.
Arguments t : clear implicits.
End JsMap.

(** ** [webhelpers/types/index.ts] *)

Record Order := { price : Z; size : Z }.

Record Orders := {
  bid : list Order;
  ask : list Order;
  Orders_lastUpdateId : option Z
}.

Record tickerData := {
  tickerData_price : option Z;
  lastUpdated : Z;
  orders : Orders
}.

(** A wire level [[price, quantity]] after [parseFloat]. *)
Definition Level : Type := Z * Z.

(** A price ladder, [Map<number, number>]. *)
Abbreviation Ladder := (JsMap.t Z Z).

(** The entry of [orderBooks]. *)
Record OrderBook := {
  lastUpdateId : Z;
  bids : Ladder;
  asks : Ladder
}.

(** ** Code shared by the connectors

    The connector classes repeat the same loops; each is written once here
    and called from the connector that contains it. *)

(** [levels.forEach(l => { if (quantity === 0) ladder.delete(price);
    else ladder.set(price, quantity) })] *)
Definition applyLevel (ladder : Ladder) (l : Level) : Ladder :=
  let '(p, quantity) := l in
  if decide (quantity = 0) then JsMap.delete p ladder
  else JsMap.set p quantity ladder.

Definition applyLevels (changes : list Level) (ladder : Ladder) : Ladder :=
  foldl applyLevel ladder changes.

(** [const m = new Map(); levels.forEach(l => { if (quantity > 0)
    m.set(price, quantity) })] *)
Definition snapshotLevel (ladder : Ladder) (l : Level) : Ladder :=
  let '(p, quantity) := l in
  if decide (0 < quantity) then JsMap.set p quantity ladder else ladder.

Definition snapshotLevels (levels : list Level) : Ladder :=
  foldl snapshotLevel JsMap.empty levels.

(** [Array.prototype.sort(cmp)]: [a] stays before [b] when [cmp(a, b) <= 0].
    The sort is a merge sort, as in the engines; on the lists it is given
    here (entries of a [Map], whose keys differ pairwise) every sort that
    respects the comparator returns the same array. *)
Definition keepsOrder {A} (cmp : A → A → Z) (a b : A) : Prop := cmp a b ≤ 0.

Global Instance keepsOrder_dec {A} (cmp : A → A → Z) a b :
  Decision (keepsOrder cmp a b).
Proof. unfold keepsOrder. apply _. Defined.

Definition js_sort {A} (cmp : A → A → Z) (l : list A) : list A :=
  merge_sort (keepsOrder cmp) l.

(** [(a, b) => b.price - a.price] *)
Definition byPriceDesc (a b : Order) : Z := price b - price a.
(** [(a, b) => a.price - b.price] *)
Definition byPriceAsc (a b : Order) : Z := price a - price b.

(** [.map(([price, size]) => ({ price, size }))] *)
Definition toOrder (e : Z * Z) : Order := {| price := e.1; size := e.2 |}.

(** [Array.from(ladder.entries()).map(..).sort(cmp).slice(0, depth)] *)
Definition readLadder (cmp : Order → Order → Z) (depth : nat)
    (ladder : Ladder) : list Order :=
  take depth (js_sort cmp (toOrder <$> JsMap.entries ladder)).

(** The default of [this.prices.get(t) || {...}]. *)
Definition noData : tickerData :=
  {| tickerData_price := None; lastUpdated := 0;
     orders := {| bid := []; ask := []; Orders_lastUpdateId := None |} |}.

(** [String.prototype.replace(pat, rep)] with a string pattern: the first
    occurrence only. *)
Definition js_replace (pat rep s : string) : string :=
  match String.index 0 pat s with
  | Some i =>
      String.substring 0 i s +:+ rep +:+
      String.substring (i + String.length pat)
        (String.length s - (i + String.length pat)) s
  | None => s
  end.


(** [String.prototype.toLowerCase()] on the ASCII letters of a symbol. *)
Definition lowerAscii (ch : Ascii.ascii) : Ascii.ascii :=
  let n := Ascii.nat_of_ascii ch in
  if bool_decide (65 ≤ n ≤ 90)%nat then Ascii.ascii_of_nat (n + 32) else ch.

Fixpoint js_toLowerCase (str : string) : string :=
  match str with
  | EmptyString => EmptyString
  | String ch rest => String (lowerAscii ch) (js_toLowerCase rest)
  end.

(** [str.split(sep)[i]] for a one-character separator; [None] is
    [undefined]. *)
Fixpoint js_split (sep : Ascii.ascii) (acc str : string) : list string :=
  match str with
  | EmptyString => [acc]
  | String ch rest =>
      if decide (ch = sep) then acc :: js_split sep EmptyString rest
      else js_split sep (acc +:+ String ch EmptyString) rest
  end.

Definition js_splitAt (sep : Ascii.ascii) (i : nat) (str : string)
    : option string :=
  js_split sep EmptyString str !! i.

(** ** Connector state

    The fields are those the connector classes declare.  [Binance] and
    [Backpack] declare all of them; [OKX], [Kucoin] and [Bybit] have no
    [depthUpdateBuffers] and leave it empty. *)

(** [interface DepthUpdate] ([Binance.ts], [Backpack.ts]): symbol, first
    and final update id, bid and ask changes. *)
Record DepthUpdate := {
  s : string;
  U : Z;
  u : Z;
  b : list Level;
  a : list Level
}.

(** The body of a depth snapshot as the REST endpoints return it. *)
Record Snapshot := {
  snapshot_lastUpdateId : Z;
  snapshot_bids : list Level;
  snapshot_asks : list Level
}.

(** What is suspended in the event loop on behalf of a connector. *)
Inductive Task :=
| WaitBuffer (ticker : string)
    (** [setTimeout(checkBuffer, 100)] of [initializeOrderBook] *)
| AwaitSnapshot (ticker : string) (buffer : nat) (firstEventU : Z)
    (again : bool)
    (** [await this.fetchOrderBookSnapshot(ticker)], with the locals the
        continuation uses; [again] is set for the second request *)
| AwaitFetch (ticker : string)
    (** the same [await] in a connector whose continuation reads nothing
        but [ticker] *)
| RetryTimer (ticker : string).
    (** [setTimeout(() => this.initializeOrderBook(ticker), 5000)] *)

(** What a connector does to the outside. *)
Inductive Action :=
| Subscribe (params : list string)   (** [ws.send] of a SUBSCRIBE payload *)
| Pong (n : Z)                       (** [ws.send({ pong })] *)
| Fetch (ticker : string)            (** REST request for a snapshot *)
| Start                              (** [this.start()]: reconnect *)
| CloseSocket.                       (** [ws.close(1000, ..)] *)

Record Connector := {
  prices : gmap string tickerData;
  formattedTickers : list string;
  isClosing : bool;
  orderBooks : gmap string OrderBook;
  depthUpdateBuffers : gmap string nat;
  isInitializing : gmap string bool;
  trackingOrderBook : gset string;
  trackingPrice : gset string;
  arrays : list (list DepthUpdate);
    (** the [DepthUpdate[]] objects; [depthUpdateBuffers] and the
        continuations hold references into this store *)
  pending : list Task;
  trace : list Action
}.

Definition with_prices (v : gmap string tickerData) (c : Connector) :=
  {| prices := v; formattedTickers := formattedTickers c;
     isClosing := isClosing c; orderBooks := orderBooks c;
     depthUpdateBuffers := depthUpdateBuffers c;
     isInitializing := isInitializing c;
     trackingOrderBook := trackingOrderBook c;
     trackingPrice := trackingPrice c; arrays := arrays c;
     pending := pending c; trace := trace c |}.

Definition with_isClosing (v : bool) (c : Connector) :=
  {| prices := prices c; formattedTickers := formattedTickers c;
     isClosing := v; orderBooks := orderBooks c;
     depthUpdateBuffers := depthUpdateBuffers c;
     isInitializing := isInitializing c;
     trackingOrderBook := trackingOrderBook c;
     trackingPrice := trackingPrice c; arrays := arrays c;
     pending := pending c; trace := trace c |}.

Definition with_orderBooks (v : gmap string OrderBook) (c : Connector) :=
  {| prices := prices c; formattedTickers := formattedTickers c;
     isClosing := isClosing c; orderBooks := v;
     depthUpdateBuffers := depthUpdateBuffers c;
     isInitializing := isInitializing c;
     trackingOrderBook := trackingOrderBook c;
     trackingPrice := trackingPrice c; arrays := arrays c;
     pending := pending c; trace := trace c |}.

Definition with_depthUpdateBuffers (v : gmap string nat) (c : Connector) :=
  {| prices := prices c; formattedTickers := formattedTickers c;
     isClosing := isClosing c; orderBooks := orderBooks c;
     depthUpdateBuffers := v;
     isInitializing := isInitializing c;
     trackingOrderBook := trackingOrderBook c;
     trackingPrice := trackingPrice c; arrays := arrays c;
     pending := pending c; trace := trace c |}.

Definition with_isInitializing (v : gmap string bool) (c : Connector) :=
  {| prices := prices c; formattedTickers := formattedTickers c;
     isClosing := isClosing c; orderBooks := orderBooks c;
     depthUpdateBuffers := depthUpdateBuffers c;
     isInitializing := v;
     trackingOrderBook := trackingOrderBook c;
     trackingPrice := trackingPrice c; arrays := arrays c;
     pending := pending c; trace := trace c |}.

Definition with_arrays (v : list (list DepthUpdate)) (c : Connector) :=
  {| prices := prices c; formattedTickers := formattedTickers c;
     isClosing := isClosing c; orderBooks := orderBooks c;
     depthUpdateBuffers := depthUpdateBuffers c;
     isInitializing := isInitializing c;
     trackingOrderBook := trackingOrderBook c;
     trackingPrice := trackingPrice c; arrays := v;
     pending := pending c; trace := trace c |}.

Definition with_pending (v : list Task) (c : Connector) :=
  {| prices := prices c; formattedTickers := formattedTickers c;
     isClosing := isClosing c; orderBooks := orderBooks c;
     depthUpdateBuffers := depthUpdateBuffers c;
     isInitializing := isInitializing c;
     trackingOrderBook := trackingOrderBook c;
     trackingPrice := trackingPrice c; arrays := arrays c;
     pending := v; trace := trace c |}.

Definition with_trace (v : list Action) (c : Connector) :=
  {| prices := prices c; formattedTickers := formattedTickers c;
     isClosing := isClosing c; orderBooks := orderBooks c;
     depthUpdateBuffers := depthUpdateBuffers c;
     isInitializing := isInitializing c;
     trackingOrderBook := trackingOrderBook c;
     trackingPrice := trackingPrice c; arrays := arrays c;
     pending := pending c; trace := v |}.

Definition with_formattedTickers (v : list string) (c : Connector) :=
  {| prices := prices c; formattedTickers := v;
     isClosing := isClosing c; orderBooks := orderBooks c;
     depthUpdateBuffers := depthUpdateBuffers c;
     isInitializing := isInitializing c;
     trackingOrderBook := trackingOrderBook c;
     trackingPrice := trackingPrice c; arrays := arrays c;
     pending := pending c; trace := trace c |}.

Definition with_trackingOrderBook (v : gset string) (c : Connector) :=
  {| prices := prices c; formattedTickers := formattedTickers c;
     isClosing := isClosing c; orderBooks := orderBooks c;
     depthUpdateBuffers := depthUpdateBuffers c;
     isInitializing := isInitializing c;
     trackingOrderBook := v;
     trackingPrice := trackingPrice c; arrays := arrays c;
     pending := pending c; trace := trace c |}.

Definition with_trackingPrice (v : gset string) (c : Connector) :=
  {| prices := prices c; formattedTickers := formattedTickers c;
     isClosing := isClosing c; orderBooks := orderBooks c;
     depthUpdateBuffers := depthUpdateBuffers c;
     isInitializing := isInitializing c;
     trackingOrderBook := trackingOrderBook c;
     trackingPrice := v; arrays := arrays c;
     pending := pending c; trace := trace c |}.

(** [setTimeout(..)] and [await ..]: one more suspended task. *)
Definition suspend (t : Task) (c : Connector) : Connector :=
  with_pending (pending c ++ [t]) c.

Definition emit (x : Action) (c : Connector) : Connector :=
  with_trace (trace c ++ [x]) c.

(** [this.isInitializing.get(ticker)] as a condition. *)
Definition initializing (ticker : string) (c : Connector) : bool :=
  default false (isInitializing c !! ticker).

(** [this.depthUpdateBuffers.set(ticker, [])]: a new array. *)
Definition resetBuffer (ticker : string) (c : Connector) : Connector :=
  with_depthUpdateBuffers
    (<[ticker := length (arrays c)]> (depthUpdateBuffers c))
    (with_arrays (arrays c ++ [[]]) c).

(** [this.depthUpdateBuffers.get(ticker) || []], read only. *)
Definition bufferOf (ticker : string) (c : Connector) : list DepthUpdate :=
  default [] (depthUpdateBuffers c !! ticker ≫= λ r, arrays c !! r).

(** [const buffer = this.depthUpdateBuffers.get(ticker) || [];
    buffer.push(data); this.depthUpdateBuffers.set(ticker, buffer)] *)
Definition pushBuffer (ticker : string) (data : DepthUpdate)
    (c : Connector) : Connector :=
  match depthUpdateBuffers c !! ticker with
  | Some r =>
      with_arrays (<[r := default [] (arrays c !! r) ++ [data]]> (arrays c)) c
  | None =>
      with_depthUpdateBuffers
        (<[ticker := length (arrays c)]> (depthUpdateBuffers c))
        (with_arrays (arrays c ++ [[data]]) c)
  end.

Section Shared.
Variable parseTicker : string → string.
Variable orderBookDepth : nat.

(** [updatePricesOrderBook(ticker)], the same in every connector that
    keeps a [lastUpdateId]. *)
Definition updatePricesOrderBook (now : Z) (ticker : string)
    (c : Connector) : Connector :=
  match orderBooks c !! ticker with
  | None => c
  | Some orderBook =>
      let parsedTicker := parseTicker ticker in
      let currentData := default noData (prices c !! parsedTicker) in
      with_prices
        (<[parsedTicker :=
            {| tickerData_price := tickerData_price currentData;
               lastUpdated := now;
               orders :=
                 {| bid := readLadder byPriceDesc orderBookDepth
                             (bids orderBook);
                    ask := readLadder byPriceAsc orderBookDepth
                             (asks orderBook);
                    Orders_lastUpdateId := Some (lastUpdateId orderBook) |}
            |}]> (prices c)) c
  end.

(** The body of [ws.onmessage] once [onMessage] returned a price:
    [this.prices.set(parsed, { price, lastUpdated: Date.now(),
    orders: currentData.orders })]. *)
Definition storePrice (now : Z) (ticker : string) (p : Z)
    (c : Connector) : Connector :=
  let parsedTicker := parseTicker ticker in
  let currentData := default noData (prices c !! parsedTicker) in
  with_prices
    (<[parsedTicker :=
        {| tickerData_price := Some p; lastUpdated := now;
           orders := orders currentData |}]> (prices c)) c.

(** The order book built from a snapshot body, with the marker the
    connector reads from it. *)
Definition bookOfSnapshot (snapshot : Snapshot) : OrderBook :=
  {| lastUpdateId := snapshot_lastUpdateId snapshot;
     bids := snapshotLevels (snapshot_bids snapshot);
     asks := snapshotLevels (snapshot_asks snapshot) |}.

(** The tail of every update handler: the ladders are changed in place,
    the marker is overwritten, the prices map is refreshed. *)
Definition writeBook (now : Z) (ticker : string) (orderBook : OrderBook)
    (bidChanges askChanges : list Level) (marker : Z)
    (c : Connector) : Connector :=
  updatePricesOrderBook now ticker
    (with_orderBooks
       (<[ticker :=
           {| lastUpdateId := marker;
              bids := applyLevels bidChanges (bids orderBook);
              asks := applyLevels askChanges (asks orderBook) |}]>
          (orderBooks c)) c).
End Shared.

(** [interface BinanceTickerConfig] and its copies in the other
    connectors; an absent optional field is [None]. *)
Record TickerConfig := {
  ticker : string;
  trackPrice : option bool;
  trackOrderBook : option bool
}.

(** The tracking sets and flags that every constructor and every
    [changeTickers] fill from the configuration. *)
Definition trackedPrice (format : string → string)
    (configs : list TickerConfig) : gset string :=
  list_to_set
    (format ∘ ticker <$>
       filter (λ cfg, trackPrice cfg ≠ Some false) configs).

Definition trackedOrderBook (format : string → string)
    (configs : list TickerConfig) : list string :=
  format ∘ ticker <$>
    filter (λ cfg, trackOrderBook cfg = Some true) configs.

(** [constructor(tickerConfigs)]: every tracked book starts flagged as
    initializing; [Binance] and [Backpack] also give it an empty buffer. *)
Definition construct (createTicker : string → string) (buffers : bool)
    (tickerConfigs : list TickerConfig) : Connector :=
  foldl (λ c t, with_isInitializing (<[t := true]> (isInitializing c))
                  (if buffers then resetBuffer t c else c))
    {| prices := ∅;
       formattedTickers := createTicker ∘ ticker <$> tickerConfigs;
       isClosing := false; orderBooks := ∅; depthUpdateBuffers := ∅;
       isInitializing := ∅;
       trackingOrderBook :=
         list_to_set (trackedOrderBook createTicker tickerConfigs);
       trackingPrice := trackedPrice createTicker tickerConfigs;
       arrays := []; pending := []; trace := [] |}
    (trackedOrderBook createTicker tickerConfigs).

(** The event loop runs the [i]-th suspended task: the task leaves
    [pending]. *)
Definition resume (i : nat) (c : Connector) : option (Task * Connector) :=
  (λ t, (t, with_pending (delete i (pending c)) c)) <$> pending c !! i.

(** [close()], the same in [Binance], [Backpack] and [OKX]. *)
Definition close (c : Connector) : Connector :=
  emit CloseSocket (with_isClosing true c).

(** ** [Binance.ts] *)

Module Binance.

Definition parseTicker (t : string) : string := js_replace "USDT" "" t.
Definition createTicker (t : string) : string := t +:+ "USDT".
Definition orderBookDepth : nat := 20.

Definition updatePricesOrderBook :=
  updatePricesOrderBook parseTicker orderBookDepth.

(** What [ws.onmessage] receives, after [JSON.parse]. *)
Inductive Message :=
| Ping (n : Z)                       (** [data.ping] *)
| MiniTicker (sym : string) (c : Z)  (** [e === '24hrMiniTicker'] *)
| Depth (d : DepthUpdate)            (** [e === 'depthUpdate'] *)
| Unknown.

(** [constructor(tickerConfigs)] *)
Definition new : list TickerConfig → Connector := construct createTicker true.

(** [initializeOrderBook(ticker)] up to its first [await]: the flag is
    set, the buffer is replaced by a new empty array, and [checkBuffer],
    which finds that array empty, arms its timer. *)
Definition initializeOrderBook (t : string) (c : Connector) : Connector :=
  suspend (WaitBuffer t)
    (resetBuffer t
       (with_isInitializing (<[t := true]> (isInitializing c)) c)).

(** [applyDepthUpdate(ticker, data)] *)
Definition applyDepthUpdate (now : Z) (t : string) (data : DepthUpdate)
    (c : Connector) : Connector :=
  match orderBooks c !! t with
  | None => c
  | Some orderBook =>
      if decide (u data ≤ lastUpdateId orderBook) then c
      else if decide (U data > lastUpdateId orderBook + 1) then
        initializeOrderBook t
          (with_isInitializing (<[t := true]> (isInitializing c)) c)
      else
        writeBook parseTicker orderBookDepth now t orderBook
          (b data) (a data) (u data) c
  end.

(** [processDepthUpdate(data)] *)
Definition processDepthUpdate (now : Z) (data : DepthUpdate)
    (c : Connector) : Connector :=
  let t := s data in
  if initializing t c then pushBuffer t data c
  else applyDepthUpdate now t data c.

(** [checkBuffer()] when its timer fires.  With a non-empty buffer the
    promise resolves and [initializeOrderBook] continues in the same turn
    of the event loop up to [await this.fetchOrderBookSnapshot(ticker)];
    [buffer] is the array bound to the ticker at that moment. *)
Definition checkBuffer (t : string) (c : Connector) : Connector :=
  match depthUpdateBuffers c !! t with
  | Some r =>
      match arrays c !! r with
      | Some (firstEvent :: _) =>
          suspend (AwaitSnapshot t r (U firstEvent) false) (emit (Fetch t) c)
      | _ => suspend (WaitBuffer t) c
      end
  | None => suspend (WaitBuffer t) c
  end.

(** The end of the [try] block of [initializeOrderBook]. *)
Definition markInitialized (now : Z) (t : string) (c : Connector)
    : Connector :=
  resetBuffer t
    (let c' := updatePricesOrderBook now t c in
     with_isInitializing (<[t := false]> (isInitializing c')) c').

(** [initializeOrderBook] from "Initialize order book with snapshot data"
    to the end of the [try] block; [buffer] is the array the function read
    before it requested the snapshot. *)
Definition installSnapshot (now : Z) (t : string) (buffer : nat)
    (snapshot : Snapshot) (c : Connector) : Connector :=
  let c1 :=
    with_orderBooks (<[t := bookOfSnapshot snapshot]> (orderBooks c)) c in
  let validEvents :=
    filter (λ event, u event > snapshot_lastUpdateId snapshot)
      (default [] (arrays c !! buffer)) in
  match validEvents with
  | [] => markInitialized now t c1
  | firstValidEvent :: _ =>
      if decide (U firstValidEvent ≤ snapshot_lastUpdateId snapshot + 1 ∧
                 u firstValidEvent >= snapshot_lastUpdateId snapshot + 1)
      then
        markInitialized now t
          (foldl (λ c' event, applyDepthUpdate now t event c') c1
             validEvents)
      else initializeOrderBook t c1
  end.

(** The continuation of [await this.fetchOrderBookSnapshot(ticker)].
    [None] is a rejected request or a body on which the [try] block
    throws; the [catch] block arms the retry timer.  An outdated first
    snapshot is requested once more, the second one is taken as it is. *)
Definition snapshotSettled (now : Z) (t : string) (buffer : nat)
    (firstEventU : Z) (again : bool) (result : option Snapshot)
    (c : Connector) : Connector :=
  match result with
  | None => suspend (RetryTimer t) c
  | Some snapshot =>
      if negb again && bool_decide (snapshot_lastUpdateId snapshot < firstEventU)
      then suspend (AwaitSnapshot t buffer firstEventU true) (emit (Fetch t) c)
      else installSnapshot now t buffer snapshot c
  end.

(** [onMessage(event)]: the price it returns, and its effect.  The test
    [if (data.ping)] fails for the number [0]. *)
Definition onMessage (now : Z) (m : Message) (c : Connector)
    : option (string * Z) * Connector :=
  match m with
  | Ping n => (None, if decide (n = 0) then c else emit (Pong n) c)
  | MiniTicker sym p =>
      (if decide (sym ∈ trackingPrice c) then Some (sym, p) else None, c)
  | Depth d =>
      (None,
       if decide (s d ∈ trackingOrderBook c) then processDepthUpdate now d c
       else c)
  | Unknown => (None, c)
  end.

(** [onSubscribe(ws, tickers)] *)
Definition onSubscribe (tickers : list string) (c : Connector) : Connector :=
  let subscriptionParams :=
    tickers ≫= λ t,
      (if decide (t ∈ trackingPrice c)
       then [js_toLowerCase t +:+ "@miniTicker"] else []) ++
      (if decide (t ∈ trackingOrderBook c)
       then [js_toLowerCase t +:+ "@depth"] else []) in
  let c1 :=
    match subscriptionParams with
    | [] => c
    | _ => emit (Subscribe subscriptionParams) c
    end in
  foldl (λ c' t, if decide (t ∈ trackingOrderBook c') then
                   initializeOrderBook t c' else c') c1 tickers.

(** What the event loop delivers to a connector. *)
Inductive Event :=
| WsOpen                         (** [ws.onopen] *)
| WsMessage (m : Message)        (** [ws.onmessage] *)
| WsClose (code : Z)             (** [ws.onclose] *)
| TimerFires (i : nat)           (** the timer of the [i]-th pending task *)
| FetchSettles (i : nat) (result : option Snapshot)
                                 (** the request of the [i]-th pending task *)
| CallClose.                     (** the page calls [close()] *)

Definition step (now : Z) (e : Event) (c : Connector) : Connector :=
  match e with
  | WsOpen =>
      if isClosing c then c else onSubscribe (formattedTickers c) c
  | WsMessage m =>
      match onMessage now m c with
      | (Some (t, p), c') => storePrice parseTicker now t p c'
      | (None, c') => c'
      end
  | WsClose code =>
      if negb (isClosing c) && negb (bool_decide (code = 1000))
      then emit Start c else c
  | TimerFires i =>
      match resume i c with
      | Some (WaitBuffer t, c') => checkBuffer t c'
      | Some (RetryTimer t, c') => initializeOrderBook t c'
      | _ => c
      end
  | FetchSettles i result =>
      match resume i c with
      | Some (AwaitSnapshot t buffer firstEventU again, c') =>
          snapshotSettled now t buffer firstEventU again result c'
      | _ => c
      end
  | CallClose => close c
  end.

(** A run of the event loop: events with the clock reading of each. *)
Definition run (es : list (Z * Event)) (c : Connector) : Connector :=
  foldl (λ c' e, step e.1 e.2 c') c es.

(** [unsubscribeAll()].  [open] is [this.ws.readyState === WebSocket.OPEN].
    The result is the UNSUBSCRIBE payload, when one is sent, and the
    connector.  The miniTicker streams are pushed while the [Set]
    [trackingPrice] is iterated; the connector state keeps no iteration
    order for that set, so they are given as a set, followed by the array
    of the depth streams. *)
Definition unsubscribeAll (open : bool) (c : Connector)
    : option (gset string * list string) * Connector :=
  if negb open then (None, c)
  else
    let priceParams : gset string :=
      set_map (λ t, js_toLowerCase t +:+ "@miniTicker") (trackingPrice c) in
    let depthParams :=
      (λ t, js_toLowerCase t +:+ "@depth") <$>
        filter (λ t, t ∈ trackingOrderBook c) (formattedTickers c) in
    (if decide (trackingPrice c = ∅ ∧ depthParams = []) then None
     else Some (priceParams, depthParams),
     with_isInitializing ∅ (with_orderBooks ∅ (with_prices ∅ c))).

(** [changeTickers(newTickerConfigs)] for an array of configurations.
    [unsubscribeAll] contains no [await], so the promise that
    [changeTickers] awaits is settled when it is returned and no handler
    of the connector runs in between.  [await this.start()] on a socket
    that is not open is the reconnect of [ws.onclose]. *)
Definition changeTickers (open : bool) (newTickerConfigs : list TickerConfig)
    (c : Connector) : option (gset string * list string) * Connector :=
  let '(payload, c1) := unsubscribeAll open c in
  let c2 :=
    with_formattedTickers (createTicker ∘ ticker <$> newTickerConfigs)
      (foldl (λ c' t, with_isInitializing (<[t := true]> (isInitializing c'))
                        c')
         (with_trackingPrice (trackedPrice createTicker newTickerConfigs)
            (with_trackingOrderBook
               (list_to_set (trackedOrderBook createTicker newTickerConfigs))
               c1))
         (trackedOrderBook createTicker newTickerConfigs)) in
  (payload,
   if open then onSubscribe (formattedTickers c2) c2 else emit Start c2).

End Binance.

(** ** [Backpack.ts]

    The class is a copy of [Binance] with another symbol format; the
    segments that differ are [applyDepthUpdate] and the replay of the
    buffer after the snapshot.  [parseInt] of the update ids happens at
    the wire boundary. *)

Module Backpack.

Definition parseTicker (t : string) : string := js_replace "_USDC" "" t.
Definition createTicker (t : string) : string := t +:+ "_USDC".
Definition orderBookDepth : nat := 20.

Definition updatePricesOrderBook :=
  updatePricesOrderBook parseTicker orderBookDepth.

(** [initializeOrderBook(ticker)] up to its first [await]. *)
Definition initializeOrderBook (t : string) (c : Connector) : Connector :=
  suspend (WaitBuffer t)
    (resetBuffer t
       (with_isInitializing (<[t := true]> (isInitializing c)) c)).

(** [applyDepthUpdate(ticker, data)] *)
Definition applyDepthUpdate (now : Z) (t : string) (data : DepthUpdate)
    (c : Connector) : Connector :=
  match orderBooks c !! t with
  | None => c
  | Some orderBook =>
      if decide (u data ≤ lastUpdateId orderBook) then c
      else
        writeBook parseTicker orderBookDepth now t orderBook
          (b data) (a data) (u data) c
  end.

(** [processDepthUpdate(data)] *)
Definition processDepthUpdate (now : Z) (data : DepthUpdate)
    (c : Connector) : Connector :=
  let t := s data in
  if initializing t c then pushBuffer t data c
  else applyDepthUpdate now t data c.

(** [checkBuffer()] when its timer fires. *)
Definition checkBuffer (t : string) (c : Connector) : Connector :=
  match bufferOf t c with
  | [] => suspend (WaitBuffer t) c
  | _ => suspend (AwaitFetch t) (emit (Fetch t) c)
  end.

(** [initializeOrderBook] after the snapshot arrived, to the end of the
    [try] block. *)
Definition installSnapshot (now : Z) (t : string) (snapshot : Snapshot)
    (c : Connector) : Connector :=
  let c1 :=
    with_orderBooks (<[t := bookOfSnapshot snapshot]> (orderBooks c)) c in
  let buffer := bufferOf t c1 in
  let validEvents :=
    filter (λ event, u event > snapshot_lastUpdateId snapshot) buffer in
  let c2 :=
    foldl (λ c' event, applyDepthUpdate now t event c') c1 validEvents in
  let c3 := updatePricesOrderBook now t c2 in
  resetBuffer t (with_isInitializing (<[t := false]> (isInitializing c3)) c3).

Definition snapshotSettled (now : Z) (t : string)
    (result : option Snapshot) (c : Connector) : Connector :=
  match result with
  | None => suspend (RetryTimer t) c
  | Some snapshot => installSnapshot now t snapshot c
  end.

(** [constructor(tickerConfigs)] *)
Definition new : list TickerConfig → Connector := construct createTicker true.

(** The timers and the request of the connector in the event loop. *)
Definition timerFires (i : nat) (c : Connector) : Connector :=
  match resume i c with
  | Some (WaitBuffer t, c') => checkBuffer t c'
  | Some (RetryTimer t, c') => initializeOrderBook t c'
  | _ => c
  end.

Definition fetchSettles (now : Z) (i : nat) (result : option Snapshot)
    (c : Connector) : Connector :=
  match resume i c with
  | Some (AwaitFetch t, c') => snapshotSettled now t result c'
  | _ => c
  end.

End Backpack.

(** ** [OKX.ts] *)

Module OKX.

Definition parseTicker (t : string) : string := js_replace "-USDT" "" t.
Definition createTicker (t : string) : string := t +:+ "-USDT".
Definition orderBookDepth : nat := 20.

Definition updatePricesOrderBook :=
  updatePricesOrderBook parseTicker orderBookDepth.

(** An element of [OkxDepthUpdate.data]; [ts] after [parseInt]. *)
Record BookData := {
  asks : list Level;
  bids : list Level;
  ts : Z
}.

(** [interface OkxDepthUpdate] *)
Record OkxDepthUpdate := {
  instId : string;
  data : list BookData
}.

(** [processOrderBookUpdate(data)].  [None] is the [TypeError] of reading
    [data.data[0].bids] when [data.data] is empty. *)
Definition processOrderBookUpdate (now : Z) (msg : OkxDepthUpdate)
    (c : Connector) : option Connector :=
  let t := instId msg in
  if initializing t c then Some c
  else
    let orderBookData := head (data msg) in
    match orderBooks c !! t with
    | None => Some c
    | Some orderBook =>
        match orderBookData with
        | None => None
        | Some d =>
            Some (writeBook parseTicker orderBookDepth now t orderBook
                    (bids d) (asks d) (ts d) c)
        end
    end.

(** [initializeOrderBook(ticker)] up to its [await]: the request is sent
    at once. *)
Definition initializeOrderBook (t : string) (c : Connector) : Connector :=
  suspend (AwaitFetch t)
    (emit (Fetch t)
       (with_isInitializing (<[t := true]> (isInitializing c)) c)).

(** The continuation of the [await]; the marker of the book is
    [parseInt(snapshot.ts)]. *)
Definition snapshotSettled (now : Z) (t : string)
    (result : option Snapshot) (c : Connector) : Connector :=
  match result with
  | None => suspend (RetryTimer t) c
  | Some snapshot =>
      let c1 :=
        updatePricesOrderBook now t
          (with_orderBooks (<[t := bookOfSnapshot snapshot]> (orderBooks c))
             c) in
      with_isInitializing (<[t := false]> (isInitializing c1)) c1
  end.

(** [constructor(tickerConfigs)] *)
Definition new : list TickerConfig → Connector :=
  construct createTicker false.

(** The retry timer and the request of the connector in the event loop. *)
Definition timerFires (i : nat) (c : Connector) : Connector :=
  match resume i c with
  | Some (RetryTimer t, c') => initializeOrderBook t c'
  | _ => c
  end.

Definition fetchSettles (now : Z) (i : nat) (result : option Snapshot)
    (c : Connector) : Connector :=
  match resume i c with
  | Some (AwaitFetch t, c') => snapshotSettled now t result c'
  | _ => c
  end.

End OKX.

(** ** [Kucoin.ts] *)

Module Kucoin.

Definition parseTicker (t : string) : string := js_replace "-USDT" "" t.
Definition createTicker (t : string) : string := t +:+ "-USDT".
Definition orderBookDepth : nat := 20.

Definition updatePricesOrderBook :=
  updatePricesOrderBook parseTicker orderBookDepth.

(** [interface KucoinLevel2Update] *)
Record KucoinLevel2Update := {
  topic : string;
  sequenceStart : Z;
  sequenceEnd : Z;
  symbol : string;
  asks : list Level;
  bids : list Level
}.

(** [processOrderBookUpdate(data)].  A topic without [':'] gives the key
    [undefined], which no map contains. *)
Definition processOrderBookUpdate (now : Z) (msg : KucoinLevel2Update)
    (c : Connector) : Connector :=
  match js_splitAt ":"%char 1 (topic msg) with
  | None => c
  | Some t =>
      if initializing t c then c
      else
        match orderBooks c !! t with
        | None => c
        | Some orderBook =>
            writeBook parseTicker orderBookDepth now t orderBook
              (bids msg) (asks msg) (sequenceEnd msg) c
        end
  end.

(** [initializeOrderBook(ticker)] up to its [await]. *)
Definition initializeOrderBook (t : string) (c : Connector) : Connector :=
  suspend (AwaitFetch t)
    (emit (Fetch t)
       (with_isInitializing (<[t := true]> (isInitializing c)) c)).

(** The continuation of the [await]; the marker of the book is
    [snapshot.sequence]. *)
Definition snapshotSettled (now : Z) (t : string)
    (result : option Snapshot) (c : Connector) : Connector :=
  match result with
  | None => suspend (RetryTimer t) c
  | Some snapshot =>
      let c1 :=
        updatePricesOrderBook now t
          (with_orderBooks (<[t := bookOfSnapshot snapshot]> (orderBooks c))
             c) in
      with_isInitializing (<[t := false]> (isInitializing c1)) c1
  end.

(** [constructor(tickerConfigs)] *)
Definition new : list TickerConfig → Connector :=
  construct createTicker false.

(** The retry timer and the request of the connector in the event loop. *)
Definition timerFires (i : nat) (c : Connector) : Connector :=
  match resume i c with
  | Some (RetryTimer t, c') => initializeOrderBook t c'
  | _ => c
  end.

Definition fetchSettles (now : Z) (i : nat) (result : option Snapshot)
    (c : Connector) : Connector :=
  match resume i c with
  | Some (AwaitFetch t, c') => snapshotSettled now t result c'
  | _ => c
  end.

End Kucoin.

(** ** [Kraken.ts]

    The class keeps no marker: a book is its two ladders, and the orders
    it publishes carry no [lastUpdateId]. *)

Module Kraken.

Definition parseTicker (t : string) : string :=
  default "" (js_splitAt "/"%char 0 t).
Definition createTicker (t : string) : string := t +:+ "/USD".
Definition orderBookDepth : nat := 100.

(** The entry of [orderBooks]. *)
Record Book := {
  bids : Ladder;
  asks : Ladder
}.

(** Modelled from the spec: [KrakenBookSnapshot] and [KrakenBookUpdate]
    are imported from [../types], which does not declare them.  The fields
    are the ones the handlers read from [data.data[0]]; a level
    [{price, qty}] is a PriceLevel of the design document. *)
Record BookData := {
  symbol : string;
  bidLevels : list Level;
  askLevels : list Level
}.

(** The fields of the class that the book handlers touch. *)
Record State := {
  prices : gmap string tickerData;
  orderBooks : gmap string Book
}.

(** [updatePricesOrderBook(symbol)] *)
Definition updatePricesOrderBook (now : Z) (sym : string) (c : State)
    : State :=
  match orderBooks c !! sym with
  | None => c
  | Some orderBook =>
      let t := parseTicker sym in
      let currentData := default noData (prices c !! t) in
      {| prices :=
           <[t := {| tickerData_price := tickerData_price currentData;
                     lastUpdated := now;
                     orders :=
                       {| bid := readLadder byPriceDesc orderBookDepth
                                   (bids orderBook);
                          ask := readLadder byPriceAsc orderBookDepth
                                   (asks orderBook);
                          Orders_lastUpdateId := None |} |}]> (prices c);
         orderBooks := orderBooks c |}
  end.

(** [levels.forEach(l => m.set(l.price, l.qty))] *)
Definition setLevels (levels : list Level) : Ladder :=
  foldl (λ m l, JsMap.set l.1 l.2 m) JsMap.empty levels.

(** [processBookSnapshot(data)]; [None] is the [TypeError] on an empty
    [data.data], which [onMessage] catches. *)
Definition processBookSnapshot (now : Z) (data : list BookData) (c : State)
    : option State :=
  match data with
  | [] => None
  | bookData :: _ =>
      Some (updatePricesOrderBook now (symbol bookData)
              {| prices := prices c;
                 orderBooks :=
                   <[symbol bookData :=
                       {| bids := setLevels (bidLevels bookData);
                          asks := setLevels (askLevels bookData) |}]>
                     (orderBooks c) |})
  end.

(** [processBookUpdate(data)] *)
Definition processBookUpdate (now : Z) (data : list BookData) (c : State)
    : option State :=
  match data with
  | [] => None
  | bookData :: _ =>
      match orderBooks c !! symbol bookData with
      | None => Some c
      | Some orderBook =>
          Some (updatePricesOrderBook now (symbol bookData)
                  {| prices := prices c;
                     orderBooks :=
                       <[symbol bookData :=
                           {| bids := applyLevels (bidLevels bookData)
                                        (bids orderBook);
                              asks := applyLevels (askLevels bookData)
                                        (asks orderBook) |}]>
                         (orderBooks c) |})
      end
  end.

End Kraken.

(** ** [Bybit.ts]

    The exchange sends the snapshot of a book on the socket and deltas
    after it; the class requests nothing.  The file has the constructor
    and the two book handlers.  [depthLevels], which only [onSubscribe]
    reads, is not part of the state. *)

Module Bybit.

Definition parseTicker (t : string) : string := js_replace "USDT" "" t.
Definition createTicker (t : string) : string := t +:+ "USDT".
Definition orderBookDepth : nat := 20.

Definition updatePricesOrderBook :=
  updatePricesOrderBook parseTicker orderBookDepth.

(** [interface BybitDepthUpdate]: the topic and the fields of [data] that
    the handlers read. *)
Record BybitDepthUpdate := {
  topic : string;
  b : list Level;
  a : list Level;
  u : Z
}.

(** [processOrderBookSnapshot(data)].  [None] is the [TypeError] of
    [parseTicker(undefined)] on a topic with fewer than three parts;
    [onMessage] calls the handler only with the topic of a ticker of
    [trackingOrderBook]. *)
Definition processOrderBookSnapshot (now : Z) (data : BybitDepthUpdate)
    (c : Connector) : option Connector :=
  match js_splitAt "."%char 2 (topic data) with
  | None => None
  | Some t =>
      let c1 :=
        updatePricesOrderBook now t
          (with_orderBooks
             (<[t := {| lastUpdateId := u data;
                        bids := snapshotLevels (b data);
                        asks := snapshotLevels (a data) |}]>
                (orderBooks c)) c) in
      Some (with_isInitializing (<[t := false]> (isInitializing c1)) c1)
  end.

(** [processOrderBookUpdate(data)].  A topic with fewer than three parts
    gives the key [undefined], which no map contains. *)
Definition processOrderBookUpdate (now : Z) (data : BybitDepthUpdate)
    (c : Connector) : Connector :=
  match js_splitAt "."%char 2 (topic data) with
  | None => c
  | Some t =>
      if initializing t c then c
      else
        match orderBooks c !! t with
        | None => c
        | Some orderBook =>
            writeBook parseTicker orderBookDepth now t orderBook
              (b data) (a data) (u data) c
        end
  end.

(** [constructor(tickerConfigs)] *)
Definition new : list TickerConfig → Connector :=
  construct createTicker false.

End Bybit.

(** ** [app/page.tsx]: the aggregation

    [exchanges] is the object [{binance, bybit, okx, kucoin, backpack}];
    it is the list of its entries in key order, [None] for [null].  The
    page reads only the [prices] map of a connector.  The sizes are the
    exact quantities of the connectors and their sums are exact; the
    rounding of the additions is in [PageFloat] below.  The mean of the
    connectors' last prices, which the same callback computes, is a
    floating-point division and is left out. *)

Module Page.

Definition Exchanges : Type := list (string * option Connector).

(** [aggregateOrders(orders, isBid)] *)
Definition addOrder (priceMap : Ladder) (order : Order) : Ladder :=
  let currentSize := default 0 (JsMap.get (price order) priceMap) in
  JsMap.set (price order) (currentSize + size order) priceMap.

Definition aggregateOrders (orders : list Order) (isBid : bool)
    : list Order :=
  let priceMap := foldl addOrder JsMap.empty orders in
  js_sort (if isBid then byPriceDesc else byPriceAsc)
    (toOrder <$> JsMap.entries priceMap).

(** [exchange.prices.get(selectedTicker)] behind the two guards
    [if (!exchange) return] and [if (!tickerData || !tickerData.orders)
    return]. *)
Definition ordersOf (selectedTicker : string) (exchange : option Connector)
    : option Orders :=
  exchange ≫= λ ex, orders <$> prices ex !! selectedTicker.

(** [allBids] and [allAsks] after the [forEach] over
    [Object.values(exchanges)]. *)
Definition collect (side : Orders → list Order) (selectedTicker : string)
    (exchanges : Exchanges) : list Order :=
  foldl (λ all exchange,
           match ordersOf selectedTicker exchange with
           | None => all
           | Some os => all ++ side os
           end) [] exchanges.*2.

(** The state [aggregatedOrderBook]. *)
Record AggregatedOrderBook := {
  bids : list Order;
  asks : list Order
}.

(** The callback of [setInterval(.., 100)]. *)
Definition aggregate (selectedTicker : string) (orderbookDepth : nat)
    (exchanges : Exchanges) : AggregatedOrderBook :=
  let allBids := collect bid selectedTicker exchanges in
  let allAsks := collect ask selectedTicker exchanges in
  let aggregatedBids := aggregateOrders allBids true in
  let aggregatedAsks := aggregateOrders allAsks false in
  {| bids := take orderbookDepth aggregatedBids;
     asks := take orderbookDepth aggregatedAsks |}.

(** [getSourcesForPrice(price, isBid)]; the result is a
    [Record<string, number>]. *)
Definition getSourcesForPrice (selectedTicker : string)
    (exchanges : Exchanges) (p : Z) (isBid : bool) : gmap string Z :=
  foldl (λ sources entry,
           match ordersOf selectedTicker entry.2 with
           | None => sources
           | Some os =>
               let matchingOrders :=
                 filter (λ order, price order = p)
                   (if isBid then bid os else ask os) in
               match matchingOrders with
               | [] => sources
               | _ =>
                   let totalSize :=
                     foldl (λ sum order, sum + size order) 0
                       matchingOrders in
                   <[entry.1 := totalSize]> sources
               end
           end) ∅ exchanges.


End Page.

(** ** [app/page.tsx]: the aggregation, with the sizes as binary64

    In the connectors a size is stored and compared with zero; the page is
    the place where sizes are added.  This module is the aggregation of
    [page.tsx] once more, with a size as the IEEE 754 binary64 value that
    [parseFloat] returns and [+] as the rounding addition of JavaScript
    ([PrimFloat.add]).  A price is compared and used as a key and never
    computed with, it stays the exact quantity of the rest of the file.
    An exchange is what the page reads of it: its [prices] map, with the
    [orders] of a ticker. *)

Module PageFloat.

Record Order := { price : Z; size : float }.

Record Orders := {
  bid : list Order;
  ask : list Order
}.

Definition Exchanges : Type := list (string * option (gmap string Orders)).

(** A [number] as a condition: every value but [0], [-0] and [NaN]. *)
Definition truthy (x : float) : bool :=
  negb (PrimFloat.eqb x 0%float) && PrimFloat.eqb x x.

(** [x || 0] *)
Definition orZero (x : float) : float := if truthy x then x else 0%float.

(** [aggregateOrders(orders, isBid)]:
    [const currentSize = priceMap.get(order.price) || 0;
     priceMap.set(order.price, currentSize + order.size)] *)
Definition addOrder (priceMap : JsMap.t Z float) (order : Order)
    : JsMap.t Z float :=
  let currentSize :=
    match JsMap.get (price order) priceMap with
    | Some x => orZero x
    | None => 0%float
    end in
  JsMap.set (price order) (currentSize + size order)%float priceMap.

(** [(a, b) => b.price - a.price] and [(a, b) => a.price - b.price] *)
Definition byPriceDesc (a b : Order) : Z := price b - price a.
Definition byPriceAsc (a b : Order) : Z := price a - price b.

(** [.map(([price, size]) => ({ price, size }))] *)
Definition toOrder (e : Z * float) : Order :=
  {| price := e.1; size := e.2 |}.

Definition aggregateOrders (orders : list Order) (isBid : bool)
    : list Order :=
  let priceMap := foldl addOrder JsMap.empty orders in
  js_sort (if isBid then byPriceDesc else byPriceAsc)
    (toOrder <$> JsMap.entries priceMap).

(** [exchange.prices.get(selectedTicker)] behind the two guards
    [if (!exchange) return] and [if (!tickerData || !tickerData.orders)
    return]. *)
Definition ordersOf (selectedTicker : string)
    (exchange : option (gmap string Orders)) : option Orders :=
  exchange ≫= λ prices, prices !! selectedTicker.

(** [allBids] and [allAsks] after the [forEach] over
    [Object.values(exchanges)]. *)
Definition collect (side : Orders → list Order) (selectedTicker : string)
    (exchanges : Exchanges) : list Order :=
  foldl (λ all exchange,
           match ordersOf selectedTicker exchange with
           | None => all
           | Some os => all ++ side os
           end) [] exchanges.*2.

(** The state [aggregatedOrderBook]. *)
Record AggregatedOrderBook := {
  bids : list Order;
  asks : list Order
}.

(** The callback of [setInterval(.., 100)]. *)
Definition aggregate (selectedTicker : string) (orderbookDepth : nat)
    (exchanges : Exchanges) : AggregatedOrderBook :=
  let allBids := collect bid selectedTicker exchanges in
  let allAsks := collect ask selectedTicker exchanges in
  let aggregatedBids := aggregateOrders allBids true in
  let aggregatedAsks := aggregateOrders allAsks false in
  {| bids := take orderbookDepth aggregatedBids;
     asks := take orderbookDepth aggregatedAsks |}.

End PageFloat.

(** ** Sample runs

    Concrete connectors, reached by running the model from the
    constructor; the examples of the properties below are taken on them. *)

Module Samples.

Definition btc : TickerConfig :=
  {| ticker := "BTC"; trackPrice := None; trackOrderBook := Some true |}.

Definition snapshotAt (marker : Z) (bs as_ : list Level) : Snapshot :=
  {| snapshot_lastUpdateId := marker; snapshot_bids := bs;
     snapshot_asks := as_ |}.

(** A Binance connector that buffered [buffered] while it waited and has
    requested the snapshot; then the snapshot arrives. *)
Definition binanceBuffered (buffered : list DepthUpdate) : Connector :=
  Binance.run
    ([(0, Binance.WsOpen)] ++
     ((λ d, (1, Binance.WsMessage (Binance.Depth d))) <$> buffered) ++
     [(2, Binance.TimerFires 0)])
    (Binance.new [btc]).

Definition binanceAfter (buffered : list DepthUpdate) (snapshot : Snapshot)
    : Connector :=
  Binance.step 3 (Binance.FetchSettles 0 (Some snapshot))
    (binanceBuffered buffered).

(** The same for Backpack. *)
Definition backpackAfter (buffered : list DepthUpdate) (snapshot : Snapshot)
    : Connector :=
  Backpack.fetchSettles 3 0 (Some snapshot)
    (Backpack.timerFires 0
       (foldl (λ c d, Backpack.processDepthUpdate 1 d c)
          (Backpack.initializeOrderBook "BTC_USDC" (Backpack.new [btc]))
          buffered)).

(** The scenario of the design document: updates that cover the markers
    498 to 501 and 502 to 505, and a snapshot at marker 500. *)
Definition range (sym : string) (first last : Z) (bs as_ : list Level)
    : DepthUpdate :=
  {| s := sym; U := first; u := last; b := bs; a := as_ |}.

Definition scenarioBuffer (sym : string) : list DepthUpdate :=
  [range sym 498 501 [(100, 2)] [(101, 0)];
   range sym 502 505 [(100, 7); (99, 4)] []].

Definition scenarioSnapshot : Snapshot :=
  snapshotAt 500 [(100, 1); (98, 3)] [(101, 5)].

Definition binanceScenario : Connector :=
  binanceAfter (scenarioBuffer "BTCUSDT") scenarioSnapshot.
Definition backpackScenario : Connector :=
  backpackAfter (scenarioBuffer "BTC_USDC") scenarioSnapshot.

(** OKX and Kucoin request the snapshot at once. *)
Definition okxAfter (snapshot : Snapshot) : Connector :=
  OKX.fetchSettles 3 0 (Some snapshot)
    (OKX.initializeOrderBook "BTC-USDT" (OKX.new [btc])).

Definition kucoinAfter (snapshot : Snapshot) : Connector :=
  Kucoin.fetchSettles 3 0 (Some snapshot)
    (Kucoin.initializeOrderBook "BTC-USDT" (Kucoin.new [btc])).

(** Two live connectors that quote the bid price 100. *)
Definition exchangeA : Connector :=
  binanceAfter
    [{| s := "BTCUSDT"; U := 7; u := 9; b := []; a := [] |}]
    (snapshotAt 10 [(100, 2)] [(101, 1)]).

Definition exchangeB : Connector := okxAfter (snapshotAt 10 [(100, 3)] []).

(** A live Binance book with marker 10, and an update that follows it. *)
Definition liveBinance : Connector := exchangeA.

Definition nextUpdate (changes : list Level) : DepthUpdate :=
  {| s := "BTCUSDT"; U := 11; u := 12; b := changes; a := [] |}.

(** A live OKX and a live Kucoin book with marker 1000. *)
Definition liveOkx : Connector := okxAfter (snapshotAt 1000 [(100, 1)] []).
Definition liveKucoin : Connector :=
  kucoinAfter (snapshotAt 1000 [(100, 1)] []).

(** A live Kraken book. *)
Definition liveKraken : Kraken.State :=
  default {| Kraken.prices := ∅; Kraken.orderBooks := ∅ |}
    (Kraken.processBookSnapshot 0
       [{| Kraken.symbol := "BTC/USD"; Kraken.bidLevels := [(100, 2)];
           Kraken.askLevels := [(101, 1)] |}]
       {| Kraken.prices := ∅; Kraken.orderBooks := ∅ |}).

(** A Binance connector whose snapshot request is in flight. *)
Definition fetchInFlight : Connector :=
  binanceBuffered [range "BTCUSDT" 498 501 [(100, 2)] []].

(** The request fails, the page closes the connector, the retry timer
    fires, and the polling timer it arms fires in turn. *)
Definition closedThenRetry : Connector :=
  Binance.run
    [(3, Binance.FetchSettles 0 None); (4, Binance.CallClose);
     (5003, Binance.TimerFires 0); (5103, Binance.TimerFires 0)]
    fetchInFlight.

(** The page closes the connector while the request is in flight, and the
    snapshot that arrives is older than the first buffered update. *)
Definition closedThenSnapshot : Connector :=
  Binance.run
    [(3, Binance.CallClose);
     (4, Binance.FetchSettles 0 (Some (snapshotAt 490 [] [])))]
    fetchInFlight.

(** The same first run on OKX, whose [initializeOrderBook] sends the
    request at once. *)
Definition okxClosedThenRetry : Connector :=
  OKX.timerFires 0
    (close
       (OKX.fetchSettles 3 0 None
          (OKX.initializeOrderBook "BTC-USDT" (OKX.new [btc])))).

(** An OKX update stamped before the marker of the live book. *)
Definition okxStale : OKX.OkxDepthUpdate :=
  {| OKX.instId := "BTC-USDT";
     OKX.data := [{| OKX.asks := []; OKX.bids := [(100, 7)];
                     OKX.ts := 900 |}] |}.

(** A Kucoin update that skips five markers after the live book. *)
Definition kucoinAfterGap : Connector :=
  Kucoin.processOrderBookUpdate 4
    {| Kucoin.topic := "/market/level2:BTC-USDT";
       Kucoin.sequenceStart := 1006; Kucoin.sequenceEnd := 1007;
       Kucoin.symbol := "BTC-USDT";
       Kucoin.asks := []; Kucoin.bids := [(100, 0); (99, 4)] |}
    liveKucoin.

(** Backpack with one buffered update that misses the markers 501 and
    502 of the scenario's snapshot. *)
Definition backpackAfterGap : Connector :=
  backpackAfter [range "BTC_USDC" 503 505 [(100, 7)] []] scenarioSnapshot.

(** Two exchanges of the page. *)
Definition exchangesAB : list (string * option Connector) :=
  [("binance", Some exchangeA); ("okx", Some exchangeB)].

(** Three exchanges that quote the bid price 100 with the sizes 0.1, 0.2
    and 0.3, as the page reads them. *)
#[warnings="-inexact-float"]
Definition tenths : PageFloat.Exchanges :=
  [("a", Some {[ "BTC" := {| PageFloat.bid :=
                               [{| PageFloat.price := 100;
                                   PageFloat.size := 0.1%float |}];
                             PageFloat.ask := [] |} ]});
   ("b", Some {[ "BTC" := {| PageFloat.bid :=
                               [{| PageFloat.price := 100;
                                   PageFloat.size := 0.2%float |}];
                             PageFloat.ask := [] |} ]});
   ("c", Some {[ "BTC" := {| PageFloat.bid :=
                               [{| PageFloat.price := 100;
                                   PageFloat.size := 0.3%float |}];
                             PageFloat.ask := [] |} ]})].

End Samples.

(** ** Vocabulary of the properties *)

(** Strictly descending, strictly ascending prices. *)
Definition descending (l : list Order) : Prop :=
  StronglySorted (λ x y, price y < price x) l.
Definition ascending (l : list Order) : Prop :=
  StronglySorted (λ x y, price x < price y) l.

(** The sum of the sizes quoted at price [p]. *)
Fixpoint sizeAt (p : Z) (os : list Order) : Z :=
  match os with
  | [] => 0
  | o :: os' => (if decide (price o = p) then size o else 0) + sizeAt p os'
  end.


(** Every stored level has a size above zero. *)
Definition positive (m : Ladder) : Prop :=
  Forall (λ e, 0 < e.2) (JsMap.entries m).

Definition booksPositive (c : Connector) : Prop :=
  ∀ t orderBook, orderBooks c !! t = Some orderBook →
    positive (bids orderBook) ∧ positive (asks orderBook).

Definition krakenBooksPositive (c : Kraken.State) : Prop :=
  ∀ t orderBook, Kraken.orderBooks c !! t = Some orderBook →
    positive (Kraken.bids orderBook) ∧ positive (Kraken.asks orderBook).

(** No change of an update carries a size below zero. *)
Definition nonNegative (changes : list Level) : Prop :=
  Forall (λ l, 0 ≤ l.2) changes.

(** The price and the orders that [prices] holds under a key; an absent
    entry reads as the default of [prices.get(k) || {...}]. *)
Definition storedPrice (c : Connector) (k : string) : option Z :=
  tickerData_price (default noData (prices c !! k)).

Definition storedOrders (c : Connector) (k : string) : Orders :=
  orders (default noData (prices c !! k)).

(** The event hands a fetched snapshot to a continuation. *)
Definition deliversSnapshot (e : Binance.Event) : Prop :=
  match e with
  | Binance.FetchSettles _ (Some _) => True
  | _ => False
  end.

(** The book of [t] is [orderBook] and is flagged as initializing. *)
Definition frozen (t : string) (orderBook : OrderBook) (c : Connector)
    : Prop :=
  initializing t c = true ∧ orderBooks c !! t = Some orderBook.

(** Published orders are sorted and bounded. *)
Definition sortedOrders (depth : nat) (os : Orders) : Prop :=
  descending (bid os) ∧ ascending (ask os) ∧
  (length (bid os) ≤ depth)%nat ∧ (length (ask os) ≤ depth)%nat.

(** The ladders of a connector are maps, and what it published is sorted
    and bounded. *)
Definition wellFormed (depth : nat) (c : Connector) : Prop :=
  (∀ t orderBook, orderBooks c !! t = Some orderBook →
     JsMap.wf (bids orderBook) ∧ JsMap.wf (asks orderBook)) ∧
  (∀ k published, prices c !! k = Some published →
     sortedOrders depth (orders published)).

(** What one exchange contributes to the sources of a price: its name and
    the sum of its orders at that price, when it has any. *)
Definition sourceOf (selectedTicker : string) (p : Z) (isBid : bool)
    (entry : string * option Connector) : option (string * Z) :=
  os ← Page.ordersOf selectedTicker entry.2;
  match filter (λ order, price order = p)
          (if isBid then bid os else ask os) with
  | [] => None
  | matchingOrders =>
      Some (entry.1, foldl (λ sum order, sum + size order) 0 matchingOrders)
  end.

(** The task is the continuation of a snapshot request of [t]. *)
Definition awaitsSnapshotOf (t : string) (task : Task) : Prop :=
  match task with
  | AwaitSnapshot t' _ _ _ => t' = t
  | _ => False
  end.

(** No snapshot request of [t] is in flight. *)
Definition noRequestInFlight (t : string) (c : Connector) : Prop :=
  Forall (λ task, ¬ awaitsSnapshotOf t task) (pending c).

(** What the connector has sent between [c] and [c']. *)
Definition sentSince (c c' : Connector) (since : list Action) : Prop :=
  trace c' = trace c ++ since.

(** The sizes that the orders of [os] quote at price [p], in the order of
    the array. *)
Definition quotedAt (p : Z) (os : list PageFloat.Order) : list float :=
  PageFloat.size <$> filter (λ o, PageFloat.price o = p) os.

(** The sum that [aggregateOrders] forms of sizes that arrive in this
    order: [((0 + s1 || 0) + s2 || 0) + ...], every addition rounded. *)
Definition sumInOrder (sizes : list float) : float :=
  foldl (λ currentSize s, (PageFloat.orZero currentSize + s)%float) 0%float
    sizes.

(** ** Vocabulary of the further properties *)

(** What a batch of changes leaves at price [p], given what was there: the
    last change of that price decides. *)
Definition levelAfter (changes : list Level) (p : Z) (before : option Z)
    : option Z :=
  match last (filter (λ l, l.1 = p) changes) with
  | Some l => if decide (l.2 = 0) then None else Some l.2
  | None => before
  end.

(** The book [after] is [before] written by the update [d]: its marker is
    the end marker of [d], and each side holds at every price what the
    changes of [d] leave there. *)
Definition writtenBy (d : DepthUpdate) (before after : OrderBook) : Prop :=
  lastUpdateId after = u d ∧
  ∀ p,
    JsMap.get p (bids after) = levelAfter (b d) p (JsMap.get p (bids before)) ∧
    JsMap.get p (asks after) = levelAfter (a d) p (JsMap.get p (asks before)).

(** What the book of a snapshot holds at price [p]: the last level of that
    price with a quantity above zero. *)
Definition snapshotHolds (levels : list Level) (p : Z) : option Z :=
  snd <$> last (filter (λ l, l.1 = p ∧ 0 < l.2) levels).

(** The book of [t] exists and its marker is at least [n]. *)
Definition markerAtLeast (t : string) (n : Z) (c : Connector) : Prop :=
  ∃ orderBook,
    orderBooks c !! t = Some orderBook ∧ n ≤ lastUpdateId orderBook.

(** The ticker a suspended task belongs to. *)
Definition taskTicker (task : Task) : string :=
  match task with
  | WaitBuffer t | AwaitSnapshot t _ _ _ | AwaitFetch t | RetryTimer t => t
  end.

(** Everything the connector holds, waits for or has requested belongs to
    a symbol of its tracking sets. *)
Definition tracksOnly (parseTicker : string → string) (c : Connector)
    : Prop :=
  dom (orderBooks c) ⊆ trackingOrderBook c ∧
  dom (depthUpdateBuffers c) ⊆ trackingOrderBook c ∧
  dom (isInitializing c) ⊆ trackingOrderBook c ∧
  Forall (λ task, taskTicker task ∈ trackingOrderBook c) (pending c) ∧
  (∀ t, Fetch t ∈ trace c → t ∈ trackingOrderBook c) ∧
  (∀ k, k ∈ dom (prices c) →
     ∃ t, (t ∈ trackingPrice c ∨ t ∈ trackingOrderBook c) ∧
          k = parseTicker t).

(** The fields that only the constructor and [changeTickers] write. *)
Definition sameTracking (c c' : Connector) : Prop :=
  trackingOrderBook c' = trackingOrderBook c ∧
  trackingPrice c' = trackingPrice c ∧
  formattedTickers c' = formattedTickers c.

(** What [initializeOrderBook] leaves alone up to its first [await]. *)
Definition sameSession (c c' : Connector) : Prop :=
  orderBooks c' = orderBooks c ∧ prices c' = prices c ∧
  trackingOrderBook c' = trackingOrderBook c ∧
  trackingPrice c' = trackingPrice c ∧
  formattedTickers c' = formattedTickers c ∧
  isClosing c' = isClosing c.

(** Published orders carry sizes above zero. *)
Definition sizesPositive (os : Orders) : Prop :=
  Forall (λ o, 0 < size o) (bid os) ∧ Forall (λ o, 0 < size o) (ask os).

(** No change of a depth update carries a size below zero. *)
Definition wireNonNegative (d : DepthUpdate) : Prop :=
  nonNegative (b d) ∧ nonNegative (a d).

Definition eventNonNegative (e : Binance.Event) : Prop :=
  match e with
  | Binance.WsMessage (Binance.Depth d) => wireNonNegative d
  | _ => True
  end.

(** The books, the buffered updates and the published orders of a
    connector are free of sizes that would break [positive]. *)
Definition publishesPositive (c : Connector) : Prop :=
  booksPositive c ∧
  (∀ r buffer, arrays c !! r = Some buffer → Forall wireNonNegative buffer) ∧
  (∀ k data, prices c !! k = Some data → sizesPositive (orders data)).

(** Every buffer reference points into the store of arrays, and no two
    tickers share an array. *)
Definition buffersSeparate (c : Connector) : Prop :=
  (∀ t r, depthUpdateBuffers c !! t = Some r → (r < length (arrays c))%nat) ∧
  (∀ t t' r, depthUpdateBuffers c !! t = Some r →
             depthUpdateBuffers c !! t' = Some r → t = t').

(** Two connectors hold the same books, and the second has in its prices
    map what the first would have after publishing the book of [t]. *)
Definition publishedAhead (parseTicker : string → string) (depth : nat)
    (now : Z) (t : string) (c c' : Connector) : Prop :=
  orderBooks c' = orderBooks c ∧
  prices c' = prices (updatePricesOrderBook parseTicker depth now t c).

(** [[{ ticker: selectedTicker, trackOrderBook: true }]], the one
    configuration that [page.tsx] hands to every connector. *)
Definition pageConfig (selectedTicker : string) : TickerConfig :=
  {| ticker := selectedTicker; trackPrice := None;
     trackOrderBook := Some true |}.

(** The polling loop of [t] idles: no two tickers share an array, the
    buffer of [t] is empty and a polling timer of [t] is armed. *)
Definition pollsIdle (t : string) (c : Connector) : Prop :=
  buffersSeparate c ∧ bufferOf t c = [] ∧ WaitBuffer t ∈ pending c.

(** * Properties *)

(** A decidable closed proposition, settled by evaluation. *)
Ltac by_computation :=
  match goal with
  | |- ?P => apply (bool_decide_unpack P); vm_compute; exact I
  end.

(** ** The JavaScript primitives on examples *)

Example replace_first_occurrence :
  js_replace "USDT" "" "BTCUSDT" = "BTC" ∧
  js_replace "USDT" "" "USDTUSDT" = "USDT" ∧
  js_replace "-USDT" "" "BTC" = "BTC".
Proof. by vm_compute. Qed.

Example split_topic :
  js_splitAt ":"%char 1 "/market/level2:BTC-USDT" = Some "BTC-USDT" ∧
  js_splitAt ":"%char 1 "welcome" = None ∧
  js_splitAt "/"%char 0 "BTC/USD" = Some "BTC".
Proof. by vm_compute. Qed.

Example lower_case : js_toLowerCase "BTCUSDT" = "btcusdt".
Proof. by vm_compute. Qed.

Example map_keeps_insertion_order :
  JsMap.set 1 5 (JsMap.set 2 7 (JsMap.set 1 3 JsMap.empty))
    = [(1, 5); (2, 7)] ∧
  JsMap.set 1 5 (JsMap.delete 1 (JsMap.set 2 7 (JsMap.set 1 3 JsMap.empty)))
    = [(2, 7); (1, 5)].
Proof. by vm_compute. Qed.

Example sort_by_price :
  js_sort byPriceDesc (toOrder <$> [(98, 1); (100, 2); (99, 3)])
    = toOrder <$> [(100, 2); (99, 3); (98, 1)] ∧
  js_sort byPriceAsc (toOrder <$> [(98, 1); (100, 2); (99, 3)])
    = toOrder <$> [(98, 1); (99, 3); (100, 2)].
Proof. by vm_compute. Qed.

(** ** The [Map] model *)

Module JsMapFacts.
Section JsMapFacts.
Context {K V : Type} `{EqDecision K}.
Implicit Types (m : JsMap.t K V) (k : K) (v : V).

Lemma get_set_eq m k v : JsMap.get k (JsMap.set k v m) = Some v.
Proof.
  induction m as [|[k' v'] m IH]; simpl; repeat case_decide; simpl;
    repeat case_decide; congruence.
Qed.

Lemma get_set_ne m k k' v :
  k ≠ k' → JsMap.get k' (JsMap.set k v m) = JsMap.get k' m.
Proof.
  intros Hne. induction m as [|[k0 v0] m IH]; simpl; repeat case_decide;
    simpl; repeat case_decide; congruence.
Qed.

Lemma get_delete_eq m k : JsMap.get k (JsMap.delete k m) = None.
Proof.
  induction m as [|[k' v'] m IH]; simpl; repeat case_decide; simpl;
    repeat case_decide; congruence.
Qed.

Lemma get_delete_ne m k k' :
  k ≠ k' → JsMap.get k' (JsMap.delete k m) = JsMap.get k' m.
Proof.
  intros Hne. induction m as [|[k0 v0] m IH]; simpl; repeat case_decide;
    simpl; repeat case_decide; congruence.
Qed.

Lemma get_Some_elem_of m k v : JsMap.get k m = Some v → (k, v) ∈ m.
Proof.
  induction m as [|[k' v'] m IH]; simpl; [done|].
  case_decide; intros ?; simplify_eq; [left | right; auto].
Qed.

Lemma elem_of_get m k v : JsMap.wf m → (k, v) ∈ m → JsMap.get k m = Some v.
Proof.
  unfold JsMap.wf, JsMap.keys.
  induction m as [|[k' v'] m IH]; intros Hnd Hin.
  - by apply elem_of_nil in Hin.
  - apply NoDup_cons in Hnd as [Hk' Hnd].
    apply elem_of_cons in Hin as [Heq | Hin]; simplify_eq; simpl.
    + case_decide; [done | congruence].
    + case_decide as Heq; [|auto]. subst.
      exfalso. apply Hk'. by apply (list_elem_of_fmap_2 fst) in Hin.
Qed.

Lemma keys_set m k v :
  JsMap.keys (JsMap.set k v m) =
    if decide (k ∈ JsMap.keys m) then JsMap.keys m else JsMap.keys m ++ [k].
Proof.
  unfold JsMap.keys. induction m as [|[k' v'] m IH].
  - by case_decide as Hin; [apply elem_of_nil in Hin|].
  - cbn [JsMap.set]. destruct (decide (k = k')) as [->|Hne].
    + rewrite decide_True; [done | left].
    + rewrite !fmap_cons, IH.
      destruct (decide (k ∈ m.*1)) as [Hin|Hin].
      * rewrite decide_True; [done | by right].
      * rewrite decide_False; [done|].
        by intros [?|?]%elem_of_cons.
Qed.

Lemma keys_delete m k :
  JsMap.keys (JsMap.delete k m) = filter (λ k', k' ≠ k) (JsMap.keys m).
Proof.
  unfold JsMap.keys. induction m as [|[k' v'] m IH]; [done|].
  cbn [JsMap.delete]. rewrite fmap_cons, filter_cons. cbn [fst].
  destruct (decide (k = k')) as [->|Hne].
  - by rewrite decide_False by (by intros ?).
  - rewrite decide_True by congruence. by rewrite fmap_cons, IH.
Qed.

Lemma wf_empty : JsMap.wf (JsMap.empty : JsMap.t K V).
Proof. apply NoDup_nil_2. Qed.

Lemma wf_set m k v : JsMap.wf m → JsMap.wf (JsMap.set k v m).
Proof.
  unfold JsMap.wf. rewrite keys_set. case_decide; [done|].
  intros Hnd. apply NoDup_app. split_and!; [done | | apply NoDup_singleton].
  intros x Hx Hx'. apply list_elem_of_singleton in Hx'. by subst.
Qed.

Lemma wf_delete m k : JsMap.wf m → JsMap.wf (JsMap.delete k m).
Proof. unfold JsMap.wf. rewrite keys_delete. apply NoDup_filter. Qed.

Lemma wf_NoDup m : JsMap.wf m → NoDup m.
Proof. apply NoDup_fmap_1. Qed.

(** Two maps with the same lookups hold the same entries. *)
Lemma entries_Permutation m1 m2 :
  JsMap.wf m1 → JsMap.wf m2 →
  (∀ k, JsMap.get k m1 = JsMap.get k m2) →
  JsMap.entries m1 ≡ₚ JsMap.entries m2.
Proof.
  intros Hwf1 Hwf2 Hget. unfold JsMap.entries.
  apply NoDup_Permutation; [by apply wf_NoDup..|].
  intros [k v]; split; intros Hin.
  - apply get_Some_elem_of. rewrite <-Hget. by apply elem_of_get.
  - apply get_Some_elem_of. rewrite Hget. by apply elem_of_get.
Qed.

Lemma Forall_set (P : K * V → Prop) m k v :
  P (k, v) → Forall P m → Forall P (JsMap.set k v m).
Proof.
  intros HP. induction 1 as [|[k' v'] m ?? IH]; simpl.
  - by repeat constructor.
  - case_decide; constructor; auto.
Qed.

Lemma Forall_delete (P : K * V → Prop) m k :
  Forall P m → Forall P (JsMap.delete k m).
Proof.
  induction 1 as [|[k' v'] m ?? IH]; simpl; [constructor|].
  case_decide; [done | by constructor].
Qed.

End JsMapFacts.
End JsMapFacts.

(** ** Sorting by price *)

Section SortFacts.

Global Instance byPriceDesc_total : Total (keepsOrder byPriceDesc).
Proof. intros x y. unfold keepsOrder, byPriceDesc. lia. Qed.
Global Instance byPriceDesc_trans : Transitive (keepsOrder byPriceDesc).
Proof. intros x y z. unfold keepsOrder, byPriceDesc. lia. Qed.
Global Instance byPriceAsc_total : Total (keepsOrder byPriceAsc).
Proof. intros x y. unfold keepsOrder, byPriceAsc. lia. Qed.
Global Instance byPriceAsc_trans : Transitive (keepsOrder byPriceAsc).
Proof. intros x y z. unfold keepsOrder, byPriceAsc. lia. Qed.

Lemma js_sort_Permutation {A} (cmp : A → A → Z) l : js_sort cmp l ≡ₚ l.
Proof. apply merge_sort_Permutation. Qed.

Lemma same_price_same_order (l : list Order) x y :
  NoDup (price <$> l) → x ∈ l → y ∈ l → price x = price y → x = y.
Proof.
  induction l as [|z l IH]; intros Hnd Hx Hy Hp.
  - by apply elem_of_nil in Hx.
  - rewrite fmap_cons in Hnd. apply NoDup_cons in Hnd as [Hz Hnd].
    apply elem_of_cons in Hx as [->|Hx]; apply elem_of_cons in Hy as [->|Hy];
      [done | | | by apply IH].
    + exfalso. apply Hz. rewrite Hp. by apply list_elem_of_fmap_2.
    + exfalso. apply Hz. rewrite <-Hp. by apply list_elem_of_fmap_2.
Qed.

(** A weakly sorted list without a repeated price is strictly sorted. *)
Lemma StronglySorted_strict (R S : relation Order) l :
  (∀ x y, R x y → price x ≠ price y → S x y) →
  StronglySorted R l → NoDup (price <$> l) → StronglySorted S l.
Proof.
  intros HRS. induction 1 as [|x l Hl IH Hx]; intros Hnd; [constructor|].
  rewrite fmap_cons in Hnd. apply NoDup_cons in Hnd as [Hnx Hnd].
  constructor; [by apply IH|].
  rewrite Forall_forall in Hx |- *. intros y Hy. apply HRS; [by apply Hx|].
  intros Hp. apply Hnx. rewrite Hp. by apply list_elem_of_fmap_2.
Qed.

Lemma StronglySorted_take {A} (R : relation A) n l :
  StronglySorted R l → StronglySorted R (take n l).
Proof.
  intros Hl. revert n. induction Hl as [|x l Hl IH Hx]; intros [|n]; simpl;
    try constructor; [apply IH|].
  rewrite Forall_forall in Hx |- *. intros y Hy. apply Hx.
  by apply (subseteq_take n).
Qed.

Lemma js_sort_descending l :
  NoDup (price <$> l) → descending (js_sort byPriceDesc l).
Proof.
  intros Hnd. unfold descending, js_sort.
  apply (StronglySorted_strict (keepsOrder byPriceDesc)).
  - unfold keepsOrder, byPriceDesc. intros. lia.
  - apply StronglySorted_merge_sort; apply _.
  - by rewrite merge_sort_Permutation.
Qed.

Lemma js_sort_ascending l :
  NoDup (price <$> l) → ascending (js_sort byPriceAsc l).
Proof.
  intros Hnd. unfold ascending, js_sort.
  apply (StronglySorted_strict (keepsOrder byPriceAsc)).
  - unfold keepsOrder, byPriceAsc. intros. lia.
  - apply StronglySorted_merge_sort; apply _.
  - by rewrite merge_sort_Permutation.
Qed.

(** Sorting by price does not depend on the order of the input when no
    price is repeated. *)
Lemma js_sort_unique (cmp : Order → Order → Z) l1 l2 :
  Total (keepsOrder cmp) → Transitive (keepsOrder cmp) →
  (∀ x y, cmp x y ≤ 0 → cmp y x ≤ 0 → price x = price y) →
  NoDup (price <$> l1) → l1 ≡ₚ l2 → js_sort cmp l1 = js_sort cmp l2.
Proof.
  intros Htot Htrans Hanti Hnd Hperm. unfold js_sort.
  apply (StronglySorted_unique_strong (keepsOrder cmp)).
  - intros x y Hx Hy Hxy Hyx.
    rewrite merge_sort_Permutation in Hx, Hy. rewrite <-Hperm in Hy.
    apply (same_price_same_order l1); auto.
  - by apply StronglySorted_merge_sort.
  - by apply StronglySorted_merge_sort.
  - by rewrite !merge_sort_Permutation.
Qed.

Lemma prices_of_entries (m : Ladder) :
  price <$> (toOrder <$> JsMap.entries m) = JsMap.keys m.
Proof.
  unfold JsMap.entries, JsMap.keys. rewrite <-list_fmap_compose.
  by apply list_fmap_ext.
Qed.

Lemma readLadder_descending depth (ladder : Ladder) :
  JsMap.wf ladder → descending (readLadder byPriceDesc depth ladder).
Proof.
  intros Hwf. apply StronglySorted_take, js_sort_descending.
  by rewrite prices_of_entries.
Qed.

Lemma readLadder_ascending depth (ladder : Ladder) :
  JsMap.wf ladder → ascending (readLadder byPriceAsc depth ladder).
Proof.
  intros Hwf. apply StronglySorted_take, js_sort_ascending.
  by rewrite prices_of_entries.
Qed.

Lemma readLadder_length cmp depth (ladder : Ladder) :
  (length (readLadder cmp depth ladder) ≤ depth)%nat.
Proof. unfold readLadder. rewrite length_take. lia. Qed.

End SortFacts.

(** ** The ladders *)

Section LadderFacts.

Lemma applyLevel_wf (m : Ladder) l : JsMap.wf m → JsMap.wf (applyLevel m l).
Proof.
  destruct l as [p q]. unfold applyLevel. case_decide;
    auto using JsMapFacts.wf_set, JsMapFacts.wf_delete.
Qed.

Lemma applyLevels_wf changes (m : Ladder) :
  JsMap.wf m → JsMap.wf (applyLevels changes m).
Proof.
  unfold applyLevels. revert m.
  induction changes as [|l ls IH]; intros m Hwf; simpl;
    auto using applyLevel_wf.
Qed.

Lemma snapshotLevels_wf levels : JsMap.wf (snapshotLevels levels).
Proof.
  unfold snapshotLevels.
  assert (∀ m : Ladder, JsMap.wf m → JsMap.wf (foldl snapshotLevel m levels))
    as H; [|apply H, JsMapFacts.wf_empty].
  induction levels as [|[p q] ls IH]; intros m Hwf; simpl; [done|].
  apply IH. case_decide; auto using JsMapFacts.wf_set.
Qed.

End LadderFacts.

(** ** Aggregation *)

Section PageFacts.

Lemma sizeAt_absent p os : p ∉ price <$> os → sizeAt p os = 0.
Proof.
  induction os as [|o os IH]; simpl; [done|].
  rewrite not_elem_of_cons. intros [Hne Hnin].
  rewrite decide_False by done. rewrite IH by done. lia.
Qed.

Lemma addOrder_wf (m : Ladder) o : JsMap.wf m → JsMap.wf (Page.addOrder m o).
Proof. apply JsMapFacts.wf_set. Qed.

Lemma priceMap_wf os (m : Ladder) :
  JsMap.wf m → JsMap.wf (foldl Page.addOrder m os).
Proof.
  revert m. induction os as [|o os IH]; intros m Hwf; simpl;
    auto using addOrder_wf.
Qed.

(** The accumulator of [aggregateOrders] holds, at every quoted price, the
    sum of the sizes quoted there. *)
Lemma get_priceMap p os (m : Ladder) :
  JsMap.get p (foldl Page.addOrder m os) =
    if decide (p ∈ price <$> os)
    then Some (default 0 (JsMap.get p m) + sizeAt p os)
    else JsMap.get p m.
Proof.
  revert m. induction os as [|o os IH]; intros m.
  - rewrite decide_False; [done | apply not_elem_of_nil].
  - cbn [foldl]. rewrite IH. clear IH. rewrite fmap_cons. cbn [sizeAt].
    unfold Page.addOrder.
    destruct (decide (price o = p)) as [<-|Hne].
    + rewrite JsMapFacts.get_set_eq. cbn [default].
      rewrite (decide_True (P := price o ∈ price o :: _)) by left.
      case_decide as Hin; f_equal; unfold id; [lia|].
      rewrite sizeAt_absent by done. lia.
    + rewrite JsMapFacts.get_set_ne by done.
      destruct (decide (p ∈ price <$> os)) as [Hin|Hnin].
      * rewrite decide_True by (by right). done.
      * rewrite decide_False; [done|].
        by intros [?|?]%elem_of_cons.
Qed.

Lemma aggregateOrders_prices os isBid :
  NoDup (price <$> Page.aggregateOrders os isBid).
Proof.
  unfold Page.aggregateOrders. rewrite js_sort_Permutation.
  rewrite prices_of_entries. apply priceMap_wf, JsMapFacts.wf_empty.
Qed.

(** The levels of the aggregated side: one for every quoted price, with
    the sum of the sizes quoted at that price. *)
Lemma elem_of_aggregateOrders os isBid o :
  o ∈ Page.aggregateOrders os isBid ↔
  price o ∈ price <$> os ∧ size o = sizeAt (price o) os.
Proof.
  unfold Page.aggregateOrders. rewrite js_sort_Permutation.
  unfold JsMap.entries. rewrite list_elem_of_fmap. split.
  - intros ([p q] & -> & Hin). cbn.
    apply JsMapFacts.elem_of_get in Hin;
      [|apply priceMap_wf, JsMapFacts.wf_empty].
    rewrite get_priceMap in Hin. case_decide; [|done].
    cbn in Hin. split; [done|]. injection Hin. lia.
  - intros [Hin Hsize]. exists (price o, size o). split.
    + by destruct o.
    + apply JsMapFacts.get_Some_elem_of. rewrite get_priceMap.
      rewrite decide_True by done. cbn. f_equal. lia.
Qed.

Lemma collect_app side t (exs exs' : Page.Exchanges) :
  Page.collect side t (exs ++ exs') =
  Page.collect side t exs ++ Page.collect side t exs'.
Proof.
  unfold Page.collect. rewrite fmap_app, foldl_app.
  generalize (foldl (λ all exchange,
    match Page.ordersOf t exchange with
    | Some os => all ++ side os | None => all end) [] exs.*2).
  induction (exs'.*2) as [|e es IH] using rev_ind; intros acc.
  - simpl. by rewrite app_nil_r.
  - rewrite !foldl_app. simpl. rewrite IH.
    destruct (Page.ordersOf t e); [by rewrite app_assoc | done].
Qed.

Lemma sourceOf_name t p isBid entry x :
  sourceOf t p isBid entry = Some x → x.1 = entry.1.
Proof.
  unfold sourceOf. destruct (Page.ordersOf t entry.2) as [os|]; [|done].
  cbn. destruct (filter _ _); [done|]. by intros [= <-].
Qed.

Lemma sourceOf_names t p isBid (exs : Page.Exchanges) :
  (omap (sourceOf t p isBid) exs).*1 `sublist_of` exs.*1.
Proof.
  induction exs as [|e exs IH]; [done|].
  rewrite fmap_cons.
  change (omap (sourceOf t p isBid) (e :: exs))
    with (match sourceOf t p isBid e with
          | Some y => y :: omap (sourceOf t p isBid) exs
          | None => omap (sourceOf t p isBid) exs
          end).
  destruct (sourceOf t p isBid e) as [x|] eqn:He; [|by constructor].
  rewrite fmap_cons, (sourceOf_name _ _ _ _ _ He). by constructor.
Qed.

(** One turn of the [forEach] of [getSourcesForPrice]. *)
Lemma getSourcesForPrice_snoc t p isBid (exs : Page.Exchanges) entry :
  Page.getSourcesForPrice t (exs ++ [entry]) p isBid =
    match sourceOf t p isBid entry with
    | Some x => <[x.1 := x.2]> (Page.getSourcesForPrice t exs p isBid)
    | None => Page.getSourcesForPrice t exs p isBid
    end.
Proof.
  unfold Page.getSourcesForPrice. rewrite foldl_snoc. unfold sourceOf.
  destruct (Page.ordersOf t entry.2) as [os|]; [|done].
  cbn. by destruct (filter _ _).
Qed.

(** The sources of a price are the contributions of the exchanges, keyed
    by exchange name. *)
Lemma getSourcesForPrice_contributions t p isBid (exs : Page.Exchanges) :
  NoDup exs.*1 →
  Page.getSourcesForPrice t exs p isBid
    = list_to_map (omap (sourceOf t p isBid) exs).
Proof.
  induction exs as [|e exs IH] using rev_ind; [done|].
  rewrite fmap_app, NoDup_app. intros (Hnd & Hname & _).
  rewrite getSourcesForPrice_snoc, IH by done. rewrite omap_app.
  change (omap (sourceOf t p isBid) [e])
    with (match sourceOf t p isBid e with
          | Some y => [y]
          | None => []
          end).
  destruct (sourceOf t p isBid e) as [[n z]|] eqn:He;
    [|by rewrite app_nil_r].
  rewrite list_to_map_snoc; [done|].
  intros Hin.
  apply (λ H, elem_of_sublist _ _ _ H (sourceOf_names t p isBid exs)) in Hin.
  apply sourceOf_name in He. cbn in He. subst n.
  apply (Hname e.1); [done | left].
Qed.

End PageFacts.

(** ** Buffers *)

Lemma pushBuffer_prices t d c : prices (pushBuffer t d c) = prices c.
Proof. unfold pushBuffer. by destruct (depthUpdateBuffers c !! t). Qed.

Lemma pushBuffer_orderBooks t d c :
  orderBooks (pushBuffer t d c) = orderBooks c.
Proof. unfold pushBuffer. by destruct (depthUpdateBuffers c !! t). Qed.

Lemma pushBuffer_isInitializing t d c :
  isInitializing (pushBuffer t d c) = isInitializing c.
Proof. unfold pushBuffer. by destruct (depthUpdateBuffers c !! t). Qed.


(** ** Aggregation with rounding *)

Section FloatFacts.

(** IEEE 754 addition is commutative. *)
Lemma SFadd_comm prec emax x y :
  SpecFloat.SFadd prec emax x y = SpecFloat.SFadd prec emax y x.
Proof.
  destruct x as [sx|sx| |sx mx ex], y as [sy|sy| |sy my ey]; cbn;
    try done; try (by destruct sx, sy).
  by rewrite Z.min_comm, Z.add_comm.
Qed.

Lemma float_add_comm (x y : float) : (x + y = y + x)%float.
Proof.
  apply FloatAxioms.Prim2SF_inj. rewrite !FloatAxioms.add_spec.
  apply SFadd_comm.
Qed.

(** Adding to zero returns a size that counts as a condition unchanged. *)
Lemma float_add_zero_l (x : float) :
  PageFloat.truthy x = true → (0 + x = x)%float.
Proof.
  unfold PageFloat.truthy. intros [Hz Hn]%andb_prop.
  apply negb_true_iff in Hz.
  rewrite FloatAxioms.eqb_spec in Hz, Hn.
  apply FloatAxioms.Prim2SF_inj. rewrite FloatAxioms.add_spec.
  change (FloatOps.Prim2SF 0) with (SpecFloat.S754_zero false) in *.
  by destruct (FloatOps.Prim2SF x) as [sx|sx| |sx mx ex].
Qed.

Lemma orZero_truthy x : PageFloat.truthy x = true → PageFloat.orZero x = x.
Proof. unfold PageFloat.orZero. by intros ->. Qed.

(** Two sizes at one price: the sum is the same in both orders. *)
Lemma sumInOrder_Permutation l l' :
  l ≡ₚ l' → (length l ≤ 2)%nat → Forall (λ s, PageFloat.truthy s = true) l →
  sumInOrder l = sumInOrder l'.
Proof.
  intros Hperm Hlen Htruthy.
  destruct l as [|x [|y [|z l]]]; [| | |cbn in Hlen; lia].
  - by apply Permutation_nil_l in Hperm as ->.
  - by apply Permutation_singleton_l in Hperm as ->.
  - apply Permutation.Permutation_length_2_inv in Hperm as [->| ->]; [done|].
    apply Forall_cons in Htruthy as [Hx Hy%Forall_cons_1].
    destruct Hy as [Hy _]. unfold sumInOrder. cbn.
    change (PageFloat.orZero 0) with 0%float.
    rewrite !float_add_zero_l, !orZero_truthy by done.
    apply float_add_comm.
Qed.

Lemma quotedAt_Permutation p os os' :
  os ≡ₚ os' → quotedAt p os ≡ₚ quotedAt p os'.
Proof. intros Hperm. unfold quotedAt. by rewrite Hperm. Qed.

Lemma quotedAt_nil p os :
  quotedAt p os = [] ↔ p ∉ PageFloat.price <$> os.
Proof.
  unfold quotedAt. induction os as [|o os IH].
  - split; [intros _; apply not_elem_of_nil | done].
  - rewrite filter_cons, (fmap_cons PageFloat.price), not_elem_of_cons.
    destruct (decide (PageFloat.price o = p)) as [<-|Hne].
    + rewrite fmap_cons. split; [done | by intros [? _]].
    + rewrite IH. split; [by auto | by intros [_ ?]].
Qed.

Lemma floatMap_wf os (m : JsMap.t Z float) :
  JsMap.wf m → JsMap.wf (foldl PageFloat.addOrder m os).
Proof.
  revert m. induction os as [|o os IH]; intros m Hwf; [done|].
  cbn. apply IH, JsMapFacts.wf_set, Hwf.
Qed.

(** The accumulator of [aggregateOrders] holds, at every quoted price, the
    sum of the sizes quoted there, added in the order of the array. *)
Lemma get_floatMap p os (m : JsMap.t Z float) :
  JsMap.get p (foldl PageFloat.addOrder m os) =
    match quotedAt p os with
    | [] => JsMap.get p m
    | sizes =>
        Some (foldl (λ currentSize s, (PageFloat.orZero currentSize + s)%float)
                (default 0%float (JsMap.get p m)) sizes)
    end.
Proof.
  revert m. induction os as [|o os IH]; intros m; [done|].
  cbn [foldl]. rewrite IH. clear IH.
  assert (JsMap.get p (PageFloat.addOrder m o) =
          if decide (PageFloat.price o = p)
          then Some (PageFloat.orZero (default 0%float (JsMap.get p m))
                     + PageFloat.size o)%float
          else JsMap.get p m) as ->.
  { unfold PageFloat.addOrder. case_decide as Hp.
    - subst p. rewrite JsMapFacts.get_set_eq.
      by destruct (JsMap.get (PageFloat.price o) m).
    - by rewrite JsMapFacts.get_set_ne. }
  unfold quotedAt. rewrite filter_cons.
  destruct (decide (PageFloat.price o = p)) as [Hp|Hp]; [|done].
  rewrite fmap_cons. cbn [foldl default].
  by destruct (PageFloat.size <$> filter _ os).
Qed.

(** The levels of the aggregated side: one for every quoted price, with
    the sum of the sizes quoted at that price in the order of the array. *)
Lemma elem_of_float_aggregateOrders os isBid o :
  o ∈ PageFloat.aggregateOrders os isBid ↔
  PageFloat.price o ∈ PageFloat.price <$> os ∧
  PageFloat.size o = sumInOrder (quotedAt (PageFloat.price o) os).
Proof.
  unfold PageFloat.aggregateOrders. rewrite js_sort_Permutation.
  unfold JsMap.entries. rewrite list_elem_of_fmap. split.
  - intros ([p q] & -> & Hin). cbn.
    apply JsMapFacts.elem_of_get in Hin;
      [|apply floatMap_wf, JsMapFacts.wf_empty].
    rewrite get_floatMap in Hin.
    destruct (quotedAt p os) as [|x l] eqn:Hq; [done|].
    split; [|by injection Hin].
    apply dec_stable. rewrite <-quotedAt_nil. by rewrite Hq.
  - intros [Hin Hsize]. exists (PageFloat.price o, PageFloat.size o). split.
    + by destruct o.
    + apply JsMapFacts.get_Some_elem_of. rewrite get_floatMap.
      destruct (quotedAt (PageFloat.price o) os) as [|x l] eqn:Hq.
      * apply quotedAt_nil in Hq. by destruct Hq.
      * by rewrite Hsize.
Qed.

Lemma float_prices_of_entries (m : JsMap.t Z float) :
  PageFloat.price <$> (PageFloat.toOrder <$> JsMap.entries m) = JsMap.keys m.
Proof.
  unfold JsMap.entries, JsMap.keys. rewrite <-list_fmap_compose.
  by apply list_fmap_ext.
Qed.

Lemma float_aggregateOrders_prices os isBid :
  NoDup (PageFloat.price <$> PageFloat.aggregateOrders os isBid).
Proof.
  unfold PageFloat.aggregateOrders. rewrite js_sort_Permutation.
  rewrite float_prices_of_entries. apply floatMap_wf, JsMapFacts.wf_empty.
Qed.

(** The aggregated side is strictly sorted by price. *)
Lemma float_aggregateOrders_sorted os (isBid : bool) :
  StronglySorted
    (λ x y, if isBid then PageFloat.price y < PageFloat.price x
            else PageFloat.price x < PageFloat.price y)
    (PageFloat.aggregateOrders os isBid).
Proof.
  pose proof (float_aggregateOrders_prices os isBid) as Hnd.
  unfold PageFloat.aggregateOrders, js_sort in *.
  set (cmp := if isBid then PageFloat.byPriceDesc else PageFloat.byPriceAsc)
    in *.
  assert (Total (keepsOrder cmp)) as Htot
    by (intros x y; unfold keepsOrder, cmp, PageFloat.byPriceDesc,
          PageFloat.byPriceAsc; destruct isBid; lia).
  assert (Transitive (keepsOrder cmp)) as Htrans
    by (intros x y z; unfold keepsOrder, cmp, PageFloat.byPriceDesc,
          PageFloat.byPriceAsc; destruct isBid; lia).
  pose proof (StronglySorted_merge_sort (keepsOrder cmp)
                (PageFloat.toOrder <$>
                   JsMap.entries (foldl PageFloat.addOrder JsMap.empty os)))
    as Hs.
  revert Hs Hnd. generalize (merge_sort (keepsOrder cmp)
    (PageFloat.toOrder <$>
       JsMap.entries (foldl PageFloat.addOrder JsMap.empty os))).
  intros l Hs. induction Hs as [|x l Hl IH Hx]; intros Hnd; [constructor|].
  rewrite fmap_cons in Hnd. apply NoDup_cons in Hnd as [Hnx Hnd].
  constructor; [by apply IH|].
  rewrite Forall_forall in Hx |- *. intros y Hy.
  assert (PageFloat.price x ≠ PageFloat.price y) as Hne
    by (intros Hp; apply Hnx; rewrite Hp; by apply list_elem_of_fmap_2).
  specialize (Hx y Hy). unfold keepsOrder, cmp, PageFloat.byPriceDesc,
    PageFloat.byPriceAsc in Hx. destruct isBid; lia.
Qed.

(** Two aggregated sides with the same levels are the same array. *)
Lemma float_aggregateOrders_ext os os' (isBid : bool) :
  (∀ o, o ∈ PageFloat.aggregateOrders os isBid ↔
        o ∈ PageFloat.aggregateOrders os' isBid) →
  PageFloat.aggregateOrders os isBid = PageFloat.aggregateOrders os' isBid.
Proof.
  intros Hext.
  apply (StronglySorted_unique_strong
           (λ x y, if isBid then PageFloat.price y < PageFloat.price x
                   else PageFloat.price x < PageFloat.price y)).
  - intros x y _ _ Hxy Hyx. destruct isBid; lia.
  - apply float_aggregateOrders_sorted.
  - apply float_aggregateOrders_sorted.
  - apply NoDup_Permutation; [| |done];
      eapply NoDup_fmap_1, float_aggregateOrders_prices.
Qed.

(** The prices of the aggregated side depend on the set of the quoted
    prices only. *)
Lemma float_aggregateOrders_prices_Permutation os os' (isBid : bool) :
  os ≡ₚ os' →
  PageFloat.price <$> PageFloat.aggregateOrders os isBid
    = PageFloat.price <$> PageFloat.aggregateOrders os' isBid.
Proof.
  intros Hperm.
  apply (StronglySorted_unique_strong
           (λ x y : Z, if isBid then y < x else x < y)).
  - intros x y _ _ Hxy Hyx. destruct isBid; lia.
  - eapply StronglySorted_fmap, float_aggregateOrders_sorted. done.
  - eapply StronglySorted_fmap, float_aggregateOrders_sorted. done.
  - apply NoDup_Permutation; [apply float_aggregateOrders_prices..|].
    intros p. rewrite !list_elem_of_fmap.
    split; intros (o & -> & Ho);
      apply elem_of_float_aggregateOrders in Ho as [Hin _].
    + exists {| PageFloat.price := PageFloat.price o;
                PageFloat.size :=
                  sumInOrder (quotedAt (PageFloat.price o) os') |}.
      split; [done|]. apply elem_of_float_aggregateOrders. cbn.
      split; [by rewrite <-Hperm | done].
    + exists {| PageFloat.price := PageFloat.price o;
                PageFloat.size :=
                  sumInOrder (quotedAt (PageFloat.price o) os) |}.
      split; [done|]. apply elem_of_float_aggregateOrders. cbn.
      split; [by rewrite Hperm | done].
Qed.

(** At most two orders at every price, none of size zero or NaN: the
    whole side is the same in every order of the array. *)
Lemma float_aggregateOrders_Permutation os os' isBid :
  os ≡ₚ os' →
  (∀ p, length (quotedAt p os) ≤ 2)%nat →
  Forall (λ o, PageFloat.truthy (PageFloat.size o) = true) os →
  PageFloat.aggregateOrders os isBid = PageFloat.aggregateOrders os' isBid.
Proof.
  intros Hperm Htwo Htruthy.
  assert (∀ p, sumInOrder (quotedAt p os) = sumInOrder (quotedAt p os'))
    as Hsum.
  { intros p. apply sumInOrder_Permutation;
      [by apply quotedAt_Permutation | done |].
    unfold quotedAt. apply Forall_fmap, Forall_forall.
    intros o [_ Ho]%list_elem_of_filter.
    rewrite Forall_forall in Htruthy. by apply Htruthy. }
  apply float_aggregateOrders_ext. intros o.
  rewrite !elem_of_float_aggregateOrders, Hsum. by rewrite Hperm.
Qed.

Lemma float_collect_app side t (exs exs' : PageFloat.Exchanges) :
  PageFloat.collect side t (exs ++ exs') =
  PageFloat.collect side t exs ++ PageFloat.collect side t exs'.
Proof.
  unfold PageFloat.collect. rewrite fmap_app, foldl_app.
  generalize (foldl (λ all exchange,
    match PageFloat.ordersOf t exchange with
    | Some os => all ++ side os | None => all end) [] exs.*2).
  induction (exs'.*2) as [|e es IH] using rev_ind; intros acc.
  - simpl. by rewrite app_nil_r.
  - rewrite !foldl_app. simpl. rewrite IH.
    destruct (PageFloat.ordersOf t e); [by rewrite app_assoc | done].
Qed.

Lemma float_collect_Permutation side t (exs exs' : PageFloat.Exchanges) :
  exs ≡ₚ exs' →
  PageFloat.collect side t exs ≡ₚ PageFloat.collect side t exs'.
Proof.
  induction 1 as [|e exs exs' _ IH|e e' exs|exs1 exs2 exs3 _ IH1 _ IH2].
  - done.
  - rewrite (float_collect_app _ _ [e] exs), (float_collect_app _ _ [e] exs').
    by rewrite IH.
  - change (e' :: e :: exs) with ([e'] ++ [e] ++ exs).
    change (e :: e' :: exs) with ([e] ++ [e'] ++ exs).
    rewrite !float_collect_app, !app_assoc. f_equiv.
    apply Permutation_app_comm.
  - by rewrite IH1.
Qed.

End FloatFacts.

(** ** What a connector publishes is sorted and bounded *)

Section WellFormed.
Context (parseTicker : string → string) (depth : nat).

Lemma wellFormed_frame (c c' : Connector) :
  orderBooks c' = orderBooks c → prices c' = prices c →
  wellFormed depth c → wellFormed depth c'.
Proof. unfold wellFormed. by intros -> ->. Qed.

Lemma sortedOrders_noData : sortedOrders depth (orders noData).
Proof. repeat split; cbn; try constructor; lia. Qed.

Lemma sortedOrders_read (ob : OrderBook) marker :
  JsMap.wf (bids ob) → JsMap.wf (asks ob) →
  sortedOrders depth
    {| bid := readLadder byPriceDesc depth (bids ob);
       ask := readLadder byPriceAsc depth (asks ob);
       Orders_lastUpdateId := marker |}.
Proof.
  intros Hb Ha. repeat split; cbn;
    auto using readLadder_descending, readLadder_ascending,
      readLadder_length.
Qed.

Lemma wellFormed_updatePricesOrderBook now t c :
  wellFormed depth c →
  wellFormed depth (updatePricesOrderBook parseTicker depth now t c).
Proof.
  intros [Hbooks Hprices]. unfold updatePricesOrderBook.
  destruct (orderBooks c !! t) as [ob|] eqn:Hob; [|done].
  split; [done|]. cbn. intros k td.
  destruct (decide (parseTicker t = k)) as [<-|Hne].
  - rewrite lookup_insert_eq. intros [= <-]. cbn.
    destruct (Hbooks _ _ Hob). by apply sortedOrders_read.
  - rewrite lookup_insert_ne by done. apply Hprices.
Qed.

Lemma wellFormed_storePrice now t p c :
  wellFormed depth c → wellFormed depth (storePrice parseTicker now t p c).
Proof.
  intros [Hbooks Hprices]. split; [done|]. unfold storePrice. cbn.
  intros k td. destruct (decide (parseTicker t = k)) as [<-|Hne].
  - rewrite lookup_insert_eq. intros [= <-]. cbn.
    destruct (prices c !! parseTicker t) as [td|] eqn:Htd; cbn.
    + by eapply Hprices.
    + apply sortedOrders_noData.
  - rewrite lookup_insert_ne by done. apply Hprices.
Qed.

Lemma wellFormed_insert t (ob : OrderBook) c :
  JsMap.wf (bids ob) → JsMap.wf (asks ob) →
  wellFormed depth c →
  wellFormed depth (with_orderBooks (<[t := ob]> (orderBooks c)) c).
Proof.
  intros Hb Ha [Hbooks Hprices]. split; [|done]. cbn. intros t' ob'.
  destruct (decide (t = t')) as [<-|Hne].
  - rewrite lookup_insert_eq. by intros [= <-].
  - rewrite lookup_insert_ne by done. apply Hbooks.
Qed.

Lemma wellFormed_writeBook now t ob bs as_ marker c :
  orderBooks c !! t = Some ob → wellFormed depth c →
  wellFormed depth (writeBook parseTicker depth now t ob bs as_ marker c).
Proof.
  intros Hob Hc. unfold writeBook.
  apply wellFormed_updatePricesOrderBook.
  destruct (proj1 Hc _ _ Hob).
  apply wellFormed_insert; cbn; auto using applyLevels_wf.
Qed.

Lemma wellFormed_bookOfSnapshot t snapshot c :
  wellFormed depth c →
  wellFormed depth
    (with_orderBooks (<[t := bookOfSnapshot snapshot]> (orderBooks c)) c).
Proof. apply wellFormed_insert; apply snapshotLevels_wf. Qed.

End WellFormed.

Section BinanceWellFormed.
Local Abbreviation wf := (wellFormed Binance.orderBookDepth).

Lemma Binance_wellFormed_applyDepthUpdate now t d c :
  wf c → wf (Binance.applyDepthUpdate now t d c).
Proof.
  intros Hc. unfold Binance.applyDepthUpdate.
  destruct (orderBooks c !! t) as [ob|] eqn:Hob; [|done].
  repeat case_decide; [done | done |]. by apply wellFormed_writeBook.
Qed.

Lemma Binance_wellFormed_processDepthUpdate now d c :
  wf c → wf (Binance.processDepthUpdate now d c).
Proof.
  intros Hc. unfold Binance.processDepthUpdate.
  destruct (initializing (s d) c).
  - eapply wellFormed_frame; [| |done];
      auto using pushBuffer_orderBooks, pushBuffer_prices.
  - by apply Binance_wellFormed_applyDepthUpdate.
Qed.

Lemma Binance_wellFormed_replay now t events c :
  wf c →
  wf (foldl (λ c' event, Binance.applyDepthUpdate now t event c') c events).
Proof.
  revert c. induction events as [|e es IH]; intros c Hc; [done|].
  cbn. by apply IH, Binance_wellFormed_applyDepthUpdate.
Qed.

Lemma Binance_wellFormed_markInitialized now t c :
  wf c → wf (Binance.markInitialized now t c).
Proof.
  intros Hc. unfold Binance.markInitialized.
  eapply wellFormed_frame;
    [| |by apply (wellFormed_updatePricesOrderBook Binance.parseTicker
            Binance.orderBookDepth now t)]; done.
Qed.

Lemma Binance_wellFormed_installSnapshot now t buffer snapshot c :
  wf c → wf (Binance.installSnapshot now t buffer snapshot c).
Proof.
  intros Hc. unfold Binance.installSnapshot.
  pose proof (wellFormed_bookOfSnapshot Binance.orderBookDepth t snapshot c Hc)
    as Hc1.
  destruct (filter _ _) as [|e es];
    [by apply Binance_wellFormed_markInitialized|].
  case_decide; [|done].
  by apply Binance_wellFormed_markInitialized,
    (Binance_wellFormed_replay now t (e :: es)).
Qed.

Lemma Binance_wellFormed_onSubscribe tickers c :
  wf c → wf (Binance.onSubscribe tickers c).
Proof.
  intros Hc. unfold Binance.onSubscribe.
  match goal with
  | |- wellFormed _ (foldl _ ?c1 _) =>
      assert (wf c1) as Hc1 by (by destruct (_ ≫= _));
      generalize dependent c1
  end.
  induction tickers as [|t' ts IH]; intros c1 Hc1; [done|].
  cbn. apply IH. by case_decide.
Qed.

Lemma Binance_wellFormed_step now e c : wf c → wf (Binance.step now e c).
Proof.
  intros Hc. destruct e as [|m|code|i|i result|]; cbn.
  - destruct (isClosing c); [done | by apply Binance_wellFormed_onSubscribe].
  - destruct m as [n|sym p|d|]; cbn; [by case_decide | | | done].
    + case_decide; [by apply wellFormed_storePrice | done].
    + case_decide; [by apply Binance_wellFormed_processDepthUpdate | done].
  - by destruct (_ && _).
  - unfold resume. destruct (pending c !! i) as [[t'|????|t'|t']|]; cbn;
      [|exact Hc..].
    unfold Binance.checkBuffer.
    destruct (depthUpdateBuffers _ !! t') as [r|]; [|exact Hc].
    destruct (arrays _ !! r) as [[|??]|]; exact Hc.
  - unfold resume.
    destruct (pending c !! i) as [[t'|t' buffer first again|t'|t']|]; cbn;
      [exact Hc| |exact Hc..].
    unfold Binance.snapshotSettled.
    destruct result as [snapshot|]; [|exact Hc].
    destruct (_ && _); [exact Hc|].
    by apply Binance_wellFormed_installSnapshot.
  - done.
Qed.

Lemma construct_wellFormed depth createTicker buffers configs :
  wellFormed depth (construct createTicker buffers configs).
Proof.
  unfold construct.
  match goal with
  | |- wellFormed _ (foldl _ ?c0 ?l) =>
      assert (orderBooks c0 = ∅ ∧ prices c0 = ∅) as Hc0 by done;
      generalize dependent c0; generalize l
  end.
  intros ts. induction ts as [|t ts IH]; intros c0 [Hb Hp].
  - cbn. split; intros ??; [rewrite Hb | rewrite Hp];
      by rewrite lookup_empty.
  - cbn. apply IH. by destruct buffers.
Qed.

(** Every state a Binance connector reaches is well formed. *)
Lemma Binance_wellFormed_run es configs :
  wf (Binance.run es (Binance.new configs)).
Proof.
  unfold Binance.run.
  assert (wf (Binance.new configs)) as H by apply construct_wellFormed.
  revert H. generalize (Binance.new configs).
  induction es as [|e es IH]; intros c Hc; [done|].
  cbn. by apply IH, Binance_wellFormed_step.
Qed.

End BinanceWellFormed.

(** ** The connectors: what a handler leaves alone *)

Section FrameFacts.
Context (parseTicker : string → string) (depth : nat).

Lemma updatePricesOrderBook_orderBooks now t c :
  orderBooks (updatePricesOrderBook parseTicker depth now t c) = orderBooks c.
Proof. unfold updatePricesOrderBook. by destruct (orderBooks c !! t). Qed.

Lemma updatePricesOrderBook_isInitializing now t c :
  isInitializing (updatePricesOrderBook parseTicker depth now t c)
    = isInitializing c.
Proof. unfold updatePricesOrderBook. by destruct (orderBooks c !! t). Qed.

Lemma updatePricesOrderBook_storedPrice now t c k :
  storedPrice (updatePricesOrderBook parseTicker depth now t c) k
    = storedPrice c k.
Proof.
  unfold updatePricesOrderBook, storedPrice.
  destruct (orderBooks c !! t); [|done]. cbn.
  destruct (decide (k = parseTicker t)) as [->|Hne].
  - by rewrite lookup_insert_eq.
  - by rewrite lookup_insert_ne.
Qed.

Lemma updatePricesOrderBook_other now t c k :
  k ≠ parseTicker t →
  prices (updatePricesOrderBook parseTicker depth now t c) !! k
    = prices c !! k.
Proof.
  intros Hne. unfold updatePricesOrderBook.
  destruct (orderBooks c !! t); [|done]. cbn. by rewrite lookup_insert_ne.
Qed.

Lemma writeBook_orderBooks now t ob bs as_ marker c :
  orderBooks (writeBook parseTicker depth now t ob bs as_ marker c) =
    <[t := {| lastUpdateId := marker; bids := applyLevels bs (bids ob);
              asks := applyLevels as_ (asks ob) |}]> (orderBooks c).
Proof. unfold writeBook. by rewrite updatePricesOrderBook_orderBooks. Qed.

Lemma writeBook_isInitializing now t ob bs as_ marker c :
  isInitializing (writeBook parseTicker depth now t ob bs as_ marker c)
    = isInitializing c.
Proof. unfold writeBook. by rewrite updatePricesOrderBook_isInitializing. Qed.

Lemma writeBook_storedPrice now t ob bs as_ marker c k :
  storedPrice (writeBook parseTicker depth now t ob bs as_ marker c) k
    = storedPrice c k.
Proof. unfold writeBook. by rewrite updatePricesOrderBook_storedPrice. Qed.

Lemma storePrice_storedOrders now t p c k :
  storedOrders (storePrice parseTicker now t p c) k = storedOrders c k.
Proof.
  unfold storePrice, storedOrders. cbn.
  destruct (decide (k = parseTicker t)) as [->|Hne].
  - by rewrite lookup_insert_eq.
  - by rewrite lookup_insert_ne.
Qed.

Lemma storePrice_other now t p c k :
  k ≠ parseTicker t →
  prices (storePrice parseTicker now t p c) !! k = prices c !! k.
Proof. intros Hne. unfold storePrice. cbn. by rewrite lookup_insert_ne. Qed.

End FrameFacts.

Lemma initializing_insert t t' v c :
  initializing t' (with_isInitializing (<[t := v]> (isInitializing c)) c) =
    if decide (t = t') then v else initializing t' c.
Proof.
  unfold initializing. cbn. case_decide as Heq.
  - subst. by rewrite lookup_insert_eq.
  - by rewrite lookup_insert_ne.
Qed.

(** ** The ladders keep positive sizes *)

Section PositiveFacts.

Lemma applyLevel_positive (m : Ladder) l :
  0 ≤ l.2 → positive m → positive (applyLevel m l).
Proof.
  destruct l as [p q]. unfold positive, applyLevel, JsMap.entries. cbn.
  intros Hq Hm. case_decide.
  - by apply JsMapFacts.Forall_delete.
  - apply JsMapFacts.Forall_set; [cbn; lia | done].
Qed.

Lemma applyLevels_positive changes (m : Ladder) :
  nonNegative changes → positive m → positive (applyLevels changes m).
Proof.
  unfold applyLevels, nonNegative. intros Hch. revert m.
  induction Hch as [|l ls Hl _ IH]; intros m Hm; [done|].
  cbn. by apply IH, applyLevel_positive.
Qed.

Lemma snapshotLevels_positive levels : positive (snapshotLevels levels).
Proof.
  unfold snapshotLevels.
  assert (∀ m : Ladder, positive m → positive (foldl snapshotLevel m levels))
    as H; [|apply H; constructor].
  induction levels as [|[p q] ls IH]; intros m Hm; [done|].
  cbn. apply IH. case_decide; [|done].
  by apply JsMapFacts.Forall_set.
Qed.

Lemma applyLevel_delete (m : Ladder) p p' :
  JsMap.get p (applyLevels [(p, 0)] m) = None ∧
  (p' ≠ p → JsMap.get p' (applyLevels [(p, 0)] m) = JsMap.get p' m).
Proof.
  cbn. rewrite decide_True by done. split.
  - apply JsMapFacts.get_delete_eq.
  - intros Hne. by apply JsMapFacts.get_delete_ne.
Qed.

Lemma applyLevel_upsert (m : Ladder) p q p' :
  0 < q →
  JsMap.get p (applyLevels [(p, q)] m) = Some q ∧
  (p' ≠ p → JsMap.get p' (applyLevels [(p, q)] m) = JsMap.get p' m).
Proof.
  intros Hq. cbn. rewrite decide_False by lia. split.
  - apply JsMapFacts.get_set_eq.
  - intros Hne. by apply JsMapFacts.get_set_ne.
Qed.

Lemma booksPositive_insert t ob (c c' : Connector) :
  orderBooks c' = <[t := ob]> (orderBooks c) →
  positive (bids ob) → positive (asks ob) →
  booksPositive c → booksPositive c'.
Proof.
  intros Heq Hb Ha Hc t' ob'. rewrite Heq.
  destruct (decide (t = t')) as [->|Hne].
  - rewrite lookup_insert_eq. by intros [= <-].
  - rewrite lookup_insert_ne by done. apply Hc.
Qed.

Lemma booksPositive_same (c c' : Connector) :
  orderBooks c' = orderBooks c → booksPositive c → booksPositive c'.
Proof. intros Heq Hc t ob. rewrite Heq. apply Hc. Qed.

End PositiveFacts.

(** ** Sizes of stored levels *)

Lemma Binance_applyDepthUpdate_positive now t d c :
  nonNegative (b d) → nonNegative (a d) →
  booksPositive c → booksPositive (Binance.applyDepthUpdate now t d c).
Proof.
  intros Hb Ha Hc. unfold Binance.applyDepthUpdate.
  destruct (orderBooks c !! t) as [ob|] eqn:Hob; [|done].
  repeat case_decide; [done | by apply (booksPositive_same c) |].
  destruct (Hc _ _ Hob) as [Hbids Hasks].
  eapply booksPositive_insert; [apply writeBook_orderBooks | | | done]; cbn;
    by apply applyLevels_positive.
Qed.

Lemma Kraken_updatePricesOrderBook_orderBooks now sym c :
  Kraken.orderBooks (Kraken.updatePricesOrderBook now sym c)
    = Kraken.orderBooks c.
Proof.
  unfold Kraken.updatePricesOrderBook.
  by destruct (Kraken.orderBooks c !! sym).
Qed.

Lemma Kraken_processBookUpdate_positive now bookData rest c :
  nonNegative (Kraken.bidLevels bookData) →
  nonNegative (Kraken.askLevels bookData) →
  krakenBooksPositive c →
  ∃ c', Kraken.processBookUpdate now (bookData :: rest) c = Some c' ∧
        krakenBooksPositive c'.
Proof.
  intros Hb Ha Hc. unfold Kraken.processBookUpdate.
  destruct (Kraken.orderBooks c !! Kraken.symbol bookData) as [ob|] eqn:Hob;
    [|by eexists].
  eexists. split; [done|]. destruct (Hc _ _ Hob) as [Hbids Hasks].
  intros t' ob'. rewrite Kraken_updatePricesOrderBook_orderBooks. cbn.
  destruct (decide (Kraken.symbol bookData = t')) as [<-|Hne].
  - rewrite lookup_insert_eq. intros [= <-]. cbn.
    split; by apply applyLevels_positive.
  - rewrite lookup_insert_ne by done. apply Hc.
Qed.

Lemma liveBinance_books :
  orderBooks Samples.liveBinance =
    {[ "BTCUSDT" := {| lastUpdateId := 10; bids := [(100, 2)];
                       asks := [(101, 1)] |} ]}.
Proof. by vm_compute. Qed.

Lemma liveBinance_positive : booksPositive Samples.liveBinance.
Proof.
  intros t ob. rewrite liveBinance_books.
  intros [_ <-]%lookup_singleton_Some.
  split; repeat constructor; cbn; lia.
Qed.

Lemma liveKraken_books :
  Kraken.orderBooks Samples.liveKraken =
    {[ "BTC/USD" := {| Kraken.bids := [(100, 2)];
                       Kraken.asks := [(101, 1)] |} ]}.
Proof. by vm_compute. Qed.

Lemma liveKraken_positive : krakenBooksPositive Samples.liveKraken.
Proof.
  intros t ob. rewrite liveKraken_books.
  intros [_ <-]%lookup_singleton_Some.
  split; repeat constructor; cbn; lia.
Qed.


(** ** Stale updates *)

Lemma Binance_applied now t d c ob :
  orderBooks c !! t = Some ob →
  lastUpdateId ob < u d → U d ≤ lastUpdateId ob + 1 →
  Binance.applyDepthUpdate now t d c =
    writeBook Binance.parseTicker Binance.orderBookDepth now t ob
      (b d) (a d) (u d) c.
Proof.
  intros Hob Hfresh Hnext. unfold Binance.applyDepthUpdate. rewrite Hob.
  rewrite decide_False by lia. by rewrite decide_False by lia.
Qed.

Lemma Backpack_applied now t d c ob :
  orderBooks c !! t = Some ob → lastUpdateId ob < u d →
  Backpack.applyDepthUpdate now t d c =
    writeBook Backpack.parseTicker Backpack.orderBookDepth now t ob
      (b d) (a d) (u d) c.
Proof.
  intros Hob Hfresh. unfold Backpack.applyDepthUpdate. rewrite Hob.
  by rewrite decide_False by lia.
Qed.

Lemma Binance_stale now t d c ob :
  orderBooks c !! t = Some ob → u d ≤ lastUpdateId ob →
  Binance.applyDepthUpdate now t d c = c.
Proof.
  intros Hob Hstale. unfold Binance.applyDepthUpdate. rewrite Hob.
  by rewrite decide_True.
Qed.

Lemma Backpack_stale now t d c ob :
  orderBooks c !! t = Some ob → u d ≤ lastUpdateId ob →
  Backpack.applyDepthUpdate now t d c = c.
Proof.
  intros Hob Hstale. unfold Backpack.applyDepthUpdate. rewrite Hob.
  by rewrite decide_True.
Qed.


(** ** The price track and the book track *)

Lemma Binance_applyDepthUpdate_storedPrice now t d c k :
  storedPrice (Binance.applyDepthUpdate now t d c) k = storedPrice c k.
Proof.
  unfold Binance.applyDepthUpdate.
  destruct (orderBooks c !! t); [|done].
  repeat case_decide; [done..|]. apply writeBook_storedPrice.
Qed.

Lemma Binance_processDepthUpdate_storedPrice now d c k :
  storedPrice (Binance.processDepthUpdate now d c) k = storedPrice c k.
Proof.
  unfold Binance.processDepthUpdate. destruct (initializing (s d) c).
  - unfold storedPrice. by rewrite pushBuffer_prices.
  - apply Binance_applyDepthUpdate_storedPrice.
Qed.


(** ** Gaps *)

Section BinanceFrozen.
Context (t : string) (ob : OrderBook).

Lemma frozen_frame (c c' : Connector) :
  orderBooks c' = orderBooks c → isInitializing c' = isInitializing c →
  frozen t ob c → frozen t ob c'.
Proof. unfold frozen, initializing. by intros -> ->. Qed.

Lemma frozen_initializeOrderBook t' c :
  frozen t ob c → frozen t ob (Binance.initializeOrderBook t' c).
Proof.
  intros [Hinit Hob]. split; [|done].
  unfold initializing in *. cbn.
  destruct (decide (t' = t)) as [->|Hne].
  - by rewrite lookup_insert_eq.
  - by rewrite lookup_insert_ne.
Qed.

Lemma frozen_applyDepthUpdate now t' d c :
  t' ≠ t → frozen t ob c → frozen t ob (Binance.applyDepthUpdate now t' d c).
Proof.
  intros Hne Hfr. unfold Binance.applyDepthUpdate.
  destruct (orderBooks c !! t') as [ob'|]; [|done].
  repeat case_decide; [done | |].
  - apply frozen_initializeOrderBook. destruct Hfr as [Hinit Hob].
    split; [|done]. rewrite initializing_insert. by rewrite decide_False.
  - destruct Hfr as [Hinit Hob]. split.
    + unfold initializing. by rewrite writeBook_isInitializing.
    + by rewrite writeBook_orderBooks, lookup_insert_ne.
Qed.

Lemma frozen_processDepthUpdate now d c :
  frozen t ob c → frozen t ob (Binance.processDepthUpdate now d c).
Proof.
  intros Hfr. unfold Binance.processDepthUpdate.
  destruct (initializing (s d) c) eqn:Hinit.
  - eapply frozen_frame; [| |done];
      auto using pushBuffer_orderBooks, pushBuffer_isInitializing.
  - apply frozen_applyDepthUpdate; [|done].
    intros Heq. destruct Hfr as [Ht _]. congruence.
Qed.

Lemma frozen_onSubscribe tickers c :
  frozen t ob c → frozen t ob (Binance.onSubscribe tickers c).
Proof.
  intros Hfr. unfold Binance.onSubscribe.
  match goal with
  | |- frozen _ _ (foldl _ ?c1 _) =>
      assert (frozen t ob c1) as Hc1 by (by destruct (_ ≫= _));
      generalize dependent c1
  end.
  induction tickers as [|t' ts IH]; intros c1 Hc1; [done|].
  cbn. apply IH. case_decide; [by apply frozen_initializeOrderBook | done].
Qed.

Lemma frozen_checkBuffer t' c :
  frozen t ob c → frozen t ob (Binance.checkBuffer t' c).
Proof.
  intros Hfr. unfold Binance.checkBuffer.
  destruct (depthUpdateBuffers c !! t') as [r|]; [|done].
  by destruct (arrays c !! r) as [[|??]|].
Qed.

(** While a book is flagged, only the arrival of a snapshot writes it. *)
Lemma frozen_step now e c :
  ¬ deliversSnapshot e → frozen t ob c → frozen t ob (Binance.step now e c).
Proof.
  intros He Hfr. destruct e as [|m|code|i|i [snapshot|]|]; cbn.
  - destruct (isClosing c); [done | by apply frozen_onSubscribe].
  - destruct m as [n|sym p|d|]; cbn; [by case_decide | | | done].
    + by case_decide.
    + case_decide; [by apply frozen_processDepthUpdate | done].
  - by destruct (_ && _).
  - unfold resume. destruct (pending c !! i) as [[t'|????|t'|t']|]; cbn;
      [by apply frozen_checkBuffer | done | done
      | by apply frozen_initializeOrderBook | done].
  - by destruct He.
  - unfold resume. by destruct (pending c !! i) as [[t'|????|t'|t']|].
  - done.
Qed.

Lemma frozen_run es c :
  Forall (λ e, ¬ deliversSnapshot e.2) es →
  frozen t ob c → frozen t ob (Binance.run es c).
Proof.
  unfold Binance.run. intros Hes. revert c.
  induction Hes as [|e es He _ IH]; intros c Hfr; [done|].
  cbn. by apply IH, frozen_step.
Qed.

End BinanceFrozen.

Lemma bufferOf_resetBuffer t c : bufferOf t (resetBuffer t c) = [].
Proof.
  unfold bufferOf, resetBuffer. cbn. rewrite lookup_insert_eq. cbn.
  by rewrite list_lookup_middle.
Qed.


(** After a gap: the next update is buffered, and the timer of
    [checkBuffer] finds it and requests the snapshot. *)
Lemma resync_requests_snapshot now1 now2 (d' : DepthUpdate) t c :
  s d' = t → t ∈ trackingOrderBook c →
  let c' := Binance.initializeOrderBook t
              (with_isInitializing (<[t := true]> (isInitializing c)) c) in
  let c'' :=
    Binance.run
      [(now1, Binance.WsMessage (Binance.Depth d'));
       (now2, Binance.TimerFires (length (pending c)))] c' in
  trace c'' = trace c ++ [Fetch t] ∧
  pending c'' = pending c ++ [AwaitSnapshot t (length (arrays c)) (U d') false] ∧
  bufferOf t c'' = [d'].
Proof.
  intros Hsym Htracked c' c''.
  assert (Binance.step now1 (Binance.WsMessage (Binance.Depth d')) c' =
          with_arrays (arrays c ++ [[d']]) c') as Hstep1.
  { cbn. rewrite Hsym. rewrite decide_True by done.
    unfold Binance.processDepthUpdate. rewrite Hsym.
    assert (initializing t c' = true) as ->.
    { unfold initializing. cbn. by rewrite lookup_insert_eq. }
    unfold pushBuffer. cbn. rewrite lookup_insert_eq.
    rewrite list_lookup_middle by done. cbn.
    f_equal. rewrite <-(Nat.add_0_r (length (arrays c))).
    by rewrite insert_app_r. }
  unfold c'', Binance.run. cbn [foldl fst snd]. rewrite Hstep1.
  cbn. unfold resume. cbn. rewrite list_lookup_middle by done. cbn.
  unfold Binance.checkBuffer. cbn. rewrite lookup_insert_eq.
  rewrite list_lookup_middle by done. cbn.
  rewrite (delete_middle (pending c) [] (WaitBuffer t)).
  rewrite app_nil_r. split_and!; [done | done |].
  unfold bufferOf. cbn. rewrite lookup_insert_eq. cbn.
  by rewrite list_lookup_middle.
Qed.

(** ** Requests sent since a gap *)

Lemma sentSince_refl c : sentSince c c [].
Proof. unfold sentSince. by rewrite app_nil_r. Qed.

Lemma sentSince_trans c1 c2 c3 since since' :
  sentSince c1 c2 since → sentSince c2 c3 since' →
  sentSince c1 c3 (since ++ since').
Proof. unfold sentSince. intros H1 ->. by rewrite H1, app_assoc. Qed.

Lemma Binance_applyDepthUpdate_trace now t d c :
  trace (Binance.applyDepthUpdate now t d c) = trace c.
Proof.
  unfold Binance.applyDepthUpdate.
  destruct (orderBooks c !! t); [|done].
  repeat case_decide; [done | done |].
  unfold writeBook, updatePricesOrderBook. cbn. by destruct (_ !! t).
Qed.

Lemma Binance_processDepthUpdate_trace now d c :
  trace (Binance.processDepthUpdate now d c) = trace c.
Proof.
  unfold Binance.processDepthUpdate. destruct (initializing _ _).
  - unfold pushBuffer. by destruct (_ !! s d).
  - apply Binance_applyDepthUpdate_trace.
Qed.

Lemma Binance_installSnapshot_trace now t buffer snapshot c :
  trace (Binance.installSnapshot now t buffer snapshot c) = trace c.
Proof.
  unfold Binance.installSnapshot.
  assert (∀ c1, trace (Binance.markInitialized now t c1) = trace c1)
    as Hmark.
  { intros c1. unfold Binance.markInitialized,
      Binance.updatePricesOrderBook, updatePricesOrderBook. cbn.
    by destruct (_ !! t). }
  destruct (filter _ _) as [|e es]; [by rewrite Hmark|].
  case_decide; [|done]. rewrite Hmark.
  generalize (e :: es). intros l.
  match goal with |- trace (foldl _ ?c1 l) = _ =>
    change (trace c) with (trace c1); generalize c1 end.
  induction l as [|e' l IH]; intros c1; [done|].
  cbn. rewrite IH. apply Binance_applyDepthUpdate_trace.
Qed.

Lemma Binance_onSubscribe_sent tickers c :
  ∃ since, sentSince c (Binance.onSubscribe tickers c) since ∧
           ∀ t, Fetch t ∉ since.
Proof.
  unfold Binance.onSubscribe.
  match goal with
  | |- context [foldl _ ?c1 _] =>
      assert (∃ since, sentSince c c1 since ∧ ∀ t, Fetch t ∉ since) as Hc1;
      [|generalize dependent c1]
  end.
  { destruct (_ ≫= _) as [|x params].
    - exists []. split; [apply sentSince_refl|]. intros t. apply not_elem_of_nil.
    - eexists. split; [done|]. intros t.
      by intros [=]%list_elem_of_singleton. }
  induction tickers as [|t' ts IH]; intros c1 Hc1; [done|].
  cbn. apply IH. destruct Hc1 as (since & Hs & Hn).
  case_decide; by exists since.
Qed.

(** What a connector has sent stays sent. *)
Lemma Binance_step_sent now e c :
  ∃ since, sentSince c (Binance.step now e c) since.
Proof.
  assert (∀ c', trace c' = trace c → ∃ since, sentSince c c' since)
    as Hsame.
  { intros c' Htr. exists []. unfold sentSince. by rewrite app_nil_r. }
  destruct e as [|m|code|i|i result|]; cbn.
  - destruct (isClosing c); [by apply Hsame|].
    destruct (Binance_onSubscribe_sent (formattedTickers c) c)
      as (since & Hs & _). by exists since.
  - destruct m as [n|sym p|d|]; cbn;
      [case_decide; [by apply Hsame | by eexists] | | | by apply Hsame].
    + case_decide; by apply Hsame.
    + case_decide; [|by apply Hsame].
      apply Hsame, Binance_processDepthUpdate_trace.
  - destruct (_ && _); [by eexists | by apply Hsame].
  - unfold resume. destruct (pending c !! i) as [[t'|????|t'|t']|]; cbn;
      [|by apply Hsame..].
    unfold Binance.checkBuffer.
    destruct (depthUpdateBuffers _ !! t') as [r|]; [|by apply Hsame].
    destruct (arrays _ !! r) as [[|??]|];
      [by apply Hsame | by eexists | by apply Hsame].
  - unfold resume.
    destruct (pending c !! i) as [[t'|t' buffer first again|t'|t']|]; cbn;
      [by apply Hsame | | by apply Hsame..].
    unfold Binance.snapshotSettled.
    destruct result as [snapshot|]; [|by apply Hsame].
    destruct (_ && _); [by eexists|].
    apply Hsame.
    by rewrite (Binance_installSnapshot_trace now t' buffer snapshot
                  (with_pending (delete i (pending c)) c)).
  - by eexists.
Qed.

Lemma Binance_run_sent es c :
  ∃ since, sentSince c (Binance.run es c) since.
Proof.
  unfold Binance.run. revert c.
  induction es as [|e es IH]; intros c; [exists []; apply sentSince_refl|].
  cbn. destruct (Binance_step_sent e.1 e.2 c) as (since & Hs).
  destruct (IH (Binance.step e.1 e.2 c)) as (since' & Hs').
  eexists. by eapply sentSince_trans.
Qed.

Section BinanceResync.
Context (t : string) (ob : OrderBook).

(** The book of [t] waits for its snapshot, and none is on its way. *)
Local Abbreviation waiting c := (frozen t ob c ∧ noRequestInFlight t c).

Lemma noRequestInFlight_frame (c c' : Connector) tasks :
  pending c' = pending c ++ tasks →
  Forall (λ task, ¬ awaitsSnapshotOf t task) tasks →
  noRequestInFlight t c → noRequestInFlight t c'.
Proof.
  unfold noRequestInFlight. intros -> Htasks Hc. by apply Forall_app.
Qed.

Lemma noRequestInFlight_resume i c :
  noRequestInFlight t c →
  noRequestInFlight t (with_pending (delete i (pending c)) c).
Proof. unfold noRequestInFlight. cbn. apply Forall_delete. Qed.

Lemma waiting_initializeOrderBook t' c :
  waiting c → waiting (Binance.initializeOrderBook t' c).
Proof.
  intros [Hfr Hno]. split; [by apply frozen_initializeOrderBook|].
  apply (noRequestInFlight_frame c _ [WaitBuffer t']); [done | | done].
  repeat constructor. by intros [].
Qed.

Lemma waiting_applyDepthUpdate now t' d c :
  t' ≠ t → waiting c → waiting (Binance.applyDepthUpdate now t' d c).
Proof.
  intros Hne [Hfr Hno]. split; [by apply frozen_applyDepthUpdate|].
  unfold Binance.applyDepthUpdate.
  destruct (orderBooks c !! t') as [ob'|]; [|done].
  repeat case_decide; [done | |].
  - apply (noRequestInFlight_frame c _ [WaitBuffer t']); [done | | done].
    repeat constructor. by intros [].
  - apply (noRequestInFlight_frame c _ []); [|done..].
    unfold writeBook, updatePricesOrderBook. cbn.
    rewrite app_nil_r. by destruct (_ !! t').
Qed.

Lemma waiting_replay now t' events c :
  t' ≠ t → waiting c →
  waiting (foldl (λ c' event, Binance.applyDepthUpdate now t' event c')
             c events).
Proof.
  intros Hne. revert c.
  induction events as [|e es IH]; intros c Hc; [done|].
  cbn. by apply IH, waiting_applyDepthUpdate.
Qed.

Lemma waiting_markInitialized now t' c :
  t' ≠ t → waiting c → waiting (Binance.markInitialized now t' c).
Proof.
  intros Hne [[Hinit Hob] Hno].
  unfold Binance.markInitialized, Binance.updatePricesOrderBook.
  split; [split|].
  - unfold initializing in *. cbn.
    rewrite lookup_insert_ne by done.
    by rewrite updatePricesOrderBook_isInitializing.
  - cbn. by rewrite updatePricesOrderBook_orderBooks.
  - apply (noRequestInFlight_frame c _ []); [|done..].
    unfold updatePricesOrderBook. cbn.
    rewrite app_nil_r. by destruct (_ !! t').
Qed.

Lemma waiting_installSnapshot now t' buffer snapshot c :
  t' ≠ t → waiting c →
  waiting (Binance.installSnapshot now t' buffer snapshot c).
Proof.
  intros Hne Hc. unfold Binance.installSnapshot.
  assert (waiting (with_orderBooks
                     (<[t':=bookOfSnapshot snapshot]> (orderBooks c)) c))
    as Hc1.
  { destruct Hc as [[Hinit Hob] Hno]. split; [split|]; [done| |done].
    cbn. by rewrite lookup_insert_ne. }
  destruct (filter _ _) as [|e es]; [by apply waiting_markInitialized|].
  case_decide; [|by apply waiting_initializeOrderBook].
  by apply waiting_markInitialized, (waiting_replay now t' (e :: es)).
Qed.

Lemma waiting_onSubscribe tickers c :
  waiting c →
  waiting (Binance.onSubscribe tickers c) ∧
  ∃ since, sentSince c (Binance.onSubscribe tickers c) since ∧
           Fetch t ∉ since.
Proof.
  intros Hc. unfold Binance.onSubscribe.
  match goal with
  | |- context [foldl _ ?c1 _] =>
      assert (waiting c1 ∧
              ∃ since, sentSince c c1 since ∧ Fetch t ∉ since) as Hc1;
      [|generalize dependent c1]
  end.
  { destruct (_ ≫= _) as [|x params].
    - split; [done|]. exists []. split; [by unfold sentSince; rewrite app_nil_r|].
      apply not_elem_of_nil.
    - split; [done|]. eexists. split; [done|].
      by intros [=]%list_elem_of_singleton. }
  induction tickers as [|t' ts IH]; intros c1 Hc1; [done|].
  cbn. apply IH. destruct Hc1 as (Hw & since & Hs & Hn).
  case_decide; [|by eauto].
  split; [by apply waiting_initializeOrderBook|]. by exists since.
Qed.

(** One turn of the event loop while the book of [t] waits: it keeps
    waiting, or the request for its snapshot goes out. *)
Lemma waiting_step now e c :
  waiting c →
  ∃ since, sentSince c (Binance.step now e c) since ∧
    (Fetch t ∈ since ∨ waiting (Binance.step now e c)).
Proof.
  intros Hc.
  assert (∀ c', trace c' = trace c → waiting c' →
            ∃ since, sentSince c c' since ∧ (Fetch t ∈ since ∨ waiting c'))
    as Hsame.
  { intros c' Htr Hc'. exists []. split; [|by right].
    unfold sentSince. by rewrite app_nil_r. }
  destruct e as [|m|code|i|i result|]; cbn.
  - destruct (isClosing c); [by apply Hsame|].
    destruct (waiting_onSubscribe (formattedTickers c) c Hc)
      as (Hw & since & Hs & _).
    exists since. by auto.
  - destruct m as [n|sym p|d|]; cbn.
    + case_decide; [by apply Hsame|].
      exists [Pong n]. split; [done|]. by right.
    + case_decide; by apply Hsame.
    + case_decide; [|by apply Hsame].
      unfold Binance.processDepthUpdate.
      destruct (initializing (s d) c) eqn:Hinit.
      * apply Hsame.
        { unfold pushBuffer. by destruct (_ !! s d). }
        destruct Hc as [Hfr Hno]. split.
        -- eapply frozen_frame; [| |done];
             auto using pushBuffer_orderBooks, pushBuffer_isInitializing.
        -- apply (noRequestInFlight_frame c _ []); [|done..].
           unfold pushBuffer. rewrite app_nil_r. by destruct (_ !! s d).
      * assert (s d ≠ t) as Hne
          by (intros Heq; destruct Hc as [[Ht _] _]; congruence).
        apply Hsame; [|by apply waiting_applyDepthUpdate].
        unfold Binance.applyDepthUpdate.
        destruct (orderBooks c !! s d); [|done].
        repeat case_decide; [done | done |].
        unfold writeBook, updatePricesOrderBook. cbn. by destruct (_ !! s d).
    + by apply Hsame.
  - destruct (_ && _); [|by apply Hsame].
    exists [Start]. split; [done|]. by right.
  - unfold resume. destruct (pending c !! i) as [task|] eqn:Hi; cbn;
      [|by apply Hsame].
    assert (waiting (with_pending (delete i (pending c)) c)) as Hc0.
    { destruct Hc as [Hfr Hno]. split; [done|].
      by apply noRequestInFlight_resume. }
    destruct task as [t'|????|t'|t']; [| by apply Hsame.. | ].
    + unfold Binance.checkBuffer.
      destruct (depthUpdateBuffers _ !! t') as [r|] eqn:Hr; cbn.
      2:{ apply Hsame; [done|]. destruct Hc0 as [Hfr Hno]. split; [done|].
          eapply noRequestInFlight_frame; [done| |done].
          repeat constructor. by intros []. }
      destruct (arrays _ !! r) as [[|first rest]|]; cbn.
      1,3: apply Hsame; [done|]; destruct Hc0 as [Hfr Hno]; (split; [done|]);
           (eapply noRequestInFlight_frame; [done| |done]);
           repeat constructor; by intros [].
      exists [Fetch t']. split; [done|].
      destruct (decide (t' = t)) as [->|Hne]; [left; by left|].
      right. destruct Hc0 as [Hfr Hno]. split; [done|].
      eapply noRequestInFlight_frame; [done| |done].
      repeat constructor. by intros ?.
    + apply Hsame; [done|]. by apply waiting_initializeOrderBook.
  - unfold resume. destruct (pending c !! i) as [task|] eqn:Hi; cbn;
      [|by apply Hsame].
    assert (waiting (with_pending (delete i (pending c)) c)) as Hc0.
    { destruct Hc as [Hfr Hno]. split; [done|].
      by apply noRequestInFlight_resume. }
    destruct task as [t'|t' buffer first again|t'|t']; [by apply Hsame| |by apply Hsame..].
    assert (t' ≠ t) as Hne.
    { intros ->. destruct Hc as [_ Hno].
      unfold noRequestInFlight in Hno. rewrite Forall_forall in Hno.
      apply (Hno (AwaitSnapshot t buffer first again));
        [by eapply list_elem_of_lookup_2 | done]. }
    unfold Binance.snapshotSettled.
    destruct result as [snapshot|].
    2:{ apply Hsame; [done|]. destruct Hc0 as [Hfr Hno]. split; [done|].
        eapply noRequestInFlight_frame; [done| |done].
        repeat constructor. by intros []. }
    destruct (_ && _).
    + exists [Fetch t']. split; [done|]. right.
      destruct Hc0 as [Hfr Hno]. split; [done|].
      eapply noRequestInFlight_frame; [done| |done].
      repeat constructor. by intros ?.
    + apply Hsame; [|by apply waiting_installSnapshot].
      by rewrite (Binance_installSnapshot_trace now t' buffer snapshot
                    (with_pending (delete i (pending c)) c)).
  - exists [CloseSocket]. split; [done|]. by right.
Qed.

(** From the moment the book of [t] waits and no request of it is in
    flight: at every later moment it still waits as it was, or a request
    for a snapshot of [t] has been sent since. *)
Lemma waiting_run es c :
  waiting c →
  ∃ since, sentSince c (Binance.run es c) since ∧
    (Fetch t ∈ since ∨ waiting (Binance.run es c)).
Proof.
  unfold Binance.run. revert c.
  induction es as [|e es IH]; intros c Hc.
  - exists []. split; [apply sentSince_refl | by right].
  - cbn. destruct (waiting_step e.1 e.2 c Hc) as (since & Hs & [Hf|Hw]).
    + destruct (Binance_run_sent es (Binance.step e.1 e.2 c))
        as (since' & Hs').
      exists (since ++ since'). split; [by eapply sentSince_trans|].
      left. apply elem_of_app. by left.
    + destruct (IH _ Hw) as (since' & Hs' & Hor).
      exists (since ++ since'). split; [by eapply sentSince_trans|].
      destruct Hor as [Hf|Hw']; [|by right].
      left. apply elem_of_app. by right.
Qed.

End BinanceResync.

(** ** From the snapshot to the live book *)

Lemma markInitialized_initializing now t c :
  initializing t (Binance.markInitialized now t c) = false.
Proof.
  unfold Binance.markInitialized, initializing. cbn.
  by rewrite lookup_insert_eq.
Qed.


(** * The properties of the design document *)

(** C1.  In the connectors that compare markers, [Binance] and
    [Backpack], an update whose end marker is not above the marker of a
    live book leaves the whole connector as it is.  So an update that was
    applied, which moves the marker to its end marker, is a no-op when it
    arrives a second time. *)
Theorem stale_update_is_ignored
    (now now' : Z) (d : DepthUpdate) (c : Connector) (orderBook : OrderBook) :
  initializing (s d) c = false →
  orderBooks c !! s d = Some orderBook →
  (u d ≤ lastUpdateId orderBook →
     Binance.processDepthUpdate now d c = c ∧
     Backpack.processDepthUpdate now d c = c) ∧
  (lastUpdateId orderBook < u d → U d ≤ lastUpdateId orderBook + 1 →
     lastUpdateId <$> orderBooks (Binance.processDepthUpdate now d c) !! s d
       = Some (u d) ∧
     Binance.processDepthUpdate now' d (Binance.processDepthUpdate now d c)
       = Binance.processDepthUpdate now d c) ∧
  (lastUpdateId orderBook < u d →
     lastUpdateId <$> orderBooks (Backpack.processDepthUpdate now d c) !! s d
       = Some (u d) ∧
     Backpack.processDepthUpdate now' d (Backpack.processDepthUpdate now d c)
       = Backpack.processDepthUpdate now d c).
Proof.
  intros Hlive Hob. split_and!.
  - intros Hstale. unfold Binance.processDepthUpdate,
      Backpack.processDepthUpdate. rewrite Hlive.
    by erewrite Binance_stale, Backpack_stale.
  - intros Hfresh Hnext. unfold Binance.processDepthUpdate at 1 3 4.
    rewrite Hlive. erewrite Binance_applied by done.
    assert (orderBooks
      (writeBook Binance.parseTicker Binance.orderBookDepth now (s d)
         orderBook (b d) (a d) (u d) c) !! s d =
      Some {| lastUpdateId := u d;
              bids := applyLevels (b d) (bids orderBook);
              asks := applyLevels (a d) (asks orderBook) |}) as Hob'.
    { by rewrite writeBook_orderBooks, lookup_insert_eq. }
    split; [by rewrite Hob'|].
    unfold Binance.processDepthUpdate, initializing.
    rewrite writeBook_isInitializing. fold (initializing (s d) c).
    rewrite Hlive. by eapply Binance_stale.
  - intros Hfresh. unfold Backpack.processDepthUpdate at 1 3 4.
    rewrite Hlive. erewrite Backpack_applied by done.
    assert (orderBooks
      (writeBook Backpack.parseTicker Backpack.orderBookDepth now (s d)
         orderBook (b d) (a d) (u d) c) !! s d =
      Some {| lastUpdateId := u d;
              bids := applyLevels (b d) (bids orderBook);
              asks := applyLevels (a d) (asks orderBook) |}) as Hob'.
    { by rewrite writeBook_orderBooks, lookup_insert_eq. }
    split; [by rewrite Hob'|].
    unfold Backpack.processDepthUpdate, initializing.
    rewrite writeBook_isInitializing. fold (initializing (s d) c).
    rewrite Hlive. by eapply Backpack_stale.
Qed.

Lemma stale_update_is_ignored_witness :
  Binance.processDepthUpdate 4
    {| s := "BTCUSDT"; U := 8; u := 10; b := [(100, 9)]; a := [] |}
    Samples.liveBinance = Samples.liveBinance ∧
  Binance.processDepthUpdate 5 (Samples.nextUpdate [(100, 9)])
    (Binance.processDepthUpdate 4 (Samples.nextUpdate [(100, 9)])
       Samples.liveBinance)
  = Binance.processDepthUpdate 4 (Samples.nextUpdate [(100, 9)])
      Samples.liveBinance.
Proof.
  split.
  - refine (proj1 (proj1 (stale_update_is_ignored 4 4
      {| s := "BTCUSDT"; U := 8; u := 10; b := [(100, 9)]; a := [] |}
      Samples.liveBinance
      {| lastUpdateId := 10; bids := [(100, 2)]; asks := [(101, 1)] |}
      _ _) _)); [reflexivity | reflexivity | cbn; lia].
  - refine (proj2 (proj1 (proj2 (stale_update_is_ignored 4 5
      (Samples.nextUpdate [(100, 9)]) Samples.liveBinance
      {| lastUpdateId := 10; bids := [(100, 2)]; asks := [(101, 1)] |}
      _ _)) _ _)); [reflexivity | reflexivity | cbn; lia | cbn; lia].
Defined.

(** Read for every connector, the property fails: [OKX] compares no markers,
    an update stamped before the marker of the live book is applied and
    moves the marker back. *)
Lemma okx_applies_stale_update :
  initializing "BTC-USDT" Samples.liveOkx = false ∧
  orderBooks Samples.liveOkx !! "BTC-USDT"
    = Some {| lastUpdateId := 1000; bids := [(100, 1)]; asks := [] |} ∧
  900 ≤ 1000 ∧
  (OKX.processOrderBookUpdate 4 Samples.okxStale Samples.liveOkx
     ≫= λ c', orderBooks c' !! "BTC-USDT")
    = Some {| lastUpdateId := 900; bids := [(100, 7)]; asks := [] |} ∧
  OKX.processOrderBookUpdate 4 Samples.okxStale Samples.liveOkx
    ≠ Some Samples.liveOkx.
Proof.
  split_and!; [by vm_compute | by vm_compute | lia | by vm_compute |].
  intros Heq.
  apply (f_equal (λ r, r ≫= λ c', lastUpdateId <$> orderBooks c' !! "BTC-USDT"))
    in Heq.
  vm_compute in Heq. discriminate.
Qed.

(** C2.  In [Binance], an update for a live book whose start marker is
    more than one above the marker of the book is a gap (an update covers
    the span of markers from [U] to [u], so [U ≤ u]): no ladder and no
    published order changes, the book is flagged as initializing, its
    buffer is replaced by an empty one and [initializeOrderBook] waits
    again for a first update.  From then on, whatever arrives, the book
    stays as it was and stays flagged until a fetched snapshot is handed
    over.  When no request for a snapshot of the ticker is in flight at
    the gap, that snapshot is a fresh one: as long as no request for a
    snapshot of the ticker has been sent since the gap, the book is as it
    was, it is flagged, and no request of the ticker is in flight.  Once
    the next update of the ticker is buffered, the polling timer sends
    that request. *)
Theorem gap_forces_resync
    (now : Z) (d : DepthUpdate) (c : Connector) (orderBook : OrderBook) :
  initializing (s d) c = false →
  orderBooks c !! s d = Some orderBook →
  lastUpdateId orderBook + 1 < U d →
  U d ≤ u d →
  let c' := Binance.processDepthUpdate now d c in
  orderBooks c' = orderBooks c ∧
  prices c' = prices c ∧
  initializing (s d) c' = true ∧
  bufferOf (s d) c' = [] ∧
  pending c' = pending c ++ [WaitBuffer (s d)] ∧
  (∀ es, Forall (λ e, ¬ deliversSnapshot e.2) es →
     initializing (s d) (Binance.run es c') = true ∧
     orderBooks (Binance.run es c') !! s d = Some orderBook) ∧
  (noRequestInFlight (s d) c →
   ∀ es, ∃ since,
     trace (Binance.run es c') = trace c ++ since ∧
     (Fetch (s d) ∈ since ∨
      (initializing (s d) (Binance.run es c') = true ∧
       orderBooks (Binance.run es c') !! s d = Some orderBook ∧
       noRequestInFlight (s d) (Binance.run es c')))) ∧
  (∀ now1 now2 d', s d' = s d → s d ∈ trackingOrderBook c →
     let c'' :=
       Binance.run
         [(now1, Binance.WsMessage (Binance.Depth d'));
          (now2, Binance.TimerFires (length (pending c)))] c' in
     trace c'' = trace c ++ [Fetch (s d)] ∧
     pending c'' =
       pending c ++ [AwaitSnapshot (s d) (length (arrays c)) (U d') false] ∧
     bufferOf (s d) c'' = [d']).
Proof.
  intros Hlive Hob Hgap Hrange c'.
  assert (c' = Binance.initializeOrderBook (s d)
                 (with_isInitializing (<[s d := true]> (isInitializing c)) c))
    as ->.
  { unfold c', Binance.processDepthUpdate, Binance.applyDepthUpdate.
    rewrite Hlive, Hob. rewrite decide_False by lia.
    by rewrite decide_True by lia. }
  assert (initializing (s d)
            (Binance.initializeOrderBook (s d)
               (with_isInitializing (<[s d := true]> (isInitializing c)) c))
          = true) as Hinit.
  { unfold initializing. cbn. by rewrite lookup_insert_eq. }
  split_and!; [done | done | done | | done | | |].
  - unfold Binance.initializeOrderBook, suspend.
    apply (bufferOf_resetBuffer (s d)).
  - intros es Hes. by apply frozen_run.
  - intros Hnone es.
    destruct (waiting_run (s d) orderBook es
                (Binance.initializeOrderBook (s d)
                   (with_isInitializing (<[s d := true]> (isInitializing c))
                      c)))
      as (since & Hs & Hor).
    { split; [done|].
      apply (noRequestInFlight_frame (s d) c _ [WaitBuffer (s d)]);
        [done | | done].
      repeat constructor. by intros []. }
    exists since. split; [exact Hs|].
    destruct Hor as [?|[[? ?] ?]]; [by left | by right].
  - intros now1 now2 d' Hsym Htracked. by apply resync_requests_snapshot.
Qed.

Lemma gap_forces_resync_witness :
  orderBooks
    (Binance.processDepthUpdate 4
       (Samples.range "BTCUSDT" 15 16 [(100, 9)] []) Samples.liveBinance)
    = orderBooks Samples.liveBinance ∧
  orderBooks
    (Binance.run
       [(5, Binance.WsMessage
              (Binance.Depth (Samples.range "BTCUSDT" 17 18 [(100, 0)] [])));
        (6, Binance.TimerFires 0);
        (7, Binance.FetchSettles 0 None)]
       (Binance.processDepthUpdate 4
          (Samples.range "BTCUSDT" 15 16 [(100, 9)] []) Samples.liveBinance))
    !! "BTCUSDT"
    = Some {| lastUpdateId := 10; bids := [(100, 2)]; asks := [(101, 1)] |} ∧
  trace
    (Binance.run
       [(5, Binance.WsMessage
              (Binance.Depth (Samples.range "BTCUSDT" 17 18 [(100, 0)] [])));
        (6, Binance.TimerFires 0)]
       (Binance.processDepthUpdate 4
          (Samples.range "BTCUSDT" 15 16 [(100, 9)] []) Samples.liveBinance))
    = trace Samples.liveBinance ++ [Fetch "BTCUSDT"] ∧
  ∃ since,
    trace
      (Binance.run
         [(5, Binance.WsMessage
                (Binance.Depth
                   (Samples.range "BTCUSDT" 17 18 [(100, 0)] [])));
          (6, Binance.TimerFires 0);
          (7, Binance.FetchSettles 0
                (Some (Samples.snapshotAt 17 [(100, 3)] [])))]
         (Binance.processDepthUpdate 4
            (Samples.range "BTCUSDT" 15 16 [(100, 9)] [])
            Samples.liveBinance))
      = trace Samples.liveBinance ++ since ∧
    (Fetch "BTCUSDT" ∈ since ∨
     (initializing "BTCUSDT"
        (Binance.run
           [(5, Binance.WsMessage
                  (Binance.Depth
                     (Samples.range "BTCUSDT" 17 18 [(100, 0)] [])));
            (6, Binance.TimerFires 0);
            (7, Binance.FetchSettles 0
                  (Some (Samples.snapshotAt 17 [(100, 3)] [])))]
           (Binance.processDepthUpdate 4
              (Samples.range "BTCUSDT" 15 16 [(100, 9)] [])
              Samples.liveBinance)) = true ∧
      orderBooks
        (Binance.run
           [(5, Binance.WsMessage
                  (Binance.Depth
                     (Samples.range "BTCUSDT" 17 18 [(100, 0)] [])));
            (6, Binance.TimerFires 0);
            (7, Binance.FetchSettles 0
                  (Some (Samples.snapshotAt 17 [(100, 3)] [])))]
           (Binance.processDepthUpdate 4
              (Samples.range "BTCUSDT" 15 16 [(100, 9)] [])
              Samples.liveBinance)) !! "BTCUSDT"
      = Some {| lastUpdateId := 10; bids := [(100, 2)];
                asks := [(101, 1)] |} ∧
      noRequestInFlight "BTCUSDT"
        (Binance.run
           [(5, Binance.WsMessage
                  (Binance.Depth
                     (Samples.range "BTCUSDT" 17 18 [(100, 0)] [])));
            (6, Binance.TimerFires 0);
            (7, Binance.FetchSettles 0
                  (Some (Samples.snapshotAt 17 [(100, 3)] [])))]
           (Binance.processDepthUpdate 4
              (Samples.range "BTCUSDT" 15 16 [(100, 9)] [])
              Samples.liveBinance)))).
Proof.
  pose proof (gap_forces_resync 4
    (Samples.range "BTCUSDT" 15 16 [(100, 9)] []) Samples.liveBinance
    {| lastUpdateId := 10; bids := [(100, 2)]; asks := [(101, 1)] |}) as H.
  destruct H as (H1 & _ & _ & _ & _ & H2 & H3 & H4);
    [reflexivity | reflexivity | cbn; lia | cbn; lia |].
  split_and!.
  - exact H1.
  - apply H2. repeat constructor; cbn; tauto.
  - apply (H4 5 6 (Samples.range "BTCUSDT" 17 18 [(100, 0)] []));
      [reflexivity | by_computation].
  - apply H3. vm_compute. constructor.
Defined.

(** Read for every connector, the property fails: [Kucoin] never reads
    [sequenceStart]; an update that skips five markers after the live
    book is applied to the ladders, and nothing is re-initialized. *)
Lemma kucoin_applies_update_after_gap :
  initializing "BTC-USDT" Samples.liveKucoin = false ∧
  orderBooks Samples.liveKucoin !! "BTC-USDT"
    = Some {| lastUpdateId := 1000; bids := [(100, 1)]; asks := [] |} ∧
  1000 + 1 < 1006 ∧
  orderBooks Samples.kucoinAfterGap !! "BTC-USDT"
    = Some {| lastUpdateId := 1007; bids := [(99, 4)]; asks := [] |} ∧
  initializing "BTC-USDT" Samples.kucoinAfterGap = false ∧
  pending Samples.kucoinAfterGap = [] ∧
  trace Samples.kucoinAfterGap = trace Samples.liveKucoin.
Proof. split_and!; [by vm_compute | by vm_compute | lia | by vm_compute..]. Qed.

(** C3.  Writing a ladder keeps every stored size above zero, for changes
    whose size is not negative.  The book installed from a snapshot holds
    only levels of positive size.  [Binance.applyDepthUpdate] and
    [Kraken.processBookUpdate], given changes of size zero or more, keep
    all stored sizes positive.  A change of size 0 removes exactly its
    price key, a change of positive size inserts or replaces the level of
    its price and leaves the other prices alone, and a price that was
    removed is there again after a change of positive size. *)
Theorem ladder_writes_keep_sizes_positive
    (now : Z) (t : string) (d : DepthUpdate) (c : Connector)
    (bookData : Kraken.BookData) (rest : list Kraken.BookData)
    (k : Kraken.State) :
  nonNegative (b d) → nonNegative (a d) → booksPositive c →
  nonNegative (Kraken.bidLevels bookData) →
  nonNegative (Kraken.askLevels bookData) →
  krakenBooksPositive k →
  (∀ snapshot, positive (bids (bookOfSnapshot snapshot)) ∧
               positive (asks (bookOfSnapshot snapshot))) ∧
  booksPositive (Binance.applyDepthUpdate now t d c) ∧
  (∃ k', Kraken.processBookUpdate now (bookData :: rest) k = Some k' ∧
         krakenBooksPositive k') ∧
  (∀ (ladder : Ladder) p,
     JsMap.get p (applyLevels [(p, 0)] ladder) = None ∧
     ∀ p', p' ≠ p →
       JsMap.get p' (applyLevels [(p, 0)] ladder) = JsMap.get p' ladder) ∧
  (∀ (ladder : Ladder) p q, 0 < q →
     JsMap.get p (applyLevels [(p, q)] ladder) = Some q ∧
     ∀ p', p' ≠ p →
       JsMap.get p' (applyLevels [(p, q)] ladder) = JsMap.get p' ladder) ∧
  (∀ (ladder : Ladder) p q, 0 < q →
     JsMap.get p (applyLevels [(p, 0); (p, q)] ladder) = Some q).
Proof.
  intros Hb Ha Hc Hkb Hka Hk. split_and!.
  - intros snapshot. split; apply snapshotLevels_positive.
  - by apply Binance_applyDepthUpdate_positive.
  - by apply Kraken_processBookUpdate_positive.
  - intros ladder p. split; [apply (applyLevel_delete ladder p p)|].
    intros p'. apply applyLevel_delete.
  - intros ladder p q Hq. split; [by apply (applyLevel_upsert ladder p q p)|].
    intros p'. by apply applyLevel_upsert.
  - intros ladder p q Hq.
    change (applyLevels [(p, 0); (p, q)] ladder)
      with (applyLevels [(p, q)] (applyLevels [(p, 0)] ladder)).
    by apply (applyLevel_upsert _ p q p).
Qed.


Lemma ladder_writes_keep_sizes_positive_witness :
  booksPositive
    (Binance.applyDepthUpdate 4 "BTCUSDT"
       (Samples.nextUpdate [(100, 0); (99, 5)]) Samples.liveBinance) ∧
  ∃ k', Kraken.processBookUpdate 4
          [{| Kraken.symbol := "BTC/USD"; Kraken.bidLevels := [(100, 0)];
              Kraken.askLevels := [(102, 3)] |}] Samples.liveKraken
          = Some k' ∧ krakenBooksPositive k'.
Proof.
  pose proof (ladder_writes_keep_sizes_positive 4 "BTCUSDT"
    (Samples.nextUpdate [(100, 0); (99, 5)]) Samples.liveBinance
    {| Kraken.symbol := "BTC/USD"; Kraken.bidLevels := [(100, 0)];
       Kraken.askLevels := [(102, 3)] |} [] Samples.liveKraken) as H.
  destruct H as (_ & H1 & H2 & _);
    try (repeat constructor; cbn; lia);
    [apply liveBinance_positive | apply liveKraken_positive |].
  split; [exact H1 | exact H2].
Defined.

(** Read for every change, the property fails: a change of negative size is
    neither 0 nor positive, and [applyDepthUpdate] stores it as it comes. *)
Lemma negative_size_is_stored :
  booksPositive Samples.liveBinance ∧
  orderBooks
    (Binance.applyDepthUpdate 4 "BTCUSDT" (Samples.nextUpdate [(100, -1)])
       Samples.liveBinance) !! "BTCUSDT"
    = Some {| lastUpdateId := 12; bids := [(100, -1)];
              asks := [(101, 1)] |} ∧
  ¬ booksPositive
      (Binance.applyDepthUpdate 4 "BTCUSDT" (Samples.nextUpdate [(100, -1)])
         Samples.liveBinance).
Proof.
  assert (orderBooks
    (Binance.applyDepthUpdate 4 "BTCUSDT" (Samples.nextUpdate [(100, -1)])
       Samples.liveBinance) !! "BTCUSDT"
    = Some {| lastUpdateId := 12; bids := [(100, -1)];
              asks := [(101, 1)] |}) as Hbook by (by vm_compute).
  split_and!; [apply liveBinance_positive | done |].
  intros Hpos. destruct (Hpos _ _ Hbook) as [Hbids _].
  apply Forall_cons in Hbids as [Hneg _]. cbn in Hneg. lia.
Qed.

(** C4.  [Binance], once the snapshot with marker [m] is installed, looks
    at the first buffered update that ends after [m].  When that update
    covers [m + 1], it is applied to the book of the snapshot, the later
    ones are replayed in order and the book leaves the initializing state.
    When it does not, no buffered update is applied and nothing is
    published: the book stays flagged, the buffer is replaced by an empty
    one and [initializeOrderBook] waits again for a first update.  For the
    snapshot at marker 500 and the buffered updates that cover 498 to 501
    and 502 to 505, [Binance] and [Backpack] apply both in order and end
    live at marker 505. *)
Theorem first_replayed_update_must_cover_next_marker
    (now : Z) (t : string) (buffer : nat) (snapshot : Snapshot)
    (c : Connector) (firstValid : DepthUpdate) (rest : list DepthUpdate) :
  filter (λ event, u event > snapshot_lastUpdateId snapshot)
    (default [] (arrays c !! buffer)) = firstValid :: rest →
  let m := snapshot_lastUpdateId snapshot in
  let installed :=
    with_orderBooks (<[t := bookOfSnapshot snapshot]> (orderBooks c)) c in
  let c' := Binance.installSnapshot now t buffer snapshot c in
  (U firstValid ≤ m + 1 ∧ m + 1 ≤ u firstValid →
     initializing t c' = false ∧
     c' = Binance.markInitialized now t
            (foldl (λ c1 event, Binance.applyDepthUpdate now t event c1)
               (writeBook Binance.parseTicker Binance.orderBookDepth now t
                  (bookOfSnapshot snapshot) (b firstValid) (a firstValid)
                  (u firstValid) installed)
               rest)) ∧
  (¬ (U firstValid ≤ m + 1 ∧ m + 1 ≤ u firstValid) →
     initializing t c' = true ∧
     orderBooks c' !! t = Some (bookOfSnapshot snapshot) ∧
     prices c' = prices c ∧
     bufferOf t c' = [] ∧
     pending c' = pending c ++ [WaitBuffer t] ∧
     trace c' = trace c) ∧
  (orderBooks Samples.binanceScenario !! "BTCUSDT"
     = Some {| lastUpdateId := 505; bids := [(100, 7); (98, 3); (99, 4)];
               asks := [] |} ∧
   initializing "BTCUSDT" Samples.binanceScenario = false) ∧
  (orderBooks Samples.backpackScenario !! "BTC_USDC"
     = Some {| lastUpdateId := 505; bids := [(100, 7); (98, 3); (99, 4)];
               asks := [] |} ∧
   initializing "BTC_USDC" Samples.backpackScenario = false).
Proof.
  intros Hvalid m installed c'. split_and!.
  - intros [HU Hu].
    assert (c' = Binance.markInitialized now t
      (foldl (λ c1 event, Binance.applyDepthUpdate now t event c1)
         installed (firstValid :: rest))) as Hc'.
    { unfold c', Binance.installSnapshot. rewrite Hvalid.
      rewrite decide_True; [done|]. fold m. lia. }
    split; [rewrite Hc'; apply markInitialized_initializing|].
    rewrite Hc'. cbn [foldl]. do 2 f_equal.
    assert (u firstValid > m) as Hfresh.
    { assert (firstValid ∈ firstValid :: rest) as Hin by left.
      rewrite <-Hvalid in Hin. by apply list_elem_of_filter in Hin as [? _]. }
    apply Binance_applied; cbn; [by rewrite lookup_insert_eq | lia..].
  - intros Hnot.
    assert (c' = Binance.initializeOrderBook t installed) as ->.
    { unfold c', Binance.installSnapshot. rewrite Hvalid.
      rewrite decide_False; [done|]. fold m. lia. }
    split_and!; try done.
    + unfold initializing. cbn. by rewrite lookup_insert_eq.
    + cbn. by rewrite lookup_insert_eq.
    + apply (bufferOf_resetBuffer t).
  - by vm_compute.
  - by vm_compute.
  - by vm_compute.
  - by vm_compute.
Qed.

Lemma first_replayed_update_must_cover_next_marker_witness :
  initializing "BTCUSDT"
    (Binance.installSnapshot 3 "BTCUSDT" 1 Samples.scenarioSnapshot
       (Samples.binanceBuffered (Samples.scenarioBuffer "BTCUSDT"))) = false ∧
  initializing "BTCUSDT"
    (Binance.installSnapshot 3 "BTCUSDT" 1 (Samples.snapshotAt 496 [] [])
       (Samples.binanceBuffered (Samples.scenarioBuffer "BTCUSDT"))) = true.
Proof.
  split.
  - refine (proj1 (proj1 (first_replayed_update_must_cover_next_marker
      3 "BTCUSDT" 1 Samples.scenarioSnapshot
      (Samples.binanceBuffered (Samples.scenarioBuffer "BTCUSDT"))
      (Samples.range "BTCUSDT" 498 501 [(100, 2)] [(101, 0)])
      [Samples.range "BTCUSDT" 502 505 [(100, 7); (99, 4)] []] _) _));
      [reflexivity | cbn; lia].
  - refine (proj1 (proj1 (proj2 (first_replayed_update_must_cover_next_marker
      3 "BTCUSDT" 1 (Samples.snapshotAt 496 [] [])
      (Samples.binanceBuffered (Samples.scenarioBuffer "BTCUSDT"))
      (Samples.range "BTCUSDT" 498 501 [(100, 2)] [(101, 0)])
      [Samples.range "BTCUSDT" 502 505 [(100, 7); (99, 4)] []] _)) _));
      [reflexivity | cbn; lia].
Defined.

(** Read for every connector, the property fails: [Backpack] replays every
    buffered update that ends after the snapshot.  With the snapshot at
    marker 500 and one buffered update that covers 503 to 505, which
    misses 501 and 502, the snapshot is kept and the book goes live at
    marker 505. *)
Lemma backpack_replays_without_check :
  ¬ (503 ≤ 500 + 1 ∧ 500 + 1 ≤ 505) ∧
  orderBooks Samples.backpackAfterGap !! "BTC_USDC"
    = Some {| lastUpdateId := 505; bids := [(100, 7); (98, 3)];
              asks := [(101, 5)] |} ∧
  initializing "BTC_USDC" Samples.backpackAfterGap = false ∧
  pending Samples.backpackAfterGap = [].
Proof. split; [lia | by vm_compute]. Qed.

(** C5.  Levels of the same price are summed into one level and the
    sources of a price are attributed: when exchange [A] publishes the bid
    level [{100, 2}] and exchange [B] the bid level [{100, 3}], the
    aggregated bids are the single level [{100, 5}] and the sources of
    price 100 on the bid side are [{A: 2, B: 3}].  In general a level is in
    the aggregated side exactly when its price is quoted and its size is
    the sum of the sizes quoted at that price, no price occurs twice, and
    the sources of a price map every exchange that quotes it to the sum of
    its sizes at that price. *)
Theorem aggregation_sums_equal_prices
    (A B selectedTicker : string) (exA exB : Connector)
    (dataA dataB : tickerData) (orderbookDepth : nat) :
  A ≠ B →
  prices exA !! selectedTicker = Some dataA →
  prices exB !! selectedTicker = Some dataB →
  bid (orders dataA) = [{| price := 100; size := 2 |}] →
  bid (orders dataB) = [{| price := 100; size := 3 |}] →
  (0 < orderbookDepth)%nat →
  let exchanges := [(A, Some exA); (B, Some exB)] in
  Page.bids (Page.aggregate selectedTicker orderbookDepth exchanges)
    = [{| price := 100; size := 5 |}] ∧
  Page.getSourcesForPrice selectedTicker exchanges 100 true
    = {[ A := 2; B := 3 ]} ∧
  (∀ os isBid o,
     o ∈ Page.aggregateOrders os isBid ↔
     price o ∈ price <$> os ∧ size o = sizeAt (price o) os) ∧
  (∀ os isBid, NoDup (price <$> Page.aggregateOrders os isBid)) ∧
  (∀ (exs : Page.Exchanges) p isBid, NoDup exs.*1 →
     Page.getSourcesForPrice selectedTicker exs p isBid
       = list_to_map (omap (sourceOf selectedTicker p isBid) exs)).
Proof.
  intros HAB HA HB HbidA HbidB Hd exchanges.
  split_and!;
    [| | | |intros exs p isBid; apply getSourcesForPrice_contributions].
  - unfold Page.aggregate, Page.collect, exchanges, Page.ordersOf. cbn.
    rewrite HA, HB. cbn. rewrite HbidA, HbidB.
    destruct orderbookDepth as [|n]; [lia |]. vm_compute. by destruct n.
  - unfold Page.getSourcesForPrice, exchanges, Page.ordersOf. cbn.
    rewrite HA, HB. cbn. rewrite HbidA, HbidB. cbn.
    repeat case_decide; try done. cbn.
    apply map_eq. intros k.
    destruct (decide (k = A)) as [HkA|HkA];
      destruct (decide (k = B)) as [HkB|HkB]; by simplify_map_eq.
  - apply elem_of_aggregateOrders.
  - apply aggregateOrders_prices.
Qed.

Lemma aggregation_sums_equal_prices_witness :
  Page.bids (Page.aggregate "BTC" 15 Samples.exchangesAB)
    = [{| price := 100; size := 5 |}] ∧
  Page.getSourcesForPrice "BTC" Samples.exchangesAB 100 true
    = {[ "binance" := 2; "okx" := 3 ]}.
Proof.
  pose proof (aggregation_sums_equal_prices "binance" "okx" "BTC"
    Samples.exchangeA Samples.exchangeB
    {| tickerData_price := None; lastUpdated := 3;
       orders := {| bid := [{| price := 100; size := 2 |}];
                    ask := [{| price := 101; size := 1 |}];
                    Orders_lastUpdateId := Some 10 |} |}
    {| tickerData_price := None; lastUpdated := 3;
       orders := {| bid := [{| price := 100; size := 3 |}];
                    ask := [];
                    Orders_lastUpdateId := Some 10 |} |}
    15%nat) as H.
  destruct H as (H1 & H2 & _); try reflexivity; [done | lia |].
  split; [exact H1 | exact H2].
Defined.

(** C6.  The price levels of the aggregated book do not depend on the
    order in which the exchanges are merged: for every permutation of the
    exchanges both sides carry the same prices in the same sorted order.
    The size of a level is the sum of the sizes quoted at its price,
    added one by one in the order of the exchanges, each addition rounded
    to binary64.  That sum is the same in every order when at most two
    orders quote the price and no size is zero or NaN, because the
    rounded addition is commutative; then the whole side is the same
    array. *)
Theorem aggregation_levels_order_independent
    (selectedTicker : string) (orderbookDepth : nat)
    (exchanges exchanges' : PageFloat.Exchanges) :
  exchanges ≡ₚ exchanges' →
  let book := PageFloat.aggregate selectedTicker orderbookDepth exchanges in
  let book' := PageFloat.aggregate selectedTicker orderbookDepth exchanges' in
  PageFloat.price <$> PageFloat.bids book
    = PageFloat.price <$> PageFloat.bids book' ∧
  PageFloat.price <$> PageFloat.asks book
    = PageFloat.price <$> PageFloat.asks book' ∧
  (∀ os isBid o,
     o ∈ PageFloat.aggregateOrders os isBid ↔
     PageFloat.price o ∈ PageFloat.price <$> os ∧
     PageFloat.size o = sumInOrder (quotedAt (PageFloat.price o) os)) ∧
  ((∀ p, length (quotedAt p (PageFloat.collect PageFloat.bid selectedTicker
                               exchanges)) ≤ 2)%nat →
   Forall (λ o, PageFloat.truthy (PageFloat.size o) = true)
     (PageFloat.collect PageFloat.bid selectedTicker exchanges) →
   PageFloat.bids book = PageFloat.bids book') ∧
  ((∀ p, length (quotedAt p (PageFloat.collect PageFloat.ask selectedTicker
                               exchanges)) ≤ 2)%nat →
   Forall (λ o, PageFloat.truthy (PageFloat.size o) = true)
     (PageFloat.collect PageFloat.ask selectedTicker exchanges) →
   PageFloat.asks book = PageFloat.asks book').
Proof.
  intros Hperm. cbn zeta. unfold PageFloat.aggregate.
  cbn [PageFloat.bids PageFloat.asks].
  pose proof (float_collect_Permutation PageFloat.bid selectedTicker _ _ Hperm)
    as Hbid.
  pose proof (float_collect_Permutation PageFloat.ask selectedTicker _ _ Hperm)
    as Hask.
  split_and!.
  - rewrite !fmap_take.
    by rewrite (float_aggregateOrders_prices_Permutation _ _ true Hbid).
  - rewrite !fmap_take.
    by rewrite (float_aggregateOrders_prices_Permutation _ _ false Hask).
  - apply elem_of_float_aggregateOrders.
  - intros Htwo Htruthy.
    by rewrite (float_aggregateOrders_Permutation _ _ true Hbid).
  - intros Htwo Htruthy.
    by rewrite (float_aggregateOrders_Permutation _ _ false Hask).
Qed.

Lemma aggregation_levels_order_independent_witness :
  PageFloat.bids (PageFloat.aggregate "BTC" 15 (take 2 Samples.tenths))
    = PageFloat.bids (PageFloat.aggregate "BTC" 15 (reverse (take 2 Samples.tenths))).
Proof.
  refine (proj1 (proj2 (proj2 (proj2
    (aggregation_levels_order_independent "BTC" 15 (take 2 Samples.tenths)
       (reverse (take 2 Samples.tenths)) _)))) _ _).
  - symmetry. apply reverse_Permutation.
  - intros p. unfold quotedAt. rewrite length_fmap.
    etransitivity; [apply length_filter|]. vm_compute. lia.
  - vm_compute. repeat constructor.
Defined.

(** Read with the sizes, the property fails: the rounded addition is
    not associative.  Three exchanges quote the price 100 with the sizes
    0.1, 0.2 and 0.3; merged in this order the level has the size
    0.6000000000000001, merged in the reverse order the size 0.6. *)
#[warnings="-inexact-float"]
Lemma aggregation_sizes_depend_on_order :
  reverse Samples.tenths ≡ₚ Samples.tenths ∧
  PageFloat.bids (PageFloat.aggregate "BTC" 15 Samples.tenths)
    = [{| PageFloat.price := 100;
          PageFloat.size := 0.6000000000000001%float |}] ∧
  PageFloat.bids (PageFloat.aggregate "BTC" 15 (reverse Samples.tenths))
    = [{| PageFloat.price := 100; PageFloat.size := 0.6%float |}] ∧
  PrimFloat.eqb 0.6000000000000001%float 0.6%float = false.
Proof.
  split; [apply reverse_Permutation|].
  split_and!; by vm_compute.
Qed.

(** C7.  What is read from a book is sorted and bounded.  The orders a
    connector publishes from a book have strictly descending bid prices
    and strictly ascending ask prices and hold at most [orderBookDepth]
    levels a side; so do all the orders in the [prices] map of a Binance
    connector, whatever events it received.  The aggregated book of the
    page has strictly descending bids and strictly ascending asks and at
    most [orderbookDepth] levels a side. *)
Theorem reads_sorted_and_bounded
    (parseTicker : string → string) (depth : nat) (now : Z) (t : string)
    (c : Connector) (orderBook : OrderBook)
    (selectedTicker : string) (orderbookDepth : nat)
    (exchanges : Page.Exchanges)
    (configs : list TickerConfig) (es : list (Z * Binance.Event)) :
  orderBooks c !! t = Some orderBook →
  JsMap.wf (bids orderBook) → JsMap.wf (asks orderBook) →
  (∃ published,
     prices (updatePricesOrderBook parseTicker depth now t c)
       !! parseTicker t = Some published ∧
     sortedOrders depth (orders published)) ∧
  (∀ k published,
     prices (Binance.run es (Binance.new configs)) !! k = Some published →
     sortedOrders 20 (orders published)) ∧
  descending
    (Page.bids (Page.aggregate selectedTicker orderbookDepth exchanges)) ∧
  ascending
    (Page.asks (Page.aggregate selectedTicker orderbookDepth exchanges)) ∧
  (length (Page.bids (Page.aggregate selectedTicker orderbookDepth exchanges))
     ≤ orderbookDepth)%nat ∧
  (length (Page.asks (Page.aggregate selectedTicker orderbookDepth exchanges))
     ≤ orderbookDepth)%nat.
Proof.
  intros Hbook Hbids Hasks. split_and!.
  - unfold updatePricesOrderBook. rewrite Hbook. cbn.
    rewrite lookup_insert_eq. eexists. split; [done|]. cbn.
    by apply sortedOrders_read.
  - apply (Binance_wellFormed_run es configs).
  - apply StronglySorted_take, js_sort_descending.
    rewrite prices_of_entries. apply priceMap_wf, JsMapFacts.wf_empty.
  - apply StronglySorted_take, js_sort_ascending.
    rewrite prices_of_entries. apply priceMap_wf, JsMapFacts.wf_empty.
  - cbn. rewrite length_take. lia.
  - cbn. rewrite length_take. lia.
Qed.

Lemma reads_sorted_and_bounded_witness :
  (∃ published,
     prices (Binance.updatePricesOrderBook 4 "BTCUSDT" Samples.binanceScenario)
       !! "BTC" = Some published ∧
     sortedOrders 20 (orders published)) ∧
  descending (Page.bids (Page.aggregate "BTC" 15 Samples.exchangesAB)).
Proof.
  pose proof (reads_sorted_and_bounded Binance.parseTicker
    Binance.orderBookDepth 4 "BTCUSDT" Samples.binanceScenario
    {| lastUpdateId := 505; bids := [(100, 7); (98, 3); (99, 4)];
       asks := [] |} "BTC" 15 Samples.exchangesAB [] []) as H.
  destruct H as (H1 & _ & H2 & _); [reflexivity | | |].
  - unfold JsMap.wf. cbn. by_computation.
  - unfold JsMap.wf. cbn. by_computation.
  - split; [exact H1 | exact H2].
Defined.

(** C8.  [close()] sets [isClosing] and closes the socket; the [onclose]
    handler then does not reconnect.  It cancels no timer and discards no
    buffer: the suspended tasks, the buffers and the books are as before,
    and a retry timer that fires after [close()] runs
    [initializeOrderBook] as it would have before, which on OKX sends a
    request at once.  In the first run the request fails, the page closes
    the connector, and the retry timer still fires: [initializeOrderBook]
    runs again and arms its polling timer, which goes on firing.  In the
    second run the page closes the connector while the request is in
    flight, and the outdated snapshot that arrives is requested again
    after the close. *)
Theorem close_cancels_no_retry :
  (∀ c, pending (close c) = pending c ∧
        depthUpdateBuffers (close c) = depthUpdateBuffers c ∧
        arrays (close c) = arrays c ∧
        orderBooks (close c) = orderBooks c ∧
        isInitializing (close c) = isInitializing c) ∧
  (∀ now code c, trace (Binance.step now (Binance.WsClose code) (close c))
                 = trace (close c)) ∧
  (∀ now i c,
     match pending c !! i with
     | Some (RetryTimer t) =>
         let c' := Binance.step now (Binance.TimerFires i) (close c) in
         isClosing c' = true ∧ initializing t c' = true ∧
         pending c' = delete i (pending c) ++ [WaitBuffer t]
     | _ => True
     end) ∧
  (∀ i c,
     match pending c !! i with
     | Some (RetryTimer t) =>
         let c' := OKX.timerFires i (close c) in
         isClosing c' = true ∧
         trace c' = trace c ++ [CloseSocket; Fetch t] ∧
         pending c' = delete i (pending c) ++ [AwaitFetch t]
     | _ => True
     end) ∧
  (isClosing Samples.closedThenRetry = true ∧
   pending Samples.closedThenRetry = [WaitBuffer "BTCUSDT"] ∧
   initializing "BTCUSDT" Samples.closedThenRetry = true) ∧
  (isClosing Samples.closedThenSnapshot = true ∧
   trace Samples.closedThenSnapshot =
     [Subscribe ["btcusdt@miniTicker"; "btcusdt@depth"]; Fetch "BTCUSDT";
      CloseSocket; Fetch "BTCUSDT"] ∧
   pending Samples.closedThenSnapshot = [AwaitSnapshot "BTCUSDT" 1 498 true] ∧
   bufferOf "BTCUSDT" Samples.closedThenSnapshot
     = [Samples.range "BTCUSDT" 498 501 [(100, 2)] []]) ∧
  (isClosing Samples.okxClosedThenRetry = true ∧
   trace Samples.okxClosedThenRetry =
     [Fetch "BTC-USDT"; CloseSocket; Fetch "BTC-USDT"] ∧
   pending Samples.okxClosedThenRetry = [AwaitFetch "BTC-USDT"]).
Proof.
  split_and!; try done; try (by vm_compute).
  - intros now i c. destruct (pending c !! i) as [[| | |t]|] eqn:Hi; try done.
    cbn. unfold resume. cbn. rewrite Hi. cbn. split_and!; [done | | done].
    unfold initializing. cbn. by rewrite lookup_insert_eq.
  - intros i c. destruct (pending c !! i) as [[| | |t]|] eqn:Hi; try done.
    unfold OKX.timerFires, resume. cbn. rewrite Hi. cbn.
    split_and!; [done | | done]. by rewrite <-app_assoc.
Qed.

(** C9.  The two tracks of a ticker's stored data do not touch each
    other.  Publishing a book ([updatePricesOrderBook], and the whole
    handling of a depth message in [Binance]) leaves the stored price of
    every key as it was and leaves the entries of the other keys alone.
    Storing a price (the price branch of [ws.onmessage]) writes the price
    and the time, keeps the stored orders of every key, leaves the entries
    of the other keys alone, and does not touch the order books. *)
Theorem price_and_book_tracks_are_independent
    (parseTicker : string → string) (depth : nat) (now : Z)
    (t sym : string) (p : Z) (d : DepthUpdate) (c : Connector) (k : string) :
  storedPrice (updatePricesOrderBook parseTicker depth now t c) k
    = storedPrice c k ∧
  (k ≠ parseTicker t →
     prices (updatePricesOrderBook parseTicker depth now t c) !! k
       = prices c !! k) ∧
  orderBooks (updatePricesOrderBook parseTicker depth now t c)
    = orderBooks c ∧
  prices (storePrice parseTicker now t p c) !! parseTicker t
    = Some {| tickerData_price := Some p; lastUpdated := now;
              orders := storedOrders c (parseTicker t) |} ∧
  storedOrders (storePrice parseTicker now t p c) k = storedOrders c k ∧
  (k ≠ parseTicker t →
     prices (storePrice parseTicker now t p c) !! k = prices c !! k) ∧
  orderBooks (storePrice parseTicker now t p c) = orderBooks c ∧
  storedPrice (Binance.step now (Binance.WsMessage (Binance.Depth d)) c) k
    = storedPrice c k ∧
  storedOrders
      (Binance.step now (Binance.WsMessage (Binance.MiniTicker sym p)) c) k
    = storedOrders c k ∧
  orderBooks
      (Binance.step now (Binance.WsMessage (Binance.MiniTicker sym p)) c)
    = orderBooks c.
Proof.
  split_and!.
  - apply updatePricesOrderBook_storedPrice.
  - apply updatePricesOrderBook_other.
  - apply updatePricesOrderBook_orderBooks.
  - unfold storePrice. cbn. by rewrite lookup_insert_eq.
  - apply storePrice_storedOrders.
  - apply storePrice_other.
  - done.
  - cbn. case_decide; [|done]. apply Binance_processDepthUpdate_storedPrice.
  - cbn. case_decide; [|done]. apply storePrice_storedOrders.
  - cbn. by case_decide.
Qed.

Lemma price_and_book_tracks_are_independent_witness :
  prices (Binance.updatePricesOrderBook 4 "BTCUSDT" Samples.liveBinance)
    !! "ETH" = prices Samples.liveBinance !! "ETH" ∧
  prices (storePrice Binance.parseTicker 4 "BTCUSDT" 65000
            Samples.liveBinance) !! "ETH"
    = prices Samples.liveBinance !! "ETH".
Proof.
  pose proof (price_and_book_tracks_are_independent Binance.parseTicker
    Binance.orderBookDepth 4 "BTCUSDT" "BTCUSDT" 65000
    (Samples.nextUpdate []) Samples.liveBinance "ETH") as H.
  destruct H as (_ & H1 & _ & _ & _ & H2 & _).
  split; [apply H1 | apply H2]; by_computation.
Defined.

(** C10.  An update for a ticker without an order book changes nothing:
    [Binance.applyDepthUpdate] returns the connector as it was, as do the
    update handlers of [OKX] (which returns normally, also on an empty
    [data]) and [Kucoin]; [Binance.processDepthUpdate], which may buffer
    the update, leaves the order books and the prices map as they were. *)
Theorem update_without_book_is_noop (now : Z) (t : string) (c : Connector) :
  orderBooks c !! t = None →
  (∀ d, Binance.applyDepthUpdate now t d c = c) ∧
  (∀ d, s d = t →
     orderBooks (Binance.processDepthUpdate now d c) = orderBooks c ∧
     prices (Binance.processDepthUpdate now d c) = prices c) ∧
  (∀ msg, OKX.instId msg = t →
     OKX.processOrderBookUpdate now msg c = Some c) ∧
  (∀ msg, js_splitAt ":"%char 1 (Kucoin.topic msg) = Some t →
     Kucoin.processOrderBookUpdate now msg c = c).
Proof.
  intros Hnone. split_and!.
  - intros d. unfold Binance.applyDepthUpdate. by rewrite Hnone.
  - intros d <-. unfold Binance.processDepthUpdate, Binance.applyDepthUpdate.
    rewrite Hnone. destruct (initializing (s d) c); [|done].
    by rewrite pushBuffer_orderBooks, pushBuffer_prices.
  - intros msg <-. unfold OKX.processOrderBookUpdate. rewrite Hnone.
    by destruct (initializing _ c).
  - intros msg Ht. unfold Kucoin.processOrderBookUpdate. rewrite Ht, Hnone.
    by destruct (initializing _ c).
Qed.

Lemma update_without_book_is_noop_witness :
  Binance.applyDepthUpdate 4 "BTCUSDT" (Samples.nextUpdate [(100, 9)])
    (Binance.new [Samples.btc]) = Binance.new [Samples.btc] ∧
  Binance.applyDepthUpdate 4 "ETHUSDT"
    (Samples.range "ETHUSDT" 11 12 [(100, 9)] []) Samples.liveBinance
    = Samples.liveBinance ∧
  OKX.processOrderBookUpdate 4
    {| OKX.instId := "ETH-USDT"; OKX.data := [] |} Samples.liveOkx
    = Some Samples.liveOkx ∧
  Kucoin.processOrderBookUpdate 4
    {| Kucoin.topic := "/market/level2:ETH-USDT";
       Kucoin.sequenceStart := 1; Kucoin.sequenceEnd := 2;
       Kucoin.symbol := "ETH-USDT"; Kucoin.asks := [];
       Kucoin.bids := [(100, 9)] |} Samples.liveKucoin
    = Samples.liveKucoin.
Proof.
  split_and!.
  - apply (update_without_book_is_noop 4 "BTCUSDT"
             (Binance.new [Samples.btc])). reflexivity.
  - apply (update_without_book_is_noop 4 "ETHUSDT" Samples.liveBinance).
    reflexivity.
  - apply (update_without_book_is_noop 4 "ETH-USDT" Samples.liveOkx);
      reflexivity.
  - apply (update_without_book_is_noop 4 "ETH-USDT" Samples.liveKucoin);
      reflexivity.
Defined.

(** * Further properties of the code

    Facts about the parts of the code that the design document does not
    speak of: the ticker formats, the lookups of a written ladder, the
    invariants of the Binance event loop, [onSubscribe] and
    [changeTickers], the replay of Backpack, the book handlers of OKX,
    Kucoin and Bybit, and the sorted sides and the best prices of the
    page. *)

(** ** Ticker formats *)

Lemma substring_none n s' : String.substring n 0 s' = "".
Proof. revert n. induction s' as [|ch s' IH]; intros [|n]; simpl; auto. Qed.

Lemma substring_append_l t s' :
  String.substring 0 (String.length t) (t +:+ s') = t.
Proof.
  induction t as [|ch t IH]; simpl.
  - by destruct s'.
  - by rewrite IH.
Qed.

Lemma length_append t s' :
  String.length (t +:+ s') = (String.length t + String.length s')%nat.
Proof. induction t as [|ch t IH]; simpl; auto. Qed.

Lemma append_empty_r t : t +:+ "" = t.
Proof.
  induction t as [|ch t IH]; [done|].
  change (String ch t +:+ "") with (String ch (t +:+ "")). by rewrite IH.
Qed.

Lemma index_cons pat ch t :
  String.index 0 pat (String ch t) =
    if String.prefix pat (String ch t) then Some 0%nat
    else S <$> String.index 0 pat t.
Proof. simpl. destruct pat; [done|]. destruct (ascii_dec _ _); [|done].
  destruct (String.prefix _ _); done. Qed.

(** Removing a suffix that occurs nowhere earlier. *)
Lemma js_replace_suffix pat t :
  String.index 0 pat (t +:+ pat) = Some (String.length t) →
  js_replace pat "" (t +:+ pat) = t.
Proof.
  intros Hi. unfold js_replace. rewrite Hi, substring_append_l, length_append.
  replace (String.length t + String.length pat - (String.length t + String.length pat))%nat
    with 0%nat by lia.
  rewrite substring_none. clear Hi.
  change ("" +:+ "") with "". apply append_empty_r.
Qed.

Lemma prefix_cons a p ch t :
  String.prefix (String a p) (String ch t) =
    bool_decide (a = ch) && String.prefix p t.
Proof. simpl. destruct (ascii_dec a ch); case_bool_decide; done. Qed.

Lemma prefix_nil_r a p : String.prefix (String a p) "" = false.
Proof. done. Qed.

Lemma prefix_nil_l t : String.prefix "" t = true.
Proof. by destruct t. Qed.

Lemma append_cons ch t s' : String ch t +:+ s' = String ch (t +:+ s').
Proof. done. Qed.

Lemma append_nil s' : "" +:+ s' = s'.
Proof. done. Qed.

Ltac no_straddle :=
  rewrite ?append_cons, ?append_nil, ?prefix_cons, ?prefix_nil_r, ?prefix_nil_l in *;
  repeat (case_bool_decide; simplify_eq; simpl in *; try done).

Ltac suffix_index IH :=
  rewrite index_cons, append_cons, index_cons;
  match goal with
  | |- (if ?p then _ else _) = None → _ =>
      destruct p eqn:?; [done|]
  end;
  match goal with
  | |- S <$> ?i = None → _ => destruct i eqn:?; [done|]
  end;
  intros _; rewrite IH by done;
  match goal with
  | |- (if ?p then _ else _) = _ => assert (p = false) as ->; [|done]
  end.

Lemma index_USDT t :
  String.index 0 "USDT" t = None →
  String.index 0 "USDT" (t +:+ "USDT") = Some (String.length t).
Proof.
  induction t as [|ch t IH]; [done|]. suffix_index IH.
  destruct t as [|c1 [|c2 [|c3 t]]]; no_straddle.
Qed.

Lemma index_dash_USDT t :
  String.index 0 "-USDT" t = None →
  String.index 0 "-USDT" (t +:+ "-USDT") = Some (String.length t).
Proof.
  induction t as [|ch t IH]; [done|]. suffix_index IH.
  destruct t as [|c1 [|c2 [|c3 [|c4 t]]]]; no_straddle.
Qed.

Lemma index_USDC t :
  String.index 0 "_USDC" t = None →
  String.index 0 "_USDC" (t +:+ "_USDC") = Some (String.length t).
Proof.
  induction t as [|ch t IH]; [done|]. suffix_index IH.
  destruct t as [|c1 [|c2 [|c3 [|c4 t]]]]; no_straddle.
Qed.

Lemma js_split_until sep acc t rest :
  String.index 0 (String sep "") t = None →
  js_split sep acc (t +:+ String sep rest) =
    (acc +:+ t) :: js_split sep "" rest.
Proof.
  revert acc. induction t as [|ch t IH]; intros acc.
  - intros _. rewrite append_nil, append_empty_r. simpl.
    by rewrite decide_True.
  - rewrite index_cons, prefix_cons, prefix_nil_l, andb_true_r.
    case_bool_decide as Hch; [done|].
    destruct (String.index 0 (String sep "") t) eqn:Hi; [done|]. intros _.
    rewrite append_cons. simpl. rewrite decide_False by done.
    rewrite IH by done. f_equal.
    clear. induction acc as [|x acc IH]; [done|].
    rewrite !append_cons. by rewrite IH.
Qed.

Lemma prefix_index pat ch t :
  String.prefix pat (String ch t) = true → String.index 0 pat (String ch t) = Some 0%nat.
Proof. intros H. by rewrite index_cons, H. Qed.

Lemma index_dash_USDT_absent t :
  String.index 0 "USDT" t = None → String.index 0 "-USDT" t = None.
Proof.
  induction t as [|ch t IH]; [done|].
  rewrite !index_cons.
  destruct (String.prefix "USDT" (String ch t)) eqn:Hp; [done|].
  destruct (String.index 0 "USDT" t) eqn:Hi; [done|]. intros _.
  rewrite IH by done.
  assert (String.prefix "-USDT" (String ch t) = false) as ->; [|done].
  rewrite prefix_cons. destruct t as [|ch' t]; [by rewrite andb_false_r|].
  destruct (String.prefix "USDT" (String ch' t)) eqn:Hp';
    [|by rewrite andb_false_r].
  by rewrite (prefix_index _ _ _ Hp') in Hi.
Qed.

(** ** Lookups in a written ladder *)

Lemma get_applyLevels changes (m : Ladder) p :
  JsMap.get p (applyLevels changes m) = levelAfter changes p (JsMap.get p m).
Proof.
  unfold applyLevels, levelAfter.
  induction changes as [|[p' q] changes IH] using rev_ind; [done|].
  rewrite foldl_app, filter_app. simpl.
  rewrite filter_cons, filter_nil. simpl.
  destruct (decide (p' = p)) as [->|Hne].
  - rewrite last_snoc. simpl. destruct (decide (q = 0)).
    + apply JsMapFacts.get_delete_eq.
    + apply JsMapFacts.get_set_eq.
  - rewrite app_nil_r.
    destruct (decide (q = 0)).
    + by rewrite JsMapFacts.get_delete_ne.
    + by rewrite JsMapFacts.get_set_ne.
Qed.

Lemma get_snapshotLevels levels p :
  JsMap.get p (snapshotLevels levels) = snapshotHolds levels p.
Proof.
  unfold snapshotLevels, snapshotHolds.
  induction levels as [|[p' q] levels IH] using rev_ind; [done|].
  rewrite foldl_app, filter_app. simpl.
  rewrite filter_cons, filter_nil. simpl.
  destruct (decide (0 < q)) as [Hq|Hq].
  - destruct (decide (p' = p)) as [->|Hne].
    + rewrite decide_True by done. rewrite last_snoc. apply JsMapFacts.get_set_eq.
    + rewrite decide_False by tauto. rewrite app_nil_r.
      by rewrite JsMapFacts.get_set_ne.
  - rewrite decide_False by tauto. by rewrite app_nil_r.
Qed.

(** ** The marker of a book *)

Section Marker.
Context (t : string) (n : Z).

Lemma markerAtLeast_frame (c c' : Connector) :
  orderBooks c' = orderBooks c → markerAtLeast t n c → markerAtLeast t n c'.
Proof. unfold markerAtLeast. by intros ->. Qed.

Lemma markerAtLeast_writeBook pt depth now t' ob bs as_ marker c :
  orderBooks c !! t' = Some ob → lastUpdateId ob ≤ marker →
  markerAtLeast t n c →
  markerAtLeast t n (writeBook pt depth now t' ob bs as_ marker c).
Proof.
  intros Hob Hle (ob' & Hob' & Hn). unfold markerAtLeast.
  rewrite writeBook_orderBooks. destruct (decide (t' = t)) as [->|Hne].
  - rewrite lookup_insert_eq. eexists. split; [done|]. cbn.
    assert (ob' = ob) as -> by congruence. lia.
  - rewrite lookup_insert_ne by done. by exists ob'.
Qed.

Lemma Binance_markerAtLeast_applyDepthUpdate now t' d c :
  markerAtLeast t n c → markerAtLeast t n (Binance.applyDepthUpdate now t' d c).
Proof.
  intros Hc. unfold Binance.applyDepthUpdate.
  destruct (orderBooks c !! t') as [ob|] eqn:Hob; [|done].
  repeat case_decide; [done|done|].
  apply markerAtLeast_writeBook; [done|lia|done].
Qed.

Lemma Backpack_markerAtLeast_applyDepthUpdate now t' d c :
  markerAtLeast t n c →
  markerAtLeast t n (Backpack.applyDepthUpdate now t' d c).
Proof.
  intros Hc. unfold Backpack.applyDepthUpdate.
  destruct (orderBooks c !! t') as [ob|] eqn:Hob; [|done].
  repeat case_decide; [done|].
  apply markerAtLeast_writeBook; [done|lia|done].
Qed.

Lemma Binance_markerAtLeast_processDepthUpdate now d c :
  markerAtLeast t n c → markerAtLeast t n (Binance.processDepthUpdate now d c).
Proof.
  intros Hc. unfold Binance.processDepthUpdate.
  destruct (initializing (s d) c).
  - eapply markerAtLeast_frame; [|done]. apply pushBuffer_orderBooks.
  - by apply Binance_markerAtLeast_applyDepthUpdate.
Qed.

Lemma Backpack_markerAtLeast_processDepthUpdate now d c :
  markerAtLeast t n c →
  markerAtLeast t n (Backpack.processDepthUpdate now d c).
Proof.
  intros Hc. unfold Backpack.processDepthUpdate.
  destruct (initializing (s d) c).
  - eapply markerAtLeast_frame; [|done]. apply pushBuffer_orderBooks.
  - by apply Backpack_markerAtLeast_applyDepthUpdate.
Qed.

Lemma Binance_onSubscribe_orderBooks tickers c :
  orderBooks (Binance.onSubscribe tickers c) = orderBooks c.
Proof.
  unfold Binance.onSubscribe.
  match goal with
  | |- orderBooks (foldl _ ?c1 _) = _ =>
      assert (orderBooks c1 = orderBooks c) as <- by (by destruct (_ ≫= _));
      generalize c1
  end.
  induction tickers as [|t' ts IH]; intros c1; [done|].
  cbn. rewrite IH. by case_decide.
Qed.

Lemma Binance_checkBuffer_orderBooks t' c :
  orderBooks (Binance.checkBuffer t' c) = orderBooks c.
Proof.
  unfold Binance.checkBuffer.
  destruct (depthUpdateBuffers c !! t') as [r|]; [|done].
  by destruct (arrays c !! r) as [[|??]|].
Qed.

Lemma Binance_markerAtLeast_step now e c :
  ¬ deliversSnapshot e → markerAtLeast t n c →
  markerAtLeast t n (Binance.step now e c).
Proof.
  intros He Hc. destruct e as [|m|code|i|i [snapshot|]|]; cbn.
  - destruct (isClosing c); [done|].
    eapply markerAtLeast_frame; [|done]. apply Binance_onSubscribe_orderBooks.
  - destruct m as [n'|sym p|d|]; cbn; [by case_decide | | | done].
    + by case_decide.
    + case_decide; [by apply Binance_markerAtLeast_processDepthUpdate | done].
  - by destruct (_ && _).
  - unfold resume. destruct (pending c !! i) as [[t'|????|t'|t']|]; cbn;
      [|done..].
    eapply markerAtLeast_frame; [|done].
    by rewrite Binance_checkBuffer_orderBooks.
  - by destruct He.
  - unfold resume. by destruct (pending c !! i) as [[t'|????|t'|t']|].
  - done.
Qed.

Lemma Binance_markerAtLeast_run es c :
  Forall (λ e, ¬ deliversSnapshot e.2) es →
  markerAtLeast t n c → markerAtLeast t n (Binance.run es c).
Proof.
  unfold Binance.run. intros Hes. revert c.
  induction Hes as [|e es He _ IH]; intros c Hc; [done|].
  cbn. by apply IH, Binance_markerAtLeast_step.
Qed.
End Marker.

(** ** Tracked symbols *)

Lemma dom_insert_tracked {A} (m : gmap string A) t x (X : gset string) :
  t ∈ X → dom m ⊆ X → dom (<[t := x]> m) ⊆ X.
Proof.
  intros Ht Hm k. rewrite dom_insert_L, elem_of_union, elem_of_singleton.
  intros [->|?]; auto.
Qed.

Section Tracks.
Context (parseTicker : string → string) (depth : nat).
Local Abbreviation ok := (tracksOnly parseTicker).

Lemma tracksOnly_updatePricesOrderBook now t c :
  t ∈ trackingOrderBook c → ok c →
  ok (updatePricesOrderBook parseTicker depth now t c).
Proof.
  intros Ht (Hb & Hd & Hi & Hp & Hf & Hk). unfold updatePricesOrderBook.
  destruct (orderBooks c !! t); [|done].
  repeat split; cbn; try done.
  intros k. rewrite dom_insert_L, elem_of_union, elem_of_singleton.
  intros [->|?]; eauto.
Qed.

Lemma tracksOnly_storePrice now t p c :
  t ∈ trackingPrice c → ok c → ok (storePrice parseTicker now t p c).
Proof.
  intros Ht (Hb & Hd & Hi & Hp & Hf & Hk). unfold storePrice.
  repeat split; cbn; try done.
  intros k. rewrite dom_insert_L, elem_of_union, elem_of_singleton.
  intros [->|?]; eauto.
Qed.

Lemma tracksOnly_writeBook now t ob bs as_ marker c :
  t ∈ trackingOrderBook c → ok c →
  ok (writeBook parseTicker depth now t ob bs as_ marker c).
Proof.
  intros Ht (Hb & Hd & Hi & Hp & Hf & Hk). unfold writeBook.
  apply tracksOnly_updatePricesOrderBook; [done|].
  repeat split; cbn; try done. by apply dom_insert_tracked.
Qed.

Lemma tracksOnly_pushBuffer t d c :
  t ∈ trackingOrderBook c → ok c → ok (pushBuffer t d c).
Proof.
  intros Ht (Hb & Hd & Hi & Hp & Hf & Hk). unfold pushBuffer.
  destruct (depthUpdateBuffers c !! t); repeat split; cbn; try done.
  by apply dom_insert_tracked.
Qed.

Lemma tracksOnly_resetBuffer t c :
  t ∈ trackingOrderBook c → ok c → ok (resetBuffer t c).
Proof.
  intros Ht (Hb & Hd & Hi & Hp & Hf & Hk).
  repeat split; cbn; try done. by apply dom_insert_tracked.
Qed.

Lemma tracksOnly_flag t v c :
  t ∈ trackingOrderBook c → ok c →
  ok (with_isInitializing (<[t := v]> (isInitializing c)) c).
Proof.
  intros Ht (Hb & Hd & Hi & Hp & Hf & Hk).
  repeat split; cbn; try done. by apply dom_insert_tracked.
Qed.

Lemma tracksOnly_suspend task c :
  taskTicker task ∈ trackingOrderBook c → ok c → ok (suspend task c).
Proof.
  intros Ht (Hb & Hd & Hi & Hp & Hf & Hk).
  repeat split; cbn; try done. apply Forall_app; auto.
Qed.

Lemma tracksOnly_emit x c :
  (∀ t, x = Fetch t → t ∈ trackingOrderBook c) → ok c → ok (emit x c).
Proof.
  intros Ht (Hb & Hd & Hi & Hp & Hf & Hk).
  repeat split; cbn; try done.
  intros t [?|Hx%list_elem_of_singleton]%elem_of_app; auto.
Qed.

Lemma tracksOnly_insertBook t ob c :
  t ∈ trackingOrderBook c → ok c →
  ok (with_orderBooks (<[t := ob]> (orderBooks c)) c).
Proof.
  intros Ht (Hb & Hd & Hi & Hp & Hf & Hk).
  repeat split; cbn; try done. by apply dom_insert_tracked.
Qed.
End Tracks.

Section BinanceTracks.
Local Abbreviation ok := (tracksOnly Binance.parseTicker).

Lemma Binance_tracksOnly_initializeOrderBook t c :
  t ∈ trackingOrderBook c → ok c → ok (Binance.initializeOrderBook t c).
Proof.
  intros Ht Hc. unfold Binance.initializeOrderBook.
  apply tracksOnly_suspend; [done|].
  apply tracksOnly_resetBuffer; [done|]. by apply tracksOnly_flag.
Qed.

Lemma Binance_tracksOnly_applyDepthUpdate now t d c :
  t ∈ trackingOrderBook c → ok c → ok (Binance.applyDepthUpdate now t d c).
Proof.
  intros Ht Hc. unfold Binance.applyDepthUpdate.
  destruct (orderBooks c !! t); [|done].
  repeat case_decide; [done| |].
  - apply Binance_tracksOnly_initializeOrderBook; [done|].
    by apply tracksOnly_flag.
  - by apply tracksOnly_writeBook.
Qed.

Lemma Binance_applyDepthUpdate_tracking now t d c :
  trackingOrderBook (Binance.applyDepthUpdate now t d c) = trackingOrderBook c.
Proof.
  unfold Binance.applyDepthUpdate.
  destruct (orderBooks c !! t); [|done].
  repeat case_decide; [done..|].
  unfold writeBook, updatePricesOrderBook. cbn.
  by rewrite lookup_insert_eq.
Qed.

Lemma Binance_tracksOnly_replay now t events c :
  t ∈ trackingOrderBook c → ok c →
  ok (foldl (λ c' event, Binance.applyDepthUpdate now t event c') c events) ∧
  trackingOrderBook
    (foldl (λ c' event, Binance.applyDepthUpdate now t event c') c events)
    = trackingOrderBook c.
Proof.
  revert c. induction events as [|e es IH]; intros c Ht Hc; [done|].
  cbn. destruct (IH (Binance.applyDepthUpdate now t e c)) as [H1 H2].
  - by rewrite Binance_applyDepthUpdate_tracking.
  - by apply Binance_tracksOnly_applyDepthUpdate.
  - split; [done|]. by rewrite H2, Binance_applyDepthUpdate_tracking.
Qed.

Lemma updatePricesOrderBook_tracking pt depth now t c :
  trackingOrderBook (updatePricesOrderBook pt depth now t c)
    = trackingOrderBook c.
Proof. unfold updatePricesOrderBook. by destruct (orderBooks c !! t). Qed.

Lemma Binance_tracksOnly_markInitialized now t c :
  t ∈ trackingOrderBook c → ok c → ok (Binance.markInitialized now t c).
Proof.
  intros Ht Hc.
  unfold Binance.markInitialized, Binance.updatePricesOrderBook.
  apply tracksOnly_resetBuffer.
  - cbn [trackingOrderBook with_isInitializing].
    by rewrite updatePricesOrderBook_tracking.
  - apply tracksOnly_flag; [by rewrite updatePricesOrderBook_tracking|].
    by apply tracksOnly_updatePricesOrderBook.
Qed.

Lemma Binance_tracksOnly_installSnapshot now t buffer snapshot c :
  t ∈ trackingOrderBook c → ok c →
  ok (Binance.installSnapshot now t buffer snapshot c).
Proof.
  intros Ht Hc. unfold Binance.installSnapshot.
  pose proof (tracksOnly_insertBook Binance.parseTicker t
                (bookOfSnapshot snapshot) c Ht Hc) as Hc1.
  destruct (filter _ _) as [|e es];
    [by apply Binance_tracksOnly_markInitialized|].
  case_decide; [|by apply Binance_tracksOnly_initializeOrderBook].
  destruct (Binance_tracksOnly_replay now t (e :: es)
              (with_orderBooks (<[t:=bookOfSnapshot snapshot]> (orderBooks c))
                 c) Ht Hc1) as [H1 H2].
  apply Binance_tracksOnly_markInitialized; [by rewrite H2 | done].
Qed.

Lemma Binance_tracksOnly_onSubscribe tickers c :
  ok c → ok (Binance.onSubscribe tickers c).
Proof.
  intros Hc. unfold Binance.onSubscribe.
  match goal with
  | |- tracksOnly _ (foldl _ ?c1 _) =>
      assert (ok c1) as Hc1
        by (destruct (_ ≫= _); [done | by apply tracksOnly_emit]);
      generalize dependent c1
  end.
  induction tickers as [|t' ts IH]; intros c1 Hc1; [done|].
  cbn. apply IH. case_decide; [|done].
  by apply Binance_tracksOnly_initializeOrderBook.
Qed.

Lemma tracksOnly_resume i task c c' :
  resume i c = Some (task, c') → ok c →
  taskTicker task ∈ trackingOrderBook c' ∧ ok c'.
Proof.
  unfold resume. destruct (pending c !! i) as [task'|] eqn:Hi; [|done].
  intros [= <- <-] (Hb & Hd & Hi' & Hp & Hf & Hk). split.
  - cbn. eapply Forall_forall in Hp; [done|]. by eapply list_elem_of_lookup_2.
  - repeat split; cbn; try done.
    by apply Forall_delete.
Qed.

Lemma Binance_tracksOnly_step now e c : ok c → ok (Binance.step now e c).
Proof.
  intros Hc. destruct e as [|m|code|i|i result|]; cbn.
  - destruct (isClosing c); [done | by apply Binance_tracksOnly_onSubscribe].
  - destruct m as [n|sym p|d|]; cbn;
      [case_decide; [done | by apply tracksOnly_emit] | | | done].
    + case_decide; [by apply tracksOnly_storePrice | done].
    + case_decide; [|done]. unfold Binance.processDepthUpdate.
      destruct (initializing _ _);
        [by apply tracksOnly_pushBuffer
        |by apply Binance_tracksOnly_applyDepthUpdate].
  - destruct (_ && _); [by apply tracksOnly_emit | done].
  - destruct (resume i c) as [[task c']|] eqn:Hr; [|done].
    destruct (tracksOnly_resume _ _ _ _ Hr Hc) as [Ht Hc'].
    destruct task as [t'|????|t'|t']; cbn in Ht; try done.
    + unfold Binance.checkBuffer.
      destruct (depthUpdateBuffers _ !! t') as [r|];
        [|by apply tracksOnly_suspend].
      destruct (arrays _ !! r) as [[|??]|]; try by apply tracksOnly_suspend.
      apply tracksOnly_suspend; [done|].
      apply tracksOnly_emit; [by intros ? [= <-] | done].
    + by apply Binance_tracksOnly_initializeOrderBook.
  - destruct (resume i c) as [[task c']|] eqn:Hr; [|done].
    destruct (tracksOnly_resume _ _ _ _ Hr Hc) as [Ht Hc'].
    destruct task as [t'|t' buffer first again|t'|t']; cbn in Ht; try done.
    unfold Binance.snapshotSettled.
    destruct result as [snapshot|]; [|by apply tracksOnly_suspend].
    destruct (_ && _).
    + apply tracksOnly_suspend; [done|].
      apply tracksOnly_emit; [by intros ? [= <-] | done].
    + by apply Binance_tracksOnly_installSnapshot.
  - unfold close. apply tracksOnly_emit; [done|].
    destruct Hc as (Hb & Hd & Hi' & Hp & Hf & Hk). by repeat split.
Qed.

Lemma construct_tracksOnly pt createTicker buffers configs :
  tracksOnly pt (construct createTicker buffers configs).
Proof.
  unfold construct.
  match goal with
  | |- tracksOnly _ (foldl _ ?c0 ?l) =>
      assert (tracksOnly pt c0 ∧ list_to_set l ⊆ trackingOrderBook c0) as Hc0;
      [|generalize dependent c0; generalize l]
  end.
  { split; [|done]. repeat split; cbn; try done; try apply empty_subseteq.
    by intros ? ?%elem_of_nil. }
  intros ts. induction ts as [|t ts IH]; intros c0 [Hc Hts]; [done|].
  cbn. apply IH. rewrite list_to_set_cons in Hts.
  apply union_subseteq in Hts as [Ht%singleton_subseteq_l Hts].
  split.
  - destruct buffers.
    + apply (tracksOnly_flag pt t true (resetBuffer t c0)); [done|].
      by apply tracksOnly_resetBuffer.
    + by apply tracksOnly_flag.
  - by destruct buffers.
Qed.

Lemma Binance_tracksOnly_run es configs :
  ok (Binance.run es (Binance.new configs)).
Proof.
  unfold Binance.run.
  assert (ok (Binance.new configs)) as H by apply construct_tracksOnly.
  revert H. generalize (Binance.new configs).
  induction es as [|e es IH]; intros c Hc; [done|].
  cbn. by apply IH, Binance_tracksOnly_step.
Qed.
End BinanceTracks.

(** ** Sizes of published orders *)

Section Published.
Context (parseTicker : string → string) (depth : nat).

Lemma readLadder_positive cmp (ladder : Ladder) :
  positive ladder → Forall (λ o, 0 < size o) (readLadder cmp depth ladder).
Proof.
  intros Hm. unfold readLadder. apply Forall_take.
  rewrite js_sort_Permutation. apply Forall_fmap.
  eapply Forall_impl; [exact Hm|]. by intros [??].
Qed.

Lemma publishesPositive_frame (c c' : Connector) :
  orderBooks c' = orderBooks c → prices c' = prices c →
  arrays c' = arrays c →
  publishesPositive c → publishesPositive c'.
Proof.
  intros Hb Hp Ha (H1 & H2 & H3). split; [|split].
  - by apply (booksPositive_same c).
  - by rewrite Ha.
  - by rewrite Hp.
Qed.

Lemma publishesPositive_updatePricesOrderBook now t c :
  publishesPositive c →
  publishesPositive (updatePricesOrderBook parseTicker depth now t c).
Proof.
  intros (H1 & H2 & H3). unfold updatePricesOrderBook.
  destruct (orderBooks c !! t) as [ob|] eqn:Hob; [|done].
  split; [done|]. split; [done|]. cbn. intros k data.
  destruct (decide (parseTicker t = k)) as [<-|Hne].
  - rewrite lookup_insert_eq. intros [= <-]. cbn.
    destruct (H1 _ _ Hob). split; by apply readLadder_positive.
  - rewrite lookup_insert_ne by done. apply H3.
Qed.

Lemma publishesPositive_storePrice now t p c :
  publishesPositive c → publishesPositive (storePrice parseTicker now t p c).
Proof.
  intros (H1 & H2 & H3). unfold storePrice.
  split; [done|]. split; [done|]. cbn. intros k data.
  destruct (decide (parseTicker t = k)) as [<-|Hne].
  - rewrite lookup_insert_eq. intros [= <-]. cbn.
    destruct (prices c !! parseTicker t) as [data|] eqn:Hd; cbn.
    + by apply (H3 _ _ Hd).
    + by split.
  - rewrite lookup_insert_ne by done. apply H3.
Qed.

Lemma publishesPositive_insertBook t ob c :
  positive (bids ob) → positive (asks ob) →
  publishesPositive c →
  publishesPositive (with_orderBooks (<[t := ob]> (orderBooks c)) c).
Proof.
  intros Hb Ha (H1 & H2 & H3). split; [|done].
  by eapply booksPositive_insert.
Qed.

Lemma publishesPositive_writeBook now t ob bs as_ marker c :
  orderBooks c !! t = Some ob → nonNegative bs → nonNegative as_ →
  publishesPositive c →
  publishesPositive (writeBook parseTicker depth now t ob bs as_ marker c).
Proof.
  intros Hob Hbs Has Hc. unfold writeBook.
  apply publishesPositive_updatePricesOrderBook.
  destruct (proj1 Hc _ _ Hob).
  apply publishesPositive_insertBook; cbn; try done;
    by apply applyLevels_positive.
Qed.

Lemma publishesPositive_pushBuffer t d c :
  wireNonNegative d → publishesPositive c → publishesPositive (pushBuffer t d c).
Proof.
  intros Hd (H1 & H2 & H3). unfold pushBuffer.
  destruct (depthUpdateBuffers c !! t) as [r|]; (split; [done|]);
    (split; [|done]); cbn; intros r' buffer.
  - intros [(-> & <- & Hlt)|[Hne Hl]]%list_lookup_insert_Some;
      [|by eapply H2].
    apply Forall_app. split; [|by constructor].
    destruct (arrays c !! r') as [old|] eqn:Hr; [by eapply H2 | constructor].
  - intros [[_ ?]|[_ <-]]%lookup_snoc_Some; [by eapply H2|].
    constructor; [done | constructor].
Qed.

Lemma publishesPositive_resetBuffer t c :
  publishesPositive c → publishesPositive (resetBuffer t c).
Proof.
  intros (H1 & H2 & H3). split; [done|]. split; [|done]. cbn.
  intros r' buffer [[_ ?]|[_ <-]]%lookup_snoc_Some; [by eapply H2 | constructor].
Qed.
End Published.

Section BinancePublished.
Local Abbreviation ok := publishesPositive.

Lemma Binance_publishesPositive_initializeOrderBook t c :
  ok c → ok (Binance.initializeOrderBook t c).
Proof.
  intros Hc. unfold Binance.initializeOrderBook.
  eapply publishesPositive_frame; [| | |by apply (publishesPositive_resetBuffer t)];
    done.
Qed.

Lemma Binance_publishesPositive_applyDepthUpdate now t d c :
  wireNonNegative d → ok c → ok (Binance.applyDepthUpdate now t d c).
Proof.
  intros [Hb Ha] Hc. unfold Binance.applyDepthUpdate.
  destruct (orderBooks c !! t) as [ob|] eqn:Hob; [|done].
  repeat case_decide; [done| |].
  - by apply Binance_publishesPositive_initializeOrderBook.
  - by apply publishesPositive_writeBook.
Qed.

Lemma Binance_publishesPositive_replay now t events c :
  Forall wireNonNegative events → ok c →
  ok (foldl (λ c' event, Binance.applyDepthUpdate now t event c') c events).
Proof.
  intros Hev. revert c. induction Hev as [|e es He _ IH]; intros c Hc; [done|].
  cbn. by apply IH, Binance_publishesPositive_applyDepthUpdate.
Qed.

Lemma Binance_publishesPositive_markInitialized now t c :
  ok c → ok (Binance.markInitialized now t c).
Proof.
  intros Hc. unfold Binance.markInitialized.
  apply publishesPositive_resetBuffer.
  eapply publishesPositive_frame;
    [| | |by apply (publishesPositive_updatePricesOrderBook Binance.parseTicker
             Binance.orderBookDepth now t)]; done.
Qed.

Lemma Binance_publishesPositive_installSnapshot now t buffer snapshot c :
  ok c → ok (Binance.installSnapshot now t buffer snapshot c).
Proof.
  intros Hc. unfold Binance.installSnapshot.
  assert (ok (with_orderBooks (<[t:=bookOfSnapshot snapshot]> (orderBooks c))
                c)) as Hc1
    by (apply publishesPositive_insertBook; [apply snapshotLevels_positive..|done]).
  assert (Forall wireNonNegative
            (filter (λ event, u event > snapshot_lastUpdateId snapshot)
               (default [] (arrays c !! buffer)))) as Hev.
  { apply Forall_forall. intros e [_ He]%list_elem_of_filter. revert e He.
    apply Forall_forall. destruct (arrays c !! buffer) as [buf|] eqn:Hbuf;
      [by apply (proj1 (proj2 Hc) _ _ Hbuf) | constructor]. }
  destruct (filter _ _) as [|e es];
    [by apply Binance_publishesPositive_markInitialized|].
  case_decide; [|by apply Binance_publishesPositive_initializeOrderBook].
  by apply Binance_publishesPositive_markInitialized,
    (Binance_publishesPositive_replay now t (e :: es)).
Qed.

Lemma Binance_publishesPositive_onSubscribe tickers c :
  ok c → ok (Binance.onSubscribe tickers c).
Proof.
  intros Hc. unfold Binance.onSubscribe.
  match goal with
  | |- publishesPositive (foldl _ ?c1 _) =>
      assert (ok c1) as Hc1 by (by destruct (_ ≫= _));
      generalize dependent c1
  end.
  induction tickers as [|t' ts IH]; intros c1 Hc1; [done|].
  cbn. apply IH. case_decide; [|done].
  by apply Binance_publishesPositive_initializeOrderBook.
Qed.

Lemma Binance_publishesPositive_step now e c :
  eventNonNegative e → ok c → ok (Binance.step now e c).
Proof.
  intros He Hc. destruct e as [|m|code|i|i result|]; cbn.
  - destruct (isClosing c);
      [done | by apply Binance_publishesPositive_onSubscribe].
  - destruct m as [n|sym p|d|]; cbn; [by case_decide | | | done].
    + case_decide; [by apply publishesPositive_storePrice | done].
    + case_decide; [|done]. unfold Binance.processDepthUpdate.
      destruct (initializing _ _);
        [by apply publishesPositive_pushBuffer
        |by apply Binance_publishesPositive_applyDepthUpdate].
  - by destruct (_ && _).
  - unfold resume. destruct (pending c !! i) as [[t'|????|t'|t']|]; cbn;
      [|exact Hc| exact Hc| |exact Hc].
    + unfold Binance.checkBuffer.
      destruct (depthUpdateBuffers _ !! t') as [r|]; [|exact Hc].
      destruct (arrays _ !! r) as [[|??]|]; exact Hc.
    + by apply (Binance_publishesPositive_initializeOrderBook t'
                  (with_pending (delete i (pending c)) c)).
  - unfold resume.
    destruct (pending c !! i) as [[t'|t' buffer first again|t'|t']|]; cbn;
      [exact Hc| |exact Hc..].
    unfold Binance.snapshotSettled.
    destruct result as [snapshot|]; [|exact Hc].
    destruct (_ && _); [exact Hc|].
    by apply (Binance_publishesPositive_installSnapshot now t' buffer snapshot
                (with_pending (delete i (pending c)) c)).
  - done.
Qed.

Lemma construct_publishesPositive createTicker buffers configs :
  publishesPositive (construct createTicker buffers configs).
Proof.
  unfold construct.
  match goal with
  | |- publishesPositive (foldl _ ?c0 ?l) =>
      assert (ok c0) as Hc0;
      [|generalize dependent c0; generalize l]
  end.
  { split; [|split]; intros ??; cbn; by rewrite ?lookup_empty, ?lookup_nil. }
  intros ts. induction ts as [|t ts IH]; intros c0 Hc; [done|].
  cbn. apply IH. destruct buffers; [|done].
  eapply publishesPositive_frame;
    [| | |by apply (publishesPositive_resetBuffer t)]; done.
Qed.

Lemma Binance_publishesPositive_run es configs :
  Forall (λ e, eventNonNegative e.2) es →
  ok (Binance.run es (Binance.new configs)).
Proof.
  unfold Binance.run. intros Hes.
  assert (ok (Binance.new configs)) as H by apply construct_publishesPositive.
  revert H. generalize (Binance.new configs).
  induction Hes as [|e es He _ IH]; intros c Hc; [done|].
  cbn. by apply IH, Binance_publishesPositive_step.
Qed.
End BinancePublished.

(** ** Subscriptions *)

Section Subscribe.

Lemma bufferOf_resetBuffer_ne t t' c :
  t ≠ t' → bufferOf t' (resetBuffer t c) = bufferOf t' c.
Proof.
  intros Hne. unfold bufferOf, resetBuffer. cbn.
  rewrite lookup_insert_ne by done.
  destruct (depthUpdateBuffers c !! t') as [r|]; [|done]. cbn.
  destruct (decide (r < length (arrays c))%nat).
  - by rewrite lookup_app_l.
  - rewrite (proj2 (lookup_ge_None (arrays c) r)) by lia.
    destruct (decide (r = length (arrays c))) as [->|].
    + by rewrite list_lookup_middle.
    + rewrite (proj2 (lookup_ge_None _ r)); [done|].
      rewrite length_app. cbn. lia.
Qed.

Lemma sameSession_refl c : sameSession c c.
Proof. by repeat split. Qed.

Lemma sameSession_trans c1 c2 c3 :
  sameSession c1 c2 → sameSession c2 c3 → sameSession c1 c3.
Proof.
  intros (?&?&?&?&?&?) (?&?&?&?&?&?). repeat split; congruence.
Qed.

Lemma Binance_restart_fold ts c :
  let restarted := filter (λ t, t ∈ trackingOrderBook c) ts in
  let c' :=
    foldl (λ c' t, if decide (t ∈ trackingOrderBook c')
                   then Binance.initializeOrderBook t c' else c') c ts in
  (∀ t, t ∈ restarted → initializing t c' = true ∧ bufferOf t c' = []) ∧
  (∀ t, t ∉ restarted →
     isInitializing c' !! t = isInitializing c !! t ∧
     bufferOf t c' = bufferOf t c) ∧
  sameSession c c' ∧
  pending c' = pending c ++ (WaitBuffer <$> restarted) ∧
  trace c' = trace c.
Proof.
  cbn zeta. revert c. induction ts as [|t' ts IH]; intros c.
  - cbn. rewrite app_nil_r. split; [|by auto using sameSession_refl].
    intros t Hin. by apply elem_of_nil in Hin.
  - cbn [foldl]. rewrite filter_cons.
    destruct (decide (t' ∈ trackingOrderBook c)) as [Hin|Hni]; [|by apply IH].
    set (c1 := Binance.initializeOrderBook t' c).
    destruct (IH c1) as (I1 & I2 & I3 & I4 & I5).
    change (trackingOrderBook c1) with (trackingOrderBook c) in *.
    set (rest := filter (λ t, t ∈ trackingOrderBook c) ts) in *.
    split; [|split; [|split; [|split]]].
    + intros t Ht.
      destruct (decide (t ∈ rest)) as [Hts|Hts]; [by apply I1|].
      apply elem_of_cons in Ht as [->|?]; [|done].
      destruct (I2 _ Hts) as [Hflag Hbuf]. split.
      * unfold initializing. rewrite Hflag. cbn. by rewrite lookup_insert_eq.
      * rewrite Hbuf. apply bufferOf_resetBuffer.
    + intros t [Hne Hts]%not_elem_of_cons.
      destruct (I2 _ Hts) as [Hflag Hbuf]. split.
      * rewrite Hflag. cbn. by rewrite lookup_insert_ne.
      * rewrite Hbuf.
        by apply (bufferOf_resetBuffer_ne t' t
                    (with_isInitializing (<[t':=true]> (isInitializing c)) c)).
    + eapply sameSession_trans; [|exact I3]. by repeat split.
    + rewrite I4. cbn. by rewrite <-app_assoc.
    + by rewrite I5.
Qed.
End Subscribe.

Lemma Binance_onSubscribe_fold tickers c :
  ∃ c1, Binance.onSubscribe tickers c =
          foldl (λ c' t, if decide (t ∈ trackingOrderBook c')
                         then Binance.initializeOrderBook t c' else c')
            c1 tickers ∧
        sameSession c c1 ∧ isInitializing c1 = isInitializing c ∧
        depthUpdateBuffers c1 = depthUpdateBuffers c ∧
        arrays c1 = arrays c ∧ pending c1 = pending c ∧
        (trace c1 = trace c ∨
         ∃ params, params ≠ [] ∧ trace c1 = trace c ++ [Subscribe params]) ∧
        ((∀ t, t ∈ tickers → (t ∉ trackingPrice c) ∧ (t ∉ trackingOrderBook c)) →
         c1 = c).
Proof.
  unfold Binance.onSubscribe.
  destruct (tickers ≫= _) as [|x params] eqn:Hparams.
  - exists c. repeat split; auto.
  - eexists. split; [done|]. repeat split; try done.
    + right. by exists (x :: params).
    + intros Hnone. exfalso.
      assert (x ∈ x :: params) as Hx by left. rewrite <-Hparams in Hx.
      apply list_elem_of_bind in Hx as (t & Hx & Ht).
      destruct (Hnone t Ht) as [H1 H2].
      rewrite !decide_False in Hx by done. by apply elem_of_nil in Hx.
Qed.

(** [onSubscribe]: the initialization of every tracked book of the list
    starts over. *)
Lemma Binance_onSubscribe_restart (tickers : list string) (c : Connector) :
  let restarted := filter (λ t, t ∈ trackingOrderBook c) tickers in
  let c' := Binance.onSubscribe tickers c in
  (∀ t, t ∈ restarted → initializing t c' = true ∧ bufferOf t c' = []) ∧
  (∀ t, t ∉ restarted →
     isInitializing c' !! t = isInitializing c !! t ∧
     bufferOf t c' = bufferOf t c) ∧
  orderBooks c' = orderBooks c ∧ prices c' = prices c ∧
  pending c' = pending c ++ (WaitBuffer <$> restarted) ∧
  (trace c' = trace c ∨
   ∃ params, params ≠ [] ∧ trace c' = trace c ++ [Subscribe params]) ∧
  ((∀ t, t ∈ tickers → (t ∉ trackingPrice c) ∧ (t ∉ trackingOrderBook c)) →
   c' = c).
Proof.
  cbn zeta.
  destruct (Binance_onSubscribe_fold tickers c)
    as (c1 & -> & (Hb & Hp & Hto & Htp & Hf & Hcl) & Hi & Hd & Ha & Hpe & Htr
        & Hnone).
  destruct (Binance_restart_fold tickers c1)
    as (I1 & I2 & (Jb & Jp & _) & I4 & I5).
  rewrite Hto in *.
  assert (∀ t, bufferOf t c1 = bufferOf t c) as Hbuf
    by (intros t; unfold bufferOf; by rewrite Hd, Ha).
  split; [done|]. split.
  { intros t Ht. destruct (I2 t Ht) as [-> ->]. by rewrite Hi, Hbuf. }
  split; [congruence|]. split; [congruence|].
  split; [by rewrite I4, Hpe|]. split; [by rewrite I5|].
  intros Hn. rewrite (Hnone Hn).
  clear -Hn. induction tickers as [|t ts IH]; [done|].
  cbn. rewrite decide_False by (apply Hn; left).
  apply IH. intros t' Ht'. apply Hn. by right.
Qed.

Lemma flags_fold ts c :
  let c' :=
    foldl (λ c' t, with_isInitializing (<[t := true]> (isInitializing c')) c')
      c ts in
  (∀ t, isInitializing c' !! t =
          if decide (t ∈ ts) then Some true else isInitializing c !! t) ∧
  sameSession c c' ∧ depthUpdateBuffers c' = depthUpdateBuffers c ∧
  arrays c' = arrays c ∧ pending c' = pending c ∧ trace c' = trace c.
Proof.
  cbn zeta. revert c. induction ts as [|t' ts IH]; intros c.
  - cbn. split; [|by auto using sameSession_refl].
    intros t. rewrite decide_False; [done|]. apply not_elem_of_nil.
  - cbn [foldl].
    destruct (IH (with_isInitializing (<[t':=true]> (isInitializing c)) c))
      as (I1 & I2 & I3 & I4 & I5 & I6).
    split; [|done]. intros t. rewrite I1. cbn.
    destruct (decide (t ∈ ts)) as [Hts|Hts].
    + rewrite decide_True; [done | by right].
    + destruct (decide (t = t')) as [->|Hne].
      * rewrite lookup_insert_eq. rewrite decide_True; [done | left].
      * rewrite lookup_insert_ne by done.
        rewrite decide_False; [done|]. by intros [?|?]%elem_of_cons.
Qed.

Lemma trackedOrderBook_formatted format configs t :
  t ∈ trackedOrderBook format configs → t ∈ format ∘ ticker <$> configs.
Proof.
  unfold trackedOrderBook.
  intros (cfg & -> & [_ Hin]%list_elem_of_filter)%list_elem_of_fmap.
  by apply list_elem_of_fmap_2.
Qed.

Lemma sameTracking_refl c : sameTracking c c.
Proof. done. Qed.

Lemma sameTracking_trans c1 c2 c3 :
  sameTracking c1 c2 → sameTracking c2 c3 → sameTracking c1 c3.
Proof. intros (?&?&?) (?&?&?). repeat split; congruence. Qed.

Lemma sameTracking_updatePricesOrderBook pt depth now t c :
  sameTracking c (updatePricesOrderBook pt depth now t c).
Proof. unfold updatePricesOrderBook. by destruct (orderBooks c !! t). Qed.

Lemma sameTracking_pushBuffer t d c : sameTracking c (pushBuffer t d c).
Proof. unfold pushBuffer. by destruct (depthUpdateBuffers c !! t). Qed.

Lemma Binance_sameTracking_applyDepthUpdate now t d c :
  sameTracking c (Binance.applyDepthUpdate now t d c).
Proof.
  unfold Binance.applyDepthUpdate.
  destruct (orderBooks c !! t); [|done].
  repeat case_decide; [done..|].
  unfold writeBook.
  eapply sameTracking_trans; [|apply sameTracking_updatePricesOrderBook].
  done.
Qed.

Lemma Binance_sameTracking_replay now t events c :
  sameTracking c
    (foldl (λ c' event, Binance.applyDepthUpdate now t event c') c events).
Proof.
  revert c. induction events as [|e es IH]; intros c; [done|].
  cbn. eapply sameTracking_trans; [|apply IH].
  apply Binance_sameTracking_applyDepthUpdate.
Qed.

Lemma Binance_sameTracking_markInitialized now t c :
  sameTracking c (Binance.markInitialized now t c).
Proof.
  unfold Binance.markInitialized, Binance.updatePricesOrderBook.
  eapply sameTracking_trans; [apply sameTracking_updatePricesOrderBook|].
  done.
Qed.

Lemma Binance_sameTracking_installSnapshot now t buffer snapshot c :
  sameTracking c (Binance.installSnapshot now t buffer snapshot c).
Proof.
  unfold Binance.installSnapshot.
  destruct (filter _ _) as [|e es].
  - eapply sameTracking_trans; [|apply Binance_sameTracking_markInitialized].
    done.
  - case_decide; [|done].
    eapply sameTracking_trans; [|apply Binance_sameTracking_markInitialized].
    eapply sameTracking_trans; [|apply Binance_sameTracking_replay]. done.
Qed.

Lemma Binance_sameTracking_onSubscribe tickers c :
  sameTracking c (Binance.onSubscribe tickers c).
Proof.
  destruct (Binance_onSubscribe_fold tickers c)
    as (c1 & -> & (_ & _ & Hto & Htp & Hf & _) & _).
  destruct (Binance_restart_fold tickers c1)
    as (_ & _ & (_ & _ & Gto & Gtp & Gf & _) & _).
  repeat split; congruence.
Qed.

Lemma Binance_sameTracking_step now e c :
  sameTracking c (Binance.step now e c).
Proof.
  destruct e as [|m|code|i|i result|]; cbn.
  - destruct (isClosing c); [done | apply Binance_sameTracking_onSubscribe].
  - destruct m as [n|sym p|d|]; cbn; [by case_decide | | | done].
    + by case_decide.
    + case_decide; [|done]. unfold Binance.processDepthUpdate.
      destruct (initializing _ _);
        [apply sameTracking_pushBuffer
        |apply Binance_sameTracking_applyDepthUpdate].
  - by destruct (_ && _).
  - unfold resume. destruct (pending c !! i) as [[t'|????|t'|t']|]; cbn;
      try done.
    unfold Binance.checkBuffer.
    destruct (depthUpdateBuffers _ !! t') as [r|]; [|done].
    by destruct (arrays _ !! r) as [[|??]|].
  - unfold resume.
    destruct (pending c !! i) as [[t'|t' buffer first again|t'|t']|]; cbn;
      try done.
    unfold Binance.snapshotSettled.
    destruct result as [snapshot|]; [|done].
    destruct (_ && _); [done|].
    eapply sameTracking_trans;
      [|apply Binance_sameTracking_installSnapshot]. done.
  - done.
Qed.

Lemma Binance_sameTracking_run es c : sameTracking c (Binance.run es c).
Proof.
  unfold Binance.run. revert c.
  induction es as [|e es IH]; intros c; [done|].
  cbn. eapply sameTracking_trans; [|apply IH].
  apply Binance_sameTracking_step.
Qed.

Lemma construct_fold_tracking (buffers : bool) ts c0 :
  sameTracking c0
    (foldl (λ c t, with_isInitializing (<[t := true]> (isInitializing c))
                     (if buffers then resetBuffer t c else c)) c0 ts).
Proof.
  revert c0. induction ts as [|t ts IH]; intros c0; [done|].
  cbn [foldl]. eapply sameTracking_trans; [|apply IH]. by destruct buffers.
Qed.

Lemma construct_tracking createTicker buffers configs :
  trackingOrderBook (construct createTicker buffers configs)
    = list_to_set (trackedOrderBook createTicker configs) ∧
  trackingPrice (construct createTicker buffers configs)
    = trackedPrice createTicker configs ∧
  formattedTickers (construct createTicker buffers configs)
    = (createTicker ∘ ticker <$> configs).
Proof.
  unfold construct.
  match goal with
  | |- context [foldl _ ?c0 ?l] =>
      destruct (construct_fold_tracking buffers l c0) as (-> & -> & ->)
  end.
  done.
Qed.

(** ** Buffers of the Binance connector *)

Section Buffers.

Lemma buffersSeparate_frame (c c' : Connector) :
  depthUpdateBuffers c' = depthUpdateBuffers c → arrays c' = arrays c →
  buffersSeparate c → buffersSeparate c'.
Proof. unfold buffersSeparate. by intros -> ->. Qed.

Lemma buffersSeparate_fresh t (c c' : Connector) x :
  depthUpdateBuffers c' = <[t := length (arrays c)]> (depthUpdateBuffers c) →
  arrays c' = arrays c ++ [x] →
  buffersSeparate c → buffersSeparate c'.
Proof.
  intros Hd Ha [Hlt Hinj]. split; rewrite Hd, ?Ha.
  - intros t' r. rewrite length_app. cbn.
    destruct (decide (t' = t)) as [->|Hne].
    + rewrite lookup_insert_eq. intros [= <-]. lia.
    + rewrite lookup_insert_ne by done. intros H%Hlt. lia.
  - intros t1 t2 r.
    destruct (decide (t1 = t)) as [->|Hne1], (decide (t2 = t)) as [->|Hne2];
      rewrite ?lookup_insert_eq, ?lookup_insert_ne by done; try done.
    + intros [= <-] H%Hlt. lia.
    + intros H%Hlt [= <-]. lia.
    + apply Hinj.
Qed.

Lemma buffersSeparate_resetBuffer t c :
  buffersSeparate c → buffersSeparate (resetBuffer t c).
Proof. by apply (buffersSeparate_fresh t c _ []). Qed.

Lemma buffersSeparate_pushBuffer t d c :
  buffersSeparate c → buffersSeparate (pushBuffer t d c).
Proof.
  intros Hc. pose proof Hc as [Hlt Hinj]. unfold pushBuffer.
  destruct (depthUpdateBuffers c !! t) as [r|] eqn:Hr.
  - split; cbn; [|done]. intros t' r'. rewrite length_insert. apply Hlt.
  - by apply (buffersSeparate_fresh t c _ [d]).
Qed.

Lemma bufferOf_pushBuffer t d c :
  buffersSeparate c →
  bufferOf t (pushBuffer t d c) = bufferOf t c ++ [d] ∧
  ∀ t', t' ≠ t → bufferOf t' (pushBuffer t d c) = bufferOf t' c.
Proof.
  intros [Hlt Hinj]. unfold bufferOf, pushBuffer.
  destruct (depthUpdateBuffers c !! t) as [r|] eqn:Hr; cbn.
  - rewrite Hr. cbn. split.
    + rewrite list_lookup_insert_eq by by eapply Hlt. done.
    + intros t' Hne. destruct (depthUpdateBuffers c !! t') as [r'|] eqn:Hr';
        [|done]. cbn. rewrite list_lookup_insert_ne; [done|].
      intros <-. apply Hne. by eapply Hinj.
  - rewrite lookup_insert_eq. cbn. rewrite list_lookup_middle by done.
    split; [done|]. intros t' Hne. rewrite lookup_insert_ne by done.
    destruct (depthUpdateBuffers c !! t') as [r'|] eqn:Hr'; [|done]. cbn.
    by rewrite lookup_app_l by by eapply Hlt.
Qed.
End Buffers.

Section BinanceBuffers.
Local Abbreviation ok := buffersSeparate.

Lemma Binance_buffersSeparate_initializeOrderBook t c :
  ok c → ok (Binance.initializeOrderBook t c).
Proof.
  intros Hc. unfold Binance.initializeOrderBook.
  eapply buffersSeparate_frame; [| |by apply (buffersSeparate_resetBuffer t)];
    done.
Qed.

Lemma updatePricesOrderBook_buffers pt depth now t c :
  depthUpdateBuffers (updatePricesOrderBook pt depth now t c)
    = depthUpdateBuffers c ∧
  arrays (updatePricesOrderBook pt depth now t c) = arrays c.
Proof. unfold updatePricesOrderBook. by destruct (orderBooks c !! t). Qed.

Lemma Binance_buffersSeparate_applyDepthUpdate now t d c :
  ok c → ok (Binance.applyDepthUpdate now t d c).
Proof.
  intros Hc. unfold Binance.applyDepthUpdate.
  destruct (orderBooks c !! t) as [ob|] eqn:Hob; [|done].
  repeat case_decide; [done| |].
  - by apply Binance_buffersSeparate_initializeOrderBook.
  - unfold writeBook.
    eapply buffersSeparate_frame; [| |exact Hc];
      by rewrite ?(proj1 (updatePricesOrderBook_buffers _ _ _ _ _)),
                 ?(proj2 (updatePricesOrderBook_buffers _ _ _ _ _)).
Qed.

Lemma Binance_buffersSeparate_replay now t events c :
  ok c →
  ok (foldl (λ c' event, Binance.applyDepthUpdate now t event c') c events).
Proof.
  revert c. induction events as [|e es IH]; intros c Hc; [done|].
  cbn. by apply IH, Binance_buffersSeparate_applyDepthUpdate.
Qed.

Lemma Binance_buffersSeparate_markInitialized now t c :
  ok c → ok (Binance.markInitialized now t c).
Proof.
  intros Hc. unfold Binance.markInitialized, Binance.updatePricesOrderBook.
  apply buffersSeparate_resetBuffer.
  eapply buffersSeparate_frame; [| |exact Hc]; cbn;
    by rewrite ?(proj1 (updatePricesOrderBook_buffers _ _ _ _ _)),
               ?(proj2 (updatePricesOrderBook_buffers _ _ _ _ _)).
Qed.

Lemma Binance_buffersSeparate_installSnapshot now t buffer snapshot c :
  ok c → ok (Binance.installSnapshot now t buffer snapshot c).
Proof.
  intros Hc. unfold Binance.installSnapshot.
  assert (ok (with_orderBooks (<[t:=bookOfSnapshot snapshot]> (orderBooks c))
                c)) as Hc1 by done.
  destruct (filter _ _) as [|e es];
    [by apply Binance_buffersSeparate_markInitialized|].
  case_decide; [|by apply Binance_buffersSeparate_initializeOrderBook].
  by apply Binance_buffersSeparate_markInitialized,
    (Binance_buffersSeparate_replay now t (e :: es)).
Qed.

Lemma Binance_buffersSeparate_onSubscribe tickers c :
  ok c → ok (Binance.onSubscribe tickers c).
Proof.
  intros Hc. unfold Binance.onSubscribe.
  match goal with
  | |- buffersSeparate (foldl _ ?c1 _) =>
      assert (ok c1) as Hc1 by (by destruct (_ ≫= _));
      generalize dependent c1
  end.
  induction tickers as [|t' ts IH]; intros c1 Hc1; [done|].
  cbn. apply IH. case_decide; [|done].
  by apply Binance_buffersSeparate_initializeOrderBook.
Qed.

Lemma Binance_buffersSeparate_step now e c : ok c → ok (Binance.step now e c).
Proof.
  intros Hc. destruct e as [|m|code|i|i result|]; cbn.
  - destruct (isClosing c);
      [done | by apply Binance_buffersSeparate_onSubscribe].
  - destruct m as [n|sym p|d|]; cbn; [by case_decide | | | done].
    + by case_decide.
    + case_decide; [|done]. unfold Binance.processDepthUpdate.
      destruct (initializing _ _);
        [by apply buffersSeparate_pushBuffer
        |by apply Binance_buffersSeparate_applyDepthUpdate].
  - by destruct (_ && _).
  - unfold resume. destruct (pending c !! i) as [[t'|????|t'|t']|]; cbn;
      [|exact Hc| exact Hc| |exact Hc].
    + unfold Binance.checkBuffer.
      destruct (depthUpdateBuffers _ !! t') as [r|]; [|exact Hc].
      destruct (arrays _ !! r) as [[|??]|]; exact Hc.
    + by apply (Binance_buffersSeparate_initializeOrderBook t'
                  (with_pending (delete i (pending c)) c)).
  - unfold resume.
    destruct (pending c !! i) as [[t'|t' buffer first again|t'|t']|]; cbn;
      [exact Hc| |exact Hc..].
    unfold Binance.snapshotSettled.
    destruct result as [snapshot|]; [|exact Hc].
    destruct (_ && _); [exact Hc|].
    by apply (Binance_buffersSeparate_installSnapshot now t' buffer snapshot
                (with_pending (delete i (pending c)) c)).
  - done.
Qed.

Lemma construct_buffersSeparate createTicker buffers configs :
  buffersSeparate (construct createTicker buffers configs).
Proof.
  unfold construct.
  match goal with
  | |- buffersSeparate (foldl _ ?c0 ?l) =>
      assert (ok c0) as Hc0;
      [|generalize dependent c0; generalize l]
  end.
  { split; intros *; cbn; by rewrite lookup_empty. }
  intros ts. induction ts as [|t ts IH]; intros c0 Hc; [done|].
  cbn. apply IH. destruct buffers; [|done].
  eapply buffersSeparate_frame;
    [| |by apply (buffersSeparate_resetBuffer t)]; done.
Qed.

Lemma Binance_buffersSeparate_run es configs :
  ok (Binance.run es (Binance.new configs)).
Proof.
  unfold Binance.run.
  assert (ok (Binance.new configs)) as H by apply construct_buffersSeparate.
  revert H. generalize (Binance.new configs).
  induction es as [|e es IH]; intros c Hc; [done|].
  cbn. by apply IH, Binance_buffersSeparate_step.
Qed.
End BinanceBuffers.

(** ** Replay and live processing *)

Section Replay.
Context (parseTicker : string → string) (depth : nat) (now : Z) (t : string).
Local Abbreviation publish := (updatePricesOrderBook parseTicker depth now t).
Local Abbreviation publishedAhead :=
  (publishedAhead parseTicker depth now t).

Lemma publish_idempotent c : prices (publish (publish c)) = prices (publish c).
Proof.
  unfold updatePricesOrderBook.
  destruct (orderBooks c !! t) as [ob|] eqn:Hob; cbn; rewrite Hob; [|done].
  cbn. rewrite lookup_insert_eq. cbn. by rewrite insert_insert_eq.
Qed.

Lemma publish_insert old new books c c' :
  orderBooks c !! t = Some old →
  publishedAhead c c' →
  publishedAhead
    (publish (with_orderBooks (<[t := new]> books) c))
    (publish (with_orderBooks (<[t := new]> books) c')).
Proof.
  intros Hb [Hob Hp]. split.
  - by rewrite !updatePricesOrderBook_orderBooks.
  - rewrite publish_idempotent. unfold updatePricesOrderBook. cbn.
    rewrite !lookup_insert_eq. cbn. rewrite Hp.
    unfold updatePricesOrderBook. rewrite Hb. cbn.
    rewrite lookup_insert_eq. cbn. by rewrite insert_insert_eq.
Qed.
End Replay.

Section BackpackReplay.
Context (now : Z) (t : string).
Local Abbreviation ahead :=
  (publishedAhead Backpack.parseTicker Backpack.orderBookDepth now t).

Lemma Backpack_applyDepthUpdate_ahead d c c' :
  ahead c c' →
  ahead (Backpack.applyDepthUpdate now t d c)
    (Backpack.applyDepthUpdate now t d c').
Proof.
  intros Hcc. pose proof Hcc as [Hob Hp]. unfold Backpack.applyDepthUpdate.
  rewrite Hob. destruct (orderBooks c !! t) as [ob|] eqn:Hb; [|done].
  case_decide; [done|]. unfold writeBook. rewrite Hob.
  by eapply publish_insert.
Qed.

Lemma Backpack_applyDepthUpdate_isInitializing d c :
  isInitializing (Backpack.applyDepthUpdate now t d c) = isInitializing c.
Proof.
  unfold Backpack.applyDepthUpdate.
  destruct (orderBooks c !! t) as [ob|]; [|done].
  case_decide; [done|]. apply writeBook_isInitializing.
Qed.

(** Replaying the updates that end after [m] on a book whose marker is at
    least [m] is processing every buffered update as it would be processed
    live. *)
Lemma Backpack_replay_live m buffer c c' :
  Forall (λ e, s e = t) buffer →
  markerAtLeast t m c → initializing t c' = false → ahead c c' →
  let replayed :=
    foldl (λ x e, Backpack.applyDepthUpdate now t e x) c
      (filter (λ e, u e > m) buffer) in
  let live := foldl (λ x e, Backpack.processDepthUpdate now e x) c' buffer in
  ahead replayed live ∧ isInitializing live = isInitializing c'.
Proof.
  cbn zeta. intros Hbuf. revert c c'.
  induction Hbuf as [|e es He _ IH]; intros c c' Hm Hi Hcc; [done|].
  cbn [foldl]. rewrite filter_cons.
  assert (Backpack.processDepthUpdate now e c'
          = Backpack.applyDepthUpdate now t e c') as Hlive
    by (unfold Backpack.processDepthUpdate; by rewrite He, Hi).
  rewrite Hlive.
  assert (initializing t (Backpack.applyDepthUpdate now t e c') = false) as Hi'
    by (unfold initializing;
        by rewrite Backpack_applyDepthUpdate_isInitializing).
  case_decide as Hu.
  - cbn [foldl]. destruct (IH (Backpack.applyDepthUpdate now t e c)
                             (Backpack.applyDepthUpdate now t e c'))
      as [H1 H2]; try done.
    + by apply Backpack_markerAtLeast_applyDepthUpdate.
    + by apply Backpack_applyDepthUpdate_ahead.
    + split; [done|]. by rewrite H2, Backpack_applyDepthUpdate_isInitializing.
  - destruct Hm as (ob & Hob & Hle). pose proof Hcc as [Hbooks _].
    rewrite (Backpack_stale now t e c' ob) in * by (rewrite ?Hbooks; done || lia).
    apply IH; try done. by exists ob.
Qed.
End BackpackReplay.

Lemma Backpack_installSnapshot_empty now t snapshot c :
  bufferOf t c = [] →
  Backpack.installSnapshot now t snapshot c =
    let c3 :=
      Backpack.updatePricesOrderBook now t
        (with_orderBooks (<[t:=bookOfSnapshot snapshot]> (orderBooks c)) c) in
    resetBuffer t (with_isInitializing (<[t:=false]> (isInitializing c3)) c3).
Proof.
  intros Hbuf. unfold Backpack.installSnapshot.
  replace (bufferOf t (with_orderBooks _ c)) with (bufferOf t c) by done.
  by rewrite Hbuf.
Qed.

(** ** The first synchronisation *)

Lemma Connector_ext (c c' : Connector) :
  prices c = prices c' → formattedTickers c = formattedTickers c' →
  isClosing c = isClosing c' → orderBooks c = orderBooks c' →
  depthUpdateBuffers c = depthUpdateBuffers c' →
  isInitializing c = isInitializing c' →
  trackingOrderBook c = trackingOrderBook c' →
  trackingPrice c = trackingPrice c' → arrays c = arrays c' →
  pending c = pending c' → trace c = trace c' → c = c'.
Proof. destruct c, c'. cbn. by intros -> -> -> -> -> -> -> -> -> -> ->. Qed.

Lemma Binance_new_pageConfig t :
  Binance.new [pageConfig t] =
    {| prices := ∅; formattedTickers := [Binance.createTicker t];
       isClosing := false; orderBooks := ∅;
       depthUpdateBuffers := {[ Binance.createTicker t := 0%nat ]};
       isInitializing := {[ Binance.createTicker t := true ]};
       trackingOrderBook := {[ Binance.createTicker t ]};
       trackingPrice := {[ Binance.createTicker t ]};
       arrays := [[]]; pending := []; trace := [] |}.
Proof.
  unfold Binance.new, construct, trackedPrice, trackedOrderBook, pageConfig.
  cbn. rewrite !decide_True by done. cbn.
  unfold with_isInitializing, resetBuffer, with_depthUpdateBuffers,
    with_arrays. cbn.
  rewrite !(right_id_L ∅ (∪)), !insert_empty. done.
Qed.

(** ** The aggregated sides *)

Section PageMore.

Lemma sizeAt_unique p os o :
  NoDup (price <$> os) → o ∈ os → price o = p → sizeAt p os = size o.
Proof.
  intros Hnd Hin <-. induction os as [|o' os IH]; [by apply elem_of_nil in Hin|].
  cbn in *. apply NoDup_cons in Hnd as [Hni Hnd].
  apply elem_of_cons in Hin as [->|Hin].
  - rewrite decide_True by done. rewrite sizeAt_absent by done. lia.
  - rewrite decide_False.
    + rewrite IH by done. lia.
    + intros Heq. apply Hni. rewrite Heq. by apply list_elem_of_fmap_2.
Qed.

Lemma NoDup_prices (os : list Order) : NoDup (price <$> os) → NoDup os.
Proof. apply NoDup_fmap_1. Qed.

Lemma aggregateOrders_distinct os isBid :
  NoDup (price <$> os) → Page.aggregateOrders os isBid ≡ₚ os.
Proof.
  intros Hnd. apply NoDup_Permutation.
  - apply (NoDup_prices _ (aggregateOrders_prices os isBid)).
  - by apply NoDup_prices.
  - intros o. rewrite elem_of_aggregateOrders. split.
    + intros [(o' & Hp & Hin)%list_elem_of_fmap Hs].
      rewrite (sizeAt_unique _ _ o') in Hs by done.
      destruct o, o'; cbn in *; by subst.
    + intros Hin. split; [by apply list_elem_of_fmap_2|].
      by rewrite (sizeAt_unique _ _ o).
Qed.

Lemma descending_NoDup os : descending os → NoDup (price <$> os).
Proof.
  intros Hs. induction Hs as [|o os Hs IH Hall]; cbn; constructor; [|done].
  intros (o' & Heq & Hin)%list_elem_of_fmap.
  eapply Forall_forall in Hall; [|done]. cbn in Hall. lia.
Qed.

Lemma ascending_NoDup os : ascending os → NoDup (price <$> os).
Proof.
  intros Hs. induction Hs as [|o os Hs IH Hall]; cbn; constructor; [|done].
  intros (o' & Heq & Hin)%list_elem_of_fmap.
  eapply Forall_forall in Hall; [|done]. cbn in Hall. lia.
Qed.

Lemma js_sort_sorted (cmp : Order → Order → Z) (R : relation Order) os :
  Total (keepsOrder cmp) → Transitive (keepsOrder cmp) →
  (∀ x y, R x y → cmp x y ≤ 0) →
  (∀ x y, cmp x y ≤ 0 → cmp y x ≤ 0 → price x = price y) →
  NoDup (price <$> os) →
  StronglySorted R os → js_sort cmp os = os.
Proof.
  intros Htot Htrans HR Hanti Hnd Hs. unfold js_sort.
  apply (StronglySorted_unique_strong (keepsOrder cmp)).
  - intros x y Hx Hy Hxy Hyx. rewrite merge_sort_Permutation in Hx.
    apply (same_price_same_order os); auto.
  - by apply StronglySorted_merge_sort.
  - clear Hnd. induction Hs as [|o os' Hs IH Hall]; constructor; [done|].
    eapply Forall_impl; [done|]. intros y Hy. by apply HR.
  - by rewrite merge_sort_Permutation.
Qed.

Lemma aggregateOrders_sorted (os : list Order) (isBid : bool) :
  (if isBid then descending os else ascending os) →
  Page.aggregateOrders os isBid = os.
Proof.
  intros Hs.
  assert (NoDup (price <$> os)) as Hnd
    by (destruct isBid; [by apply descending_NoDup | by apply ascending_NoDup]).
  pose proof (aggregateOrders_distinct os isBid Hnd) as Hperm.
  unfold Page.aggregateOrders in *. rewrite js_sort_Permutation in Hperm.
  destruct isBid.
  - rewrite (js_sort_unique byPriceDesc _ os); try apply _.
    + apply (js_sort_sorted _ (λ x y, price y < price x)); try apply _; try done.
      all: unfold byPriceDesc; intros; lia.
    + unfold byPriceDesc. intros. lia.
    + by rewrite Hperm.
    + done.
  - rewrite (js_sort_unique byPriceAsc _ os); try apply _.
    + apply (js_sort_sorted _ (λ x y, price x < price y)); try apply _; try done.
      all: unfold byPriceAsc; intros; lia.
    + unfold byPriceAsc. intros. lia.
    + by rewrite Hperm.
    + done.
Qed.

Lemma aggregateOrders_idempotent os isBid :
  Page.aggregateOrders (Page.aggregateOrders os isBid) isBid
    = Page.aggregateOrders os isBid.
Proof.
  apply aggregateOrders_sorted. unfold Page.aggregateOrders.
  destruct isBid; [apply js_sort_descending | apply js_sort_ascending];
    rewrite prices_of_entries; apply priceMap_wf, JsMapFacts.wf_empty.
Qed.
End PageMore.

Section Sources.

Lemma collect_singleton side t (e : string * option Connector) :
  Page.collect side t [e] =
    match Page.ordersOf t e.2 with Some os => side os | None => [] end.
Proof. unfold Page.collect. cbn. by destruct (Page.ordersOf t e.2). Qed.

Lemma collect_single side t name c data :
  prices c !! t = Some data →
  Page.collect side t [(name, Some c)] = side (orders data).
Proof.
  intros H. rewrite collect_singleton. unfold Page.ordersOf. cbn.
  by rewrite H.
Qed.

End Sources.

Section Best.


Lemma aggregateOrders_descending os :
  descending (Page.aggregateOrders os true).
Proof.
  unfold Page.aggregateOrders. apply js_sort_descending.
  rewrite prices_of_entries. apply priceMap_wf, JsMapFacts.wf_empty.
Qed.

Lemma aggregateOrders_ascending os :
  ascending (Page.aggregateOrders os false).
Proof.
  unfold Page.aggregateOrders. apply js_sort_ascending.
  rewrite prices_of_entries. apply priceMap_wf, JsMapFacts.wf_empty.
Qed.



End Best.

(** ** Requests in flight *)

(** What [changeTickers] on an open socket leaves of the old session. *)
Lemma Binance_changeTickers_open (newTickerConfigs : list TickerConfig)
    (c : Connector) :
  let c' := (Binance.changeTickers true newTickerConfigs c).2 in
  orderBooks c' = ∅ ∧ prices c' = ∅ ∧
  trackingOrderBook c'
    = list_to_set (trackedOrderBook Binance.createTicker newTickerConfigs) ∧
  ∃ tasks, pending c' = pending c ++ tasks.
Proof.
  cbn zeta. unfold Binance.changeTickers, Binance.unsubscribeAll.
  cbn [negb snd fst].
  match goal with
  | |- context [foldl _ ?c0 ?l] =>
      destruct (flags_fold l c0)
        as (F1 & (Fb & Fp & Fto & Ftp & Ff & Fcl) & F3 & F4 & F5 & F6);
      set (c2 := foldl _ c0 l) in *
  end.
  cbn [snd formattedTickers with_formattedTickers].
  match goal with
  | |- context [Binance.onSubscribe ?l ?c0] =>
      destruct (Binance_onSubscribe_restart l c0)
        as (_ & _ & S3 & S4 & S5 & _);
      destruct (Binance_onSubscribe_fold l c0)
        as (c4 & Heq & (_ & _ & Gto & _) & _);
      destruct (Binance_restart_fold l c4)
        as (_ & _ & (_ & _ & Hto & _) & _);
      rewrite <-Heq in Hto
  end.
  split; [rewrite S3; exact Fb|]. split; [rewrite S4; exact Fp|].
  split; [rewrite Hto, Gto; exact Fto|].
  eexists. rewrite S5. f_equal. exact F5.
Qed.

(** Whatever the buffer holds, the continuation of the request leaves a
    book of the ticker, at the marker of the snapshot or later. *)
Lemma Binance_installSnapshot_book now t buffer snapshot c :
  markerAtLeast t (snapshot_lastUpdateId snapshot)
    (Binance.installSnapshot now t buffer snapshot c).
Proof.
  unfold Binance.installSnapshot.
  set (c1 := with_orderBooks _ c).
  assert (markerAtLeast t (snapshot_lastUpdateId snapshot) c1) as H1.
  { exists (bookOfSnapshot snapshot). split; [apply lookup_insert_eq|done]. }
  assert (∀ c', markerAtLeast t (snapshot_lastUpdateId snapshot) c' →
            markerAtLeast t (snapshot_lastUpdateId snapshot)
              (Binance.markInitialized now t c')) as Hmark.
  { intros c' Hc'. eapply markerAtLeast_frame; [|exact Hc'].
    unfold Binance.markInitialized, Binance.updatePricesOrderBook.
    cbn [orderBooks resetBuffer with_depthUpdateBuffers with_arrays
           with_isInitializing].
    apply updatePricesOrderBook_orderBooks. }
  destruct (filter _ _) as [|e es]; [by apply Hmark|].
  case_decide; [|by eapply markerAtLeast_frame].
  apply Hmark.
  generalize (e :: es). intros l. clearbody c1. revert c1 H1.
  induction l as [|e' l IH]; intros c1 H1; [done|].
  cbn. by apply IH, Binance_markerAtLeast_applyDepthUpdate.
Qed.

(** Without a buffered update that ends after the snapshot, the
    continuation installs the book of the snapshot and goes live. *)
Lemma Binance_installSnapshot_alone now t buffer snapshot c :
  Forall (λ event, u event ≤ snapshot_lastUpdateId snapshot)
    (default [] (arrays c !! buffer)) →
  Binance.installSnapshot now t buffer snapshot c
    = Binance.markInitialized now t
        (with_orderBooks (<[t := bookOfSnapshot snapshot]> (orderBooks c)) c).
Proof.
  intros Hstale. unfold Binance.installSnapshot.
  assert (filter (λ event, u event > snapshot_lastUpdateId snapshot)
            (default [] (arrays c !! buffer)) = []) as ->; [|done].
  induction Hstale as [|e es He _ IH]; [done|].
  rewrite filter_cons, decide_False by lia. exact IH.
Qed.


(** ** Polling timers *)

Section Polling.
Context (t : string).
Local Abbreviation idle := (pollsIdle t).

Lemma pollsIdle_frame (c c' : Connector) tasks :
  depthUpdateBuffers c' = depthUpdateBuffers c → arrays c' = arrays c →
  pending c' = pending c ++ tasks →
  idle c → idle c'.
Proof.
  intros Hd Ha Hp (Hs & Hb & Hw). split; [|split].
  - by apply (buffersSeparate_frame c c').
  - unfold bufferOf. by rewrite Hd, Ha.
  - rewrite Hp. apply elem_of_app. by left.
Qed.

Lemma pollsIdle_updatePricesOrderBook pt depth now t' c :
  idle c → idle (updatePricesOrderBook pt depth now t' c).
Proof.
  intros Hc. apply (pollsIdle_frame c _ []); [| | |done];
    unfold updatePricesOrderBook; destruct (orderBooks c !! t'); cbn;
    by rewrite ?app_nil_r.
Qed.

Lemma pollsIdle_resetBuffer t' c : idle c → idle (resetBuffer t' c).
Proof.
  intros (Hs & Hb & Hw). split; [|split].
  - by apply buffersSeparate_resetBuffer.
  - destruct (decide (t' = t)) as [->|Hne].
    + apply bufferOf_resetBuffer.
    + by rewrite bufferOf_resetBuffer_ne.
  - done.
Qed.

Lemma Binance_pollsIdle_initializeOrderBook t' c :
  idle c → idle (Binance.initializeOrderBook t' c).
Proof.
  intros Hc. unfold Binance.initializeOrderBook.
  apply (pollsIdle_frame (resetBuffer t' c) _ [WaitBuffer t']); [done..|].
  by apply pollsIdle_resetBuffer.
Qed.

Lemma Binance_pollsIdle_applyDepthUpdate now t' d c :
  idle c → idle (Binance.applyDepthUpdate now t' d c).
Proof.
  intros Hc. unfold Binance.applyDepthUpdate.
  destruct (orderBooks c !! t') as [ob|]; [|done].
  repeat case_decide; [done| |].
  - by apply (Binance_pollsIdle_initializeOrderBook t'
                (with_isInitializing (<[t' := true]> (isInitializing c)) c)).
  - unfold writeBook. by apply pollsIdle_updatePricesOrderBook.
Qed.

Lemma Binance_pollsIdle_replay now t' events c :
  idle c →
  idle (foldl (λ c' event, Binance.applyDepthUpdate now t' event c') c events).
Proof.
  revert c. induction events as [|e es IH]; intros c Hc; [done|].
  cbn. by apply IH, Binance_pollsIdle_applyDepthUpdate.
Qed.

Lemma Binance_pollsIdle_markInitialized now t' c :
  idle c → idle (Binance.markInitialized now t' c).
Proof.
  intros Hc. unfold Binance.markInitialized, Binance.updatePricesOrderBook.
  apply pollsIdle_resetBuffer.
  apply (pollsIdle_frame
           (updatePricesOrderBook Binance.parseTicker Binance.orderBookDepth
              now t' c) _ []);
    [done | done | by rewrite app_nil_r |].
  by apply pollsIdle_updatePricesOrderBook.
Qed.

Lemma Binance_pollsIdle_installSnapshot now t' buffer snapshot c :
  idle c → idle (Binance.installSnapshot now t' buffer snapshot c).
Proof.
  intros Hc. unfold Binance.installSnapshot.
  assert (idle (with_orderBooks (<[t':=bookOfSnapshot snapshot]> (orderBooks c))
                  c)) as Hc1 by done.
  destruct (filter _ _) as [|e es];
    [by apply Binance_pollsIdle_markInitialized|].
  case_decide; [|by apply Binance_pollsIdle_initializeOrderBook].
  by apply Binance_pollsIdle_markInitialized,
    (Binance_pollsIdle_replay now t' (e :: es)).
Qed.

Lemma Binance_pollsIdle_onSubscribe tickers c :
  idle c → idle (Binance.onSubscribe tickers c).
Proof.
  intros Hc. unfold Binance.onSubscribe.
  match goal with
  | |- pollsIdle t (foldl _ ?c1 _) =>
      assert (idle c1) as Hc1 by (by destruct (_ ≫= _));
      generalize dependent c1
  end.
  induction tickers as [|t' ts IH]; intros c1 Hc1; [done|].
  cbn. apply IH. case_decide; [|done].
  by apply Binance_pollsIdle_initializeOrderBook.
Qed.

(** Taking another task off the list leaves the timer of [t] on it. *)
Lemma elem_of_delete_other {A} (l : list A) i x y :
  l !! i = Some y → y ≠ x → x ∈ l → x ∈ delete i l.
Proof.
  intros Hi Hne [k Hk]%list_elem_of_lookup.
  assert (k ≠ i) as Hki by (intros ->; congruence).
  destruct (decide (k < i)%nat).
  - apply (list_elem_of_lookup_2 _ k). by rewrite list_lookup_delete_lt.
  - apply (list_elem_of_lookup_2 _ (pred k)).
    rewrite list_lookup_delete_ge by lia.
    by replace (S (pred k)) with k by lia.
Qed.

(** The timer of [t] fires on an empty buffer: it is armed again. *)
Lemma Binance_checkBuffer_idle c :
  bufferOf t c = [] →
  Binance.checkBuffer t c = suspend (WaitBuffer t) c.
Proof.
  unfold bufferOf, Binance.checkBuffer.
  destruct (depthUpdateBuffers c !! t) as [r|]; [|done]. cbn.
  by destruct (arrays c !! r) as [[|??]|].
Qed.

Lemma Binance_pollsIdle_resume i task c :
  pending c !! i = Some task → task ≠ WaitBuffer t →
  idle c → idle (with_pending (delete i (pending c)) c).
Proof.
  intros Hi Hne (Hs & Hb & Hw). split; [done|]. split; [done|].
  by apply (elem_of_delete_other _ i _ task).
Qed.

Lemma Binance_pollsIdle_step now e c :
  t ∉ trackingOrderBook c → idle c → idle (Binance.step now e c).
Proof.
  intros Ht Hc. destruct e as [|m|code|i|i result|]; cbn.
  - destruct (isClosing c); [done | by apply Binance_pollsIdle_onSubscribe].
  - destruct m as [n|sym p|d|]; cbn; [by case_decide | | | done].
    + by case_decide.
    + case_decide as Hd; [|done]. unfold Binance.processDepthUpdate.
      destruct (initializing _ _);
        [|by apply Binance_pollsIdle_applyDepthUpdate].
      destruct Hc as (Hs & Hb & Hw).
      split; [by apply buffersSeparate_pushBuffer|]. split.
      * rewrite (proj2 (bufferOf_pushBuffer (s d) d c Hs)); [done|].
        by intros ->.
      * unfold pushBuffer. by destruct (depthUpdateBuffers c !! s d).
  - by destruct (_ && _).
  - unfold resume.
    destruct (pending c !! i) as [task|] eqn:Hi; cbn; [|done].
    destruct task as [t'|????|t'|t']; [|done..|].
    + destruct (decide (t' = t)) as [->|Hne].
      * destruct Hc as (Hs & Hb & Hw).
        rewrite Binance_checkBuffer_idle by done.
        split; [done|]. split; [done|].
        apply elem_of_app. right. by left.
      * assert (idle (with_pending (delete i (pending c)) c)) as Hc0
          by (apply (Binance_pollsIdle_resume i (WaitBuffer t') c Hi);
              [congruence | done]).
        unfold Binance.checkBuffer.
        destruct (depthUpdateBuffers _ !! t') as [r|];
          [|by refine (pollsIdle_frame _ _ _ _ _ _ Hc0)].
        destruct (arrays _ !! r) as [[|??]|];
          by refine (pollsIdle_frame _ _ _ _ _ _ Hc0).
    + apply Binance_pollsIdle_initializeOrderBook.
      by apply (Binance_pollsIdle_resume i (RetryTimer t') c Hi).
  - unfold resume.
    destruct (pending c !! i) as [task|] eqn:Hi; cbn; [|done].
    assert (task ≠ WaitBuffer t → idle (with_pending (delete i (pending c)) c))
      as Hc0 by (intros Hne; by apply (Binance_pollsIdle_resume i task)).
    destruct task as [t'|t' buffer first again|t'|t']; [done| |done..].
    specialize (Hc0 ltac:(done)).
    unfold Binance.snapshotSettled.
    destruct result as [snapshot|];
      [|by refine (pollsIdle_frame _ _ _ _ _ _ Hc0)].
    destruct (_ && _); [by refine (pollsIdle_frame _ _ _ _ _ _ Hc0)|].
    by apply Binance_pollsIdle_installSnapshot.
  - done.
Qed.

Lemma Binance_pollsIdle_run es c :
  t ∉ trackingOrderBook c → idle c →
  (t ∉ trackingOrderBook (Binance.run es c)) ∧ idle (Binance.run es c).
Proof.
  unfold Binance.run. revert c.
  induction es as [|e es IH]; intros c Ht Hc; [done|].
  cbn. apply IH.
  - by rewrite (proj1 (Binance_sameTracking_step e.1 e.2 c)).
  - by apply Binance_pollsIdle_step.
Qed.

Lemma Binance_pollsIdle_changeTickers open newTickerConfigs c :
  idle c → idle (Binance.changeTickers open newTickerConfigs c).2.
Proof.
  intros Hc. unfold Binance.changeTickers, Binance.unsubscribeAll.
  destruct open; cbn [negb snd fst].
  - match goal with
    | |- context [foldl _ ?c0 ?l] =>
        destruct (flags_fold l c0) as (_ & _ & F3 & F4 & F5 & _);
        set (c2 := foldl _ c0 l) in *
    end.
    cbn [snd formattedTickers with_formattedTickers].
    apply Binance_pollsIdle_onSubscribe.
    apply (pollsIdle_frame c _ []); [done..|by rewrite app_nil_r|done].
  - match goal with
    | |- context [foldl _ ?c0 ?l] =>
        destruct (flags_fold l c0) as (_ & _ & F3 & F4 & F5 & _);
        set (c2 := foldl _ c0 l) in *
    end.
    cbn [snd]. apply (pollsIdle_frame c _ []); [done..|by rewrite app_nil_r|done].
Qed.

Lemma Binance_changeTickers_tracking open newTickerConfigs c :
  trackingOrderBook (Binance.changeTickers open newTickerConfigs c).2
    = list_to_set (trackedOrderBook Binance.createTicker newTickerConfigs).
Proof.
  destruct open.
  - by destruct (Binance_changeTickers_open newTickerConfigs c)
      as (_ & _ & ? & _).
  - unfold Binance.changeTickers, Binance.unsubscribeAll. cbn [negb snd fst].
    match goal with
    | |- context [foldl _ ?c0 ?l] =>
        destruct (flags_fold l c0) as (_ & (_ & _ & Fto & _) & _)
    end.
    cbn. by rewrite Fto.
Qed.
End Polling.

(** ** The aggregated book *)

Lemma sizeAt_positive p os :
  Forall (λ o, 0 < size o) os → p ∈ price <$> os → 0 < sizeAt p os.
Proof.
  intros Hpos. induction Hpos as [|o os Ho Hpos IH]; cbn.
  - by intros ?%elem_of_nil.
  - assert (0 ≤ sizeAt p os) as Hrest.
    { clear IH. induction Hpos as [|o' os' Ho' _ IH']; cbn; [done|].
      case_decide; lia. }
    intros [->|Hin]%elem_of_cons.
    + rewrite decide_True by done. lia.
    + specialize (IH Hin). case_decide; lia.
Qed.

Lemma aggregateOrders_positive os isBid :
  Forall (λ o, 0 < size o) os →
  Forall (λ o, 0 < size o) (Page.aggregateOrders os isBid).
Proof.
  intros Hpos. apply Forall_forall. intros o Ho.
  apply elem_of_aggregateOrders in Ho as [Hin ->].
  by apply sizeAt_positive.
Qed.


(** ** The further properties *)

(** X1.  Formatting a ticker and parsing the result gives the ticker back
    in the five connectors that append a quote suffix, for a ticker that
    does not itself contain the suffix.  So the page, which asks the
    [prices] map for the plain ticker, finds what the connector published
    for the formatted symbol. *)
Theorem ticker_round_trip (t : string) :
  String.index 0 "USDT" t = None →
  String.index 0 "_USDC" t = None →
  Binance.parseTicker (Binance.createTicker t) = t ∧
  Bybit.parseTicker (Bybit.createTicker t) = t ∧
  OKX.parseTicker (OKX.createTicker t) = t ∧
  Kucoin.parseTicker (Kucoin.createTicker t) = t ∧
  Backpack.parseTicker (Backpack.createTicker t) = t ∧
  ∀ now c orderBook,
    orderBooks c !! Binance.createTicker t = Some orderBook →
    Page.ordersOf t
      (Some (Binance.updatePricesOrderBook now (Binance.createTicker t) c))
    = Some {| bid := readLadder byPriceDesc Binance.orderBookDepth
                       (bids orderBook);
              ask := readLadder byPriceAsc Binance.orderBookDepth
                       (asks orderBook);
              Orders_lastUpdateId := Some (lastUpdateId orderBook) |}.
Proof.
  intros H1 H3. pose proof (index_dash_USDT_absent t H1) as H2.
  assert (Binance.parseTicker (Binance.createTicker t) = t) as HB
    by (by apply js_replace_suffix, index_USDT).
  split; [done|].
  split; [by apply js_replace_suffix, index_USDT|].
  split; [by apply js_replace_suffix, index_dash_USDT|].
  split; [by apply js_replace_suffix, index_dash_USDT|].
  split; [by apply js_replace_suffix, index_USDC|].
  intros now c orderBook Hob.
  unfold Page.ordersOf, Binance.updatePricesOrderBook, updatePricesOrderBook.
  rewrite Hob, HB. cbn. by rewrite lookup_insert_eq.
Qed.

Lemma ticker_round_trip_witness :
  Binance.parseTicker (Binance.createTicker "BTC") = "BTC" ∧
  Backpack.parseTicker (Backpack.createTicker "BTC") = "BTC".
Proof.
  pose proof (ticker_round_trip "BTC" eq_refl eq_refl)
    as (H1 & _ & _ & _ & H5 & _).
  split; [exact H1 | exact H5].
Defined.

(** X2.  [Kraken] parses by cutting at the first ['/'] and formats by
    appending ["/USD"]: a ticker without ['/'] comes back from any symbol
    that starts with it and a slash, whatever the quote currency. *)
Theorem kraken_ticker_round_trip (t quote : string) :
  String.index 0 "/" t = None →
  Kraken.parseTicker (t +:+ "/" +:+ quote) = t ∧
  Kraken.parseTicker (Kraken.createTicker t) = t.
Proof.
  intros H. unfold Kraken.parseTicker, Kraken.createTicker, js_splitAt.
  change (t +:+ "/USD") with (t +:+ "/" +:+ "USD").
  change ("/" +:+ quote) with (String "/" quote).
  change ("/" +:+ "USD") with (String "/" "USD").
  by rewrite !js_split_until.
Qed.

Lemma kraken_ticker_round_trip_witness :
  Kraken.parseTicker "BTC/EUR" = "BTC" ∧
  Kraken.parseTicker (Kraken.createTicker "BTC") = "BTC".
Proof. exact (kraken_ticker_round_trip "BTC" "EUR" eq_refl). Defined.

(** X3.  An update that is applied writes the book by "last write wins":
    at every price a side holds what the last change of that price in the
    update says (nothing when its quantity is 0) and what it held before
    when the update has no change of that price; the marker becomes the
    end marker of the update.  This is so in [Backpack] for every update
    that ends after the marker, and in [Binance] when the update also
    starts no later than the marker plus one. *)
Theorem update_last_write_wins (now : Z) (t : string) (d : DepthUpdate)
    (c : Connector) (orderBook : OrderBook) :
  orderBooks c !! t = Some orderBook →
  lastUpdateId orderBook < u d →
  (∃ orderBook',
     orderBooks (Backpack.applyDepthUpdate now t d c) !! t = Some orderBook' ∧
     writtenBy d orderBook orderBook') ∧
  (U d ≤ lastUpdateId orderBook + 1 →
   ∃ orderBook',
     orderBooks (Binance.applyDepthUpdate now t d c) !! t = Some orderBook' ∧
     writtenBy d orderBook orderBook').
Proof.
  intros Hob Hu.
  assert (writtenBy d orderBook
            {| lastUpdateId := u d;
               bids := applyLevels (b d) (bids orderBook);
               asks := applyLevels (a d) (asks orderBook) |}) as Hw
    by (split; [done|]; intros p; cbn; by rewrite !get_applyLevels).
  split; [|intros HU]; eexists; (split; [|exact Hw]).
  - rewrite (Backpack_applied now t d c orderBook) by done.
    rewrite writeBook_orderBooks. apply lookup_insert_eq.
  - rewrite (Binance_applied now t d c orderBook) by done.
    rewrite writeBook_orderBooks. apply lookup_insert_eq.
Qed.

Lemma update_last_write_wins_witness :
  ∃ orderBook',
    orderBooks
      (Binance.applyDepthUpdate 4 "BTCUSDT"
         (Samples.nextUpdate [(100, 0); (99, 5); (100, 7)])
         Samples.liveBinance) !! "BTCUSDT" = Some orderBook' ∧
    writtenBy (Samples.nextUpdate [(100, 0); (99, 5); (100, 7)])
      {| lastUpdateId := 10; bids := [(100, 2)]; asks := [(101, 1)] |}
      orderBook'.
Proof.
  refine (proj2 (update_last_write_wins 4 "BTCUSDT"
    (Samples.nextUpdate [(100, 0); (99, 5); (100, 7)]) Samples.liveBinance
    {| lastUpdateId := 10; bids := [(100, 2)]; asks := [(101, 1)] |} _ _) _);
    [reflexivity | cbn; lia | cbn; lia].
Defined.

(** X4.  When no buffered update ends after the marker of the snapshot,
    [Binance] goes live on the snapshot alone: the book carries the marker
    of the snapshot and holds at every price the last quantity above zero
    that the snapshot lists for it (a level of quantity 0 is skipped, it
    removes nothing), the flag is cleared, the buffer is replaced by an
    empty one, the book is published, and nothing is requested or armed. *)
Theorem snapshot_without_later_updates (now : Z) (t : string) (buffer : nat)
    (snapshot : Snapshot) (c : Connector) :
  Forall (λ event, u event ≤ snapshot_lastUpdateId snapshot)
    (default [] (arrays c !! buffer)) →
  let c' := Binance.installSnapshot now t buffer snapshot c in
  (∃ orderBook,
     orderBooks c' !! t = Some orderBook ∧
     lastUpdateId orderBook = snapshot_lastUpdateId snapshot ∧
     ∀ p, JsMap.get p (bids orderBook)
            = snapshotHolds (snapshot_bids snapshot) p ∧
          JsMap.get p (asks orderBook)
            = snapshotHolds (snapshot_asks snapshot) p) ∧
  initializing t c' = false ∧ bufferOf t c' = [] ∧
  Orders_lastUpdateId (storedOrders c' (Binance.parseTicker t))
    = Some (snapshot_lastUpdateId snapshot) ∧
  pending c' = pending c ∧ trace c' = trace c.
Proof.
  intros Hstale. cbn zeta. unfold Binance.installSnapshot.
  assert (filter (λ event, u event > snapshot_lastUpdateId snapshot)
            (default [] (arrays c !! buffer)) = []) as ->.
  { induction Hstale as [|e es He _ IH]; [done|].
    rewrite filter_cons, decide_False by lia. exact IH. }
  unfold Binance.markInitialized, Binance.updatePricesOrderBook.
  split; [|split; [|split; [|split]]].
  - exists (bookOfSnapshot snapshot).
    cbn [orderBooks resetBuffer with_depthUpdateBuffers with_arrays
           with_isInitializing].
    rewrite updatePricesOrderBook_orderBooks. cbn.
    split; [apply lookup_insert_eq|]. split; [done|].
    intros p. by rewrite !get_snapshotLevels.
  - unfold initializing. cbn. by rewrite lookup_insert_eq.
  - apply bufferOf_resetBuffer.
  - unfold storedOrders, updatePricesOrderBook. cbn.
    rewrite lookup_insert_eq. cbn. by rewrite lookup_insert_eq.
  - unfold updatePricesOrderBook. cbn. by rewrite lookup_insert_eq.
Qed.

Lemma snapshot_without_later_updates_witness :
  initializing "BTCUSDT"
    (Binance.installSnapshot 3 "BTCUSDT" 1
       (Samples.snapshotAt 600 [(100, 1); (100, 0)] [(101, 5)])
       (Samples.binanceBuffered (Samples.scenarioBuffer "BTCUSDT"))) = false ∧
  bufferOf "BTCUSDT"
    (Binance.installSnapshot 3 "BTCUSDT" 1
       (Samples.snapshotAt 600 [(100, 1); (100, 0)] [(101, 5)])
       (Samples.binanceBuffered (Samples.scenarioBuffer "BTCUSDT"))) = [].
Proof.
  pose proof (snapshot_without_later_updates 3 "BTCUSDT" 1
    (Samples.snapshotAt 600 [(100, 1); (100, 0)] [(101, 5)])
    (Samples.binanceBuffered (Samples.scenarioBuffer "BTCUSDT"))) as H.
  destruct H as (_ & H1 & H2 & _);
    [repeat constructor; cbn; lia|].
  split; [exact H1 | exact H2].
Defined.

(** X5.  A depth update never moves the marker of a book back and never
    removes a book.  In [Binance] the marker of a book only grows along
    every run of the event loop in which no fetched snapshot is handed
    over; in [Backpack] it only grows under [processDepthUpdate]. *)
Theorem marker_never_moves_back (t : string) (orderBook : OrderBook)
    (es : list (Z * Binance.Event)) (now : Z) (d : DepthUpdate)
    (c : Connector) :
  orderBooks c !! t = Some orderBook →
  Forall (λ e, ¬ deliversSnapshot e.2) es →
  markerAtLeast t (lastUpdateId orderBook) (Binance.run es c) ∧
  markerAtLeast t (lastUpdateId orderBook)
    (Backpack.processDepthUpdate now d c).
Proof.
  intros Hob Hes.
  assert (markerAtLeast t (lastUpdateId orderBook) c) as Hc
    by (by exists orderBook).
  split.
  - by apply Binance_markerAtLeast_run.
  - by apply Backpack_markerAtLeast_processDepthUpdate.
Qed.

Lemma marker_never_moves_back_witness :
  markerAtLeast "BTCUSDT" 10
    (Binance.run
       [(4, Binance.WsMessage (Binance.Depth (Samples.nextUpdate [(100, 9)])));
        (5, Binance.WsMessage
              (Binance.Depth
                 {| s := "BTCUSDT"; U := 8; u := 9; b := [(100, 1)];
                    a := [] |}));
        (6, Binance.WsOpen)]
       Samples.liveBinance).
Proof.
  refine (proj1 (marker_never_moves_back "BTCUSDT"
    {| lastUpdateId := 10; bids := [(100, 2)]; asks := [(101, 1)] |}
    [(4, Binance.WsMessage (Binance.Depth (Samples.nextUpdate [(100, 9)])));
     (5, Binance.WsMessage
           (Binance.Depth
              {| s := "BTCUSDT"; U := 8; u := 9; b := [(100, 1)];
                 a := [] |}));
     (6, Binance.WsOpen)]
    0 (Samples.nextUpdate []) Samples.liveBinance _ _));
    [reflexivity | repeat constructor; cbn; tauto].
Defined.

(** X6.  As long as [changeTickers] is not called, a Binance connector
    holds nothing for a symbol it was not configured to track.  In every
    state it reaches from its constructor by events of the event loop
    (the socket opens, delivers a message or closes, a timer fires, a
    snapshot request settles, [close()] is called), the keys of the order
    books, of the buffers and of the flags, the tickers of the suspended
    tasks and of every snapshot request it has sent are symbols of
    [trackingOrderBook], every key of the prices map is the parsed form of
    a tracked symbol, and the tracking sets are those the constructor built
    from the configuration.  ([changeTickers] replaces the tracking sets
    and cancels nothing.) *)
Theorem binance_holds_only_tracked (configs : list TickerConfig)
    (es : list (Z * Binance.Event)) :
  tracksOnly Binance.parseTicker (Binance.run es (Binance.new configs)) ∧
  trackingOrderBook (Binance.run es (Binance.new configs))
    = list_to_set (trackedOrderBook Binance.createTicker configs) ∧
  trackingPrice (Binance.run es (Binance.new configs))
    = trackedPrice Binance.createTicker configs.
Proof.
  split; [apply Binance_tracksOnly_run|].
  destruct (Binance_sameTracking_run es (Binance.new configs))
    as (-> & -> & _).
  destruct (construct_tracking Binance.createTicker true configs)
    as (H1 & H2 & _).
  by split.
Qed.

(** X7.  When no depth update carries a negative size, every size a
    Binance connector stores or publishes is above zero: in every state it
    reaches, all levels of all books and all orders of the prices map have
    positive sizes.  Snapshots need no assumption, their levels are
    filtered. *)
Theorem binance_publishes_positive_sizes (configs : list TickerConfig)
    (es : list (Z * Binance.Event)) :
  Forall (λ e, eventNonNegative e.2) es →
  booksPositive (Binance.run es (Binance.new configs)) ∧
  ∀ k data, prices (Binance.run es (Binance.new configs)) !! k = Some data →
    sizesPositive (orders data).
Proof.
  intros Hes.
  destruct (Binance_publishesPositive_run es configs Hes) as (H1 & _ & H3).
  by split.
Qed.

Lemma binance_publishes_positive_sizes_witness :
  booksPositive
    (Binance.run
       [(0, Binance.WsOpen);
        (1, Binance.WsMessage
              (Binance.Depth (Samples.range "BTCUSDT" 498 501 [(100, 0)] [])));
        (2, Binance.TimerFires 0);
        (3, Binance.FetchSettles 0
              (Some (Samples.snapshotAt 500 [(100, -1); (99, 2)] [])))]
       (Binance.new [Samples.btc])).
Proof.
  refine (proj1 (binance_publishes_positive_sizes [Samples.btc]
    [(0, Binance.WsOpen);
     (1, Binance.WsMessage
           (Binance.Depth (Samples.range "BTCUSDT" 498 501 [(100, 0)] [])));
     (2, Binance.TimerFires 0);
     (3, Binance.FetchSettles 0
           (Some (Samples.snapshotAt 500 [(100, -1); (99, 2)] [])))] _)).
  repeat constructor; cbn; lia.
Defined.


(** X8.  The first synchronisation of the page's Binance connector, end to
    end.  The connector is built from the configuration of the page; the
    socket opens, one depth update of the ticker arrives, the polling timer
    fires and the snapshot arrives.  When the update starts no later than
    the marker of the snapshot and ends after it, the connector has sent
    one SUBSCRIBE with the miniTicker and the depth stream and one
    snapshot request, its only book is the snapshot written by the update,
    the book is live with an empty buffer, nothing is left suspended, and
    the page reads the published orders under the plain ticker. *)
Theorem binance_first_synchronisation (t : string) (d : DepthUpdate)
    (snapshot : Snapshot) (now1 now2 now3 now4 : Z) :
  String.index 0 "USDT" t = None →
  s d = Binance.createTicker t →
  U d ≤ snapshot_lastUpdateId snapshot < u d →
  let T := Binance.createTicker t in
  let c :=
    Binance.run
      [(now1, Binance.WsOpen);
       (now2, Binance.WsMessage (Binance.Depth d));
       (now3, Binance.TimerFires 0);
       (now4, Binance.FetchSettles 0 (Some snapshot))]
      (Binance.new [pageConfig t]) in
  let orderBook :=
    {| lastUpdateId := u d;
       bids := applyLevels (b d) (snapshotLevels (snapshot_bids snapshot));
       asks := applyLevels (a d) (snapshotLevels (snapshot_asks snapshot)) |} in
  trace c =
    [Subscribe [js_toLowerCase T +:+ "@miniTicker";
                js_toLowerCase T +:+ "@depth"];
     Fetch T] ∧
  orderBooks c = {[ T := orderBook ]} ∧
  initializing T c = false ∧ bufferOf T c = [] ∧ pending c = [] ∧
  Page.ordersOf t (Some c) =
    Some {| bid := readLadder byPriceDesc Binance.orderBookDepth
                     (bids orderBook);
            ask := readLadder byPriceAsc Binance.orderBookDepth
                     (asks orderBook);
            Orders_lastUpdateId := Some (u d) |}.
Proof.
  intros Ht Hs [HU Hu]. cbn zeta.
  rewrite Binance_new_pageConfig. unfold Binance.run. cbn [foldl fst snd].
  set (T := Binance.createTicker t) in *.
  assert (Binance.parseTicker T = t) as Hparse
    by (by apply js_replace_suffix, index_USDT).
  clearbody T.
  set (sub := Subscribe [js_toLowerCase T +:+ "@miniTicker";
                         js_toLowerCase T +:+ "@depth"]).
  (* open *)
  match goal with
  | |- context [Binance.step now1 Binance.WsOpen ?c0] =>
      assert (Binance.step now1 Binance.WsOpen c0 =
        {| prices := ∅; formattedTickers := [T]; isClosing := false;
           orderBooks := ∅; depthUpdateBuffers := {[ T := 1%nat ]};
           isInitializing := {[ T := true ]};
           trackingOrderBook := {[ T ]}; trackingPrice := {[ T ]};
           arrays := [[]; []]; pending := [WaitBuffer T];
           trace := [sub] |}) as ->
  end.
  { cbn [Binance.step isClosing]. unfold Binance.onSubscribe.
    cbn [formattedTickers trackingPrice trackingOrderBook mbind list_bind
           app].
    rewrite !decide_True by by apply elem_of_singleton.
    cbn [app emit with_trace trace foldl trackingOrderBook].
    rewrite decide_True by by apply elem_of_singleton.
    unfold Binance.initializeOrderBook, suspend, resetBuffer. cbn.
    by rewrite !insert_singleton_eq. }
  (* the first update is buffered *)
  match goal with
  | |- context [Binance.step now2 _ ?c1] =>
      assert (Binance.step now2 (Binance.WsMessage (Binance.Depth d)) c1 =
        {| prices := ∅; formattedTickers := [T]; isClosing := false;
           orderBooks := ∅; depthUpdateBuffers := {[ T := 1%nat ]};
           isInitializing := {[ T := true ]};
           trackingOrderBook := {[ T ]}; trackingPrice := {[ T ]};
           arrays := [[]; [d]]; pending := [WaitBuffer T];
           trace := [sub] |}) as ->
  end.
  { cbn. rewrite decide_True by (rewrite Hs; by apply elem_of_singleton).
    unfold Binance.processDepthUpdate, initializing. cbn. rewrite Hs.
    rewrite lookup_singleton_eq. cbn.
    unfold pushBuffer. cbn. by rewrite lookup_singleton_eq. }
  (* the timer finds it *)
  match goal with
  | |- context [Binance.step now3 _ ?c2] =>
      assert (Binance.step now3 (Binance.TimerFires 0) c2 =
        {| prices := ∅; formattedTickers := [T]; isClosing := false;
           orderBooks := ∅; depthUpdateBuffers := {[ T := 1%nat ]};
           isInitializing := {[ T := true ]};
           trackingOrderBook := {[ T ]}; trackingPrice := {[ T ]};
           arrays := [[]; [d]];
           pending := [AwaitSnapshot T 1 (U d) false];
           trace := [sub; Fetch T] |}) as ->
  end.
  { cbn. unfold Binance.checkBuffer. cbn. by rewrite lookup_singleton_eq. }
  (* the snapshot arrives *)
  set (orderBook :=
    {| lastUpdateId := u d;
       bids := applyLevels (b d) (snapshotLevels (snapshot_bids snapshot));
       asks := applyLevels (a d) (snapshotLevels (snapshot_asks snapshot)) |}).
  match goal with
  | |- context [Binance.step now4 _ ?c3] =>
      assert (Binance.step now4 (Binance.FetchSettles 0 (Some snapshot)) c3 =
        {| prices :=
             {[ t := {| tickerData_price := None; lastUpdated := now4;
                        orders :=
                          {| bid := readLadder byPriceDesc
                                      Binance.orderBookDepth (bids orderBook);
                             ask := readLadder byPriceAsc
                                      Binance.orderBookDepth (asks orderBook);
                             Orders_lastUpdateId := Some (u d) |} |} ]};
           formattedTickers := [T]; isClosing := false;
           orderBooks := {[ T := orderBook ]};
           depthUpdateBuffers := {[ T := 2%nat ]};
           isInitializing := {[ T := false ]};
           trackingOrderBook := {[ T ]}; trackingPrice := {[ T ]};
           arrays := [[]; [d]; []];
           pending := [];
           trace := [sub; Fetch T] |}) as ->
  end.
  { cbn [Binance.step resume pending lookup list_lookup fmap option_fmap
           option_map].
    unfold Binance.snapshotSettled. cbn [negb andb].
    rewrite bool_decide_eq_false_2 by lia.
    unfold Binance.installSnapshot. cbn.
    rewrite !decide_True by lia. cbn.
    unfold Binance.applyDepthUpdate. cbn. rewrite lookup_insert_eq. cbn.
    rewrite decide_False, decide_False by lia.
    unfold Binance.markInitialized, Binance.updatePricesOrderBook, writeBook,
      updatePricesOrderBook. cbn.
    rewrite !lookup_insert_eq. cbn. rewrite !lookup_insert_eq. cbn.
    rewrite Hparse, ?insert_insert_eq, ?insert_empty, ?insert_singleton_eq.
    rewrite ?lookup_empty.
    apply Connector_ext;
      cbn [prices formattedTickers isClosing orderBooks depthUpdateBuffers
             isInitializing trackingOrderBook trackingPrice arrays pending
             trace resetBuffer with_isInitializing with_prices
             with_orderBooks with_depthUpdateBuffers with_arrays
             with_pending length app];
      by rewrite ?insert_singleton_eq. }
  cbn. repeat split.
  - unfold initializing. cbn. by rewrite lookup_singleton_eq.
  - unfold bufferOf. cbn. by rewrite lookup_singleton_eq.
  - unfold Page.ordersOf. cbn. by rewrite lookup_singleton_eq.
Qed.

Lemma binance_first_synchronisation_witness :
  pending
    (Binance.run
       [(0, Binance.WsOpen);
        (1, Binance.WsMessage
              (Binance.Depth
                 (Samples.range "BTCUSDT" 498 501 [(100, 2)] [(101, 0)])));
        (2, Binance.TimerFires 0);
        (3, Binance.FetchSettles 0 (Some Samples.scenarioSnapshot))]
       (Binance.new [pageConfig "BTC"])) = [].
Proof.
  pose proof (binance_first_synchronisation "BTC"
    (Samples.range "BTCUSDT" 498 501 [(100, 2)] [(101, 0)])
    Samples.scenarioSnapshot 0 1 2 3) as H.
  destruct H as (_ & _ & _ & _ & H & _);
    [reflexivity | reflexivity | cbn; lia | exact H].
Defined.

(** X9.  [onSubscribe], which runs when the socket opens, on every
    reconnect and from [changeTickers], starts the initialization of every
    listed ticker of [trackingOrderBook] over: the ticker is flagged, its
    buffer is a new empty array and one more polling timer waits for it.
    The other tickers keep their flag and their buffer, the order books and
    the prices map are not touched, at most one SUBSCRIBE is sent and never
    an empty one, and a list without any tracked ticker changes nothing. *)
Theorem subscribe_restarts_tracked_books (tickers : list string)
    (c : Connector) :
  let restarted := filter (λ t, t ∈ trackingOrderBook c) tickers in
  let c' := Binance.onSubscribe tickers c in
  (∀ t, t ∈ restarted → initializing t c' = true ∧ bufferOf t c' = []) ∧
  (∀ t, t ∉ restarted →
     isInitializing c' !! t = isInitializing c !! t ∧
     bufferOf t c' = bufferOf t c) ∧
  orderBooks c' = orderBooks c ∧ prices c' = prices c ∧
  pending c' = pending c ++ (WaitBuffer <$> restarted) ∧
  (trace c' = trace c ∨
   ∃ params, params ≠ [] ∧ trace c' = trace c ++ [Subscribe params]) ∧
  ((∀ t, t ∈ tickers → (t ∉ trackingPrice c) ∧ (t ∉ trackingOrderBook c)) →
   c' = c).
Proof. exact (Binance_onSubscribe_restart tickers c). Qed.

(** X10.  [changeTickers] on an open socket.  The prices map and the order
    books are emptied, the tracking sets and the formatted tickers are
    those of the new configuration, every ticker whose order book is
    tracked is flagged with an empty buffer and no other ticker has a flag.
    The suspended tasks of the old tickers are not cancelled: the new
    polling timers are appended to them.  A depth update of a symbol that
    is no longer tracked changes nothing. *)
Theorem change_tickers_on_open_socket (newTickerConfigs : list TickerConfig)
    (c : Connector) :
  let tracked := trackedOrderBook Binance.createTicker newTickerConfigs in
  let formatted := Binance.createTicker ∘ ticker <$> newTickerConfigs in
  let c' := (Binance.changeTickers true newTickerConfigs c).2 in
  prices c' = ∅ ∧ orderBooks c' = ∅ ∧
  trackingOrderBook c' = list_to_set tracked ∧
  trackingPrice c' = trackedPrice Binance.createTicker newTickerConfigs ∧
  formattedTickers c' = formatted ∧
  (∀ t, t ∈ tracked → initializing t c' = true ∧ bufferOf t c' = []) ∧
  (∀ t, t ∉ tracked → isInitializing c' !! t = None) ∧
  pending c' =
    pending c ++ (WaitBuffer <$> filter (λ t, t ∈ tracked) formatted) ∧
  (∀ now d, s d ∉ tracked →
     Binance.step now (Binance.WsMessage (Binance.Depth d)) c' = c').
Proof.
  cbn zeta. unfold Binance.changeTickers, Binance.unsubscribeAll.
  cbn [negb snd fst].
  set (tracked := trackedOrderBook Binance.createTicker newTickerConfigs).
  set (formatted := Binance.createTicker ∘ ticker <$> newTickerConfigs).
  match goal with
  | |- context [foldl _ ?c0 tracked] =>
      destruct (flags_fold tracked c0)
        as (F1 & (Fb & Fp & Fto & Ftp & Ff & Fcl) & F3 & F4 & F5 & F6);
      set (c2 := foldl _ c0 tracked) in *
  end.
  cbn [snd formattedTickers with_formattedTickers].
  set (c3 := with_formattedTickers formatted c2).
  destruct (Binance_onSubscribe_restart formatted c3)
    as (S1 & S2 & S3 & S4 & S5 & S6 & S7).
  destruct (Binance_onSubscribe_fold formatted c3)
    as (c4 & Heq & (_ & _ & Gto & Gtp & Gf & _) & _).
  destruct (Binance_restart_fold formatted c4)
    as (_ & _ & (_ & _ & Hto & Htp & Hf & _) & _).
  rewrite <-Heq in Hto, Htp, Hf.
  assert (trackingOrderBook c3 = list_to_set tracked) as Htracked by done.
  assert (∀ t, t ∈ trackingOrderBook c3 ↔ t ∈ tracked) as Hin
    by (intros t; rewrite Htracked; apply elem_of_list_to_set).
  assert (filter (λ t, t ∈ trackingOrderBook c3) formatted =
          filter (λ t, t ∈ tracked) formatted) as Hfilter
    by (apply list_filter_iff; intros t; apply Hin).
  rewrite Hfilter in *.
  split; [rewrite S4; exact Fp|]. split; [rewrite S3; exact Fb|].
  split; [rewrite Hto, Gto; exact Fto|]. split; [rewrite Htp, Gtp; exact Ftp|].
  split; [by rewrite Hf, Gf|]. split.
  { intros t Ht. apply S1. apply list_elem_of_filter. split; [done|].
    by apply trackedOrderBook_formatted. }
  split.
  { intros t Ht. destruct (S2 t) as [-> _].
    - by intros [? _]%list_elem_of_filter.
    - cbn. rewrite F1. by rewrite decide_False. }
  split; [rewrite S5; f_equal; exact F5|].
  intros now d Hd. cbn. rewrite decide_False; [done|].
  rewrite Hto, Gto. by rewrite Hin.
Qed.

(** X11.  [changeTickers] on a socket that is not open.  [unsubscribeAll]
    returns at once: no UNSUBSCRIBE is sent and nothing is cleared, the
    prices map and the order books of the old tickers stay.  The tracking
    sets and the formatted tickers are replaced, the tracked tickers are
    flagged, no task is added, and the connector reconnects. *)
Theorem change_tickers_on_closed_socket (newTickerConfigs : list TickerConfig)
    (c : Connector) :
  let tracked := trackedOrderBook Binance.createTicker newTickerConfigs in
  let result := Binance.changeTickers false newTickerConfigs c in
  result.1 = None ∧
  prices result.2 = prices c ∧ orderBooks result.2 = orderBooks c ∧
  (∀ t, isInitializing result.2 !! t =
          if decide (t ∈ tracked) then Some true else isInitializing c !! t) ∧
  trackingOrderBook result.2 = list_to_set tracked ∧
  trackingPrice result.2
    = trackedPrice Binance.createTicker newTickerConfigs ∧
  formattedTickers result.2
    = (Binance.createTicker ∘ ticker <$> newTickerConfigs) ∧
  pending result.2 = pending c ∧
  trace result.2 = trace c ++ [Start].
Proof.
  cbn zeta. unfold Binance.changeTickers, Binance.unsubscribeAll.
  cbn [negb snd fst].
  match goal with
  | |- context [foldl _ ?c0 ?l] =>
      destruct (flags_fold l c0)
        as (F1 & (Fb & Fp & Fto & Ftp & Ff & Fcl) & F3 & F4 & F5 & F6)
  end.
  cbn. by rewrite Fb, Fp, Fto, Ftp, F5, F6.
Qed.

(** X12.  In [Backpack], buffering is transparent.  Installing a snapshot
    and replaying the buffered updates of the ticker leaves the same order
    books, the same prices map and the same flags as installing the
    snapshot on an empty buffer and then receiving the same updates one by
    one on the live book. *)
Theorem backpack_replay_is_live_processing (now : Z) (t : string)
    (snapshot : Snapshot) (c : Connector) :
  Forall (λ e, s e = t) (bufferOf t c) →
  let replayed := Backpack.installSnapshot now t snapshot c in
  let live :=
    foldl (λ c' e, Backpack.processDepthUpdate now e c')
      (Backpack.installSnapshot now t snapshot (resetBuffer t c))
      (bufferOf t c) in
  orderBooks replayed = orderBooks live ∧
  prices replayed = prices live ∧
  isInitializing replayed = isInitializing live.
Proof.
  intros Hbuf. cbn zeta.
  rewrite (Backpack_installSnapshot_empty now t snapshot (resetBuffer t c))
    by apply bufferOf_resetBuffer.
  cbn zeta.
  set (c1 := with_orderBooks (<[t:=bookOfSnapshot snapshot]> (orderBooks c)) c).
  match goal with
  | |- context [foldl _ ?l0 (bufferOf t c)] => set (live0 := l0)
  end.
  destruct (Backpack_replay_live now t (snapshot_lastUpdateId snapshot)
              (bufferOf t c) c1 live0) as [[H1 H2] H3]; try done.
  - eexists. split; [apply lookup_insert_eq | done].
  - unfold live0, initializing. cbn. by rewrite lookup_insert_eq.
  - unfold live0, Backpack.updatePricesOrderBook. split.
    + cbn [orderBooks prices resetBuffer with_depthUpdateBuffers with_arrays
             with_isInitializing].
      by rewrite !updatePricesOrderBook_orderBooks.
    + cbn [orderBooks prices resetBuffer with_depthUpdateBuffers with_arrays
             with_isInitializing].
      unfold updatePricesOrderBook. cbn. by rewrite !lookup_insert_eq.
  - unfold Backpack.installSnapshot. fold c1.
    replace (bufferOf t c1) with (bufferOf t c) by done.
    unfold Backpack.updatePricesOrderBook in *.
    cbn [orderBooks prices isInitializing resetBuffer with_depthUpdateBuffers
           with_arrays with_isInitializing].
    rewrite updatePricesOrderBook_orderBooks, <-H1, <-H2.
    split; [done|]. split; [done|].
    etransitivity; [|symmetry; exact H3].
    unfold live0.
    cbn [orderBooks prices isInitializing resetBuffer with_depthUpdateBuffers
           with_arrays with_isInitializing].
    rewrite !updatePricesOrderBook_isInitializing. f_equal.
    generalize (filter (λ e, u e > snapshot_lastUpdateId snapshot)
                  (bufferOf t c)).
    intros l. change (isInitializing (with_orderBooks _ (resetBuffer t c)))
      with (isInitializing c1).
    generalize c1. clear.
    induction l as [|e l IH]; intros c1; [done|].
    cbn. rewrite IH. apply Backpack_applyDepthUpdate_isInitializing.
Qed.

Lemma backpack_replay_is_live_processing_witness :
  let c :=
    foldl (λ c d, Backpack.processDepthUpdate 1 d c)
      (Backpack.initializeOrderBook "BTC_USDC" (Backpack.new [Samples.btc]))
      (Samples.scenarioBuffer "BTC_USDC") in
  orderBooks
    (Backpack.installSnapshot 3 "BTC_USDC" Samples.scenarioSnapshot c)
  = orderBooks
      (foldl (λ c' e, Backpack.processDepthUpdate 3 e c')
         (Backpack.installSnapshot 3 "BTC_USDC" Samples.scenarioSnapshot
            (resetBuffer "BTC_USDC" c))
         (bufferOf "BTC_USDC" c)).
Proof.
  refine (proj1 (backpack_replay_is_live_processing 3 "BTC_USDC"
    Samples.scenarioSnapshot _ _)).
  repeat constructor.
Defined.

(** X14.  Aggregating what one Binance connector publishes gives it back:
    when it is the only exchange, the aggregated book of the page is, side
    by side, the first [orderbookDepth] orders of the connector's entry
    for the ticker, in every state the connector reaches.  In general
    [aggregateOrders] returns a side that is already strictly sorted as
    it is, and aggregating twice is aggregating once. *)
Theorem single_exchange_book_is_reproduced (configs : list TickerConfig)
    (es : list (Z * Binance.Event)) (name selectedTicker : string)
    (orderbookDepth : nat) (data : tickerData) :
  prices (Binance.run es (Binance.new configs)) !! selectedTicker
    = Some data →
  Page.aggregate selectedTicker orderbookDepth
    [(name, Some (Binance.run es (Binance.new configs)))]
  = {| Page.bids := take orderbookDepth (bid (orders data));
       Page.asks := take orderbookDepth (ask (orders data)) |} ∧
  (∀ os, descending os → Page.aggregateOrders os true = os) ∧
  (∀ os, ascending os → Page.aggregateOrders os false = os) ∧
  (∀ os isBid,
     Page.aggregateOrders (Page.aggregateOrders os isBid) isBid
       = Page.aggregateOrders os isBid).
Proof.
  intros Hdata.
  split; [|split; [|split]].
  - destruct (proj2 (Binance_wellFormed_run es configs) _ _ Hdata)
      as (Hb & Ha & _).
    unfold Page.aggregate.
    rewrite !(collect_single _ _ _ _ data Hdata).
    by rewrite (aggregateOrders_sorted _ true Hb),
               (aggregateOrders_sorted _ false Ha).
  - intros os Hs. by apply (aggregateOrders_sorted os true).
  - intros os Hs. by apply (aggregateOrders_sorted os false).
  - apply aggregateOrders_idempotent.
Qed.

Lemma single_exchange_book_is_reproduced_witness :
  Page.aggregate "BTC" 15
    [("binance",
      Some (Binance.run
              [(0, Binance.WsOpen);
               (1, Binance.WsMessage
                     (Binance.Depth
                        (Samples.range "BTCUSDT" 498 501 [(100, 2)]
                           [(101, 0)])));
               (2, Binance.TimerFires 0);
               (3, Binance.FetchSettles 0 (Some Samples.scenarioSnapshot))]
              (Binance.new [Samples.btc])))]
  = {| Page.bids := [{| price := 100; size := 2 |};
                     {| price := 98; size := 3 |}];
       Page.asks := [] |}.
Proof.
  refine (proj1 (single_exchange_book_is_reproduced [Samples.btc]
    [(0, Binance.WsOpen);
     (1, Binance.WsMessage
           (Binance.Depth
              (Samples.range "BTCUSDT" 498 501 [(100, 2)] [(101, 0)])));
     (2, Binance.TimerFires 0);
     (3, Binance.FetchSettles 0 (Some Samples.scenarioSnapshot))]
    "binance" "BTC" 15
    {| tickerData_price := None; lastUpdated := 3;
       orders := {| bid := [{| price := 100; size := 2 |};
                            {| price := 98; size := 3 |}];
                    ask := [];
                    Orders_lastUpdateId := Some 501 |} |} _)).
  vm_compute. reflexivity.
Defined.



(** X17.  While a book is initializing, the depth updates of its ticker
    are kept in arrival order.  In every state a Binance connector reaches,
    a depth update of a tracked ticker that is flagged is appended to the
    buffer of that ticker; the buffers of the other tickers, the order
    books, the prices map, the suspended tasks and the sent messages stay
    as they are. *)
Theorem updates_are_buffered_in_arrival_order
    (configs : list TickerConfig) (es : list (Z * Binance.Event))
    (now : Z) (d : DepthUpdate) :
  let c := Binance.run es (Binance.new configs) in
  let c' := Binance.step now (Binance.WsMessage (Binance.Depth d)) c in
  s d ∈ trackingOrderBook c → initializing (s d) c = true →
  bufferOf (s d) c' = bufferOf (s d) c ++ [d] ∧
  (∀ t, t ≠ s d → bufferOf t c' = bufferOf t c) ∧
  orderBooks c' = orderBooks c ∧ prices c' = prices c ∧
  pending c' = pending c ∧ trace c' = trace c.
Proof.
  cbn zeta. intros Ht Hi.
  pose proof (Binance_buffersSeparate_run es configs) as Hc.
  cbn. rewrite decide_True by done.
  unfold Binance.processDepthUpdate. rewrite Hi.
  destruct (bufferOf_pushBuffer (s d) d _ Hc) as [H1 H2].
  split; [done|]. split; [done|].
  rewrite pushBuffer_orderBooks, pushBuffer_prices.
  unfold pushBuffer. by destruct (depthUpdateBuffers _ !! s d).
Qed.

Lemma updates_are_buffered_in_arrival_order_witness :
  bufferOf "BTCUSDT"
    (Binance.step 2
       (Binance.WsMessage
          (Binance.Depth (Samples.range "BTCUSDT" 502 505 [(99, 4)] [])))
       (Binance.run
          [(0, Binance.WsOpen);
           (1, Binance.WsMessage
                 (Binance.Depth
                    (Samples.range "BTCUSDT" 498 501 [(100, 2)] [])))]
          (Binance.new [Samples.btc])))
  = bufferOf "BTCUSDT"
      (Binance.run
         [(0, Binance.WsOpen);
          (1, Binance.WsMessage
                (Binance.Depth
                   (Samples.range "BTCUSDT" 498 501 [(100, 2)] [])))]
         (Binance.new [Samples.btc]))
    ++ [Samples.range "BTCUSDT" 502 505 [(99, 4)] []].
Proof.
  refine (proj1 (updates_are_buffered_in_arrival_order [Samples.btc]
    [(0, Binance.WsOpen);
     (1, Binance.WsMessage
           (Binance.Depth (Samples.range "BTCUSDT" 498 501 [(100, 2)] [])))]
    2 (Samples.range "BTCUSDT" 502 505 [(99, 4)] []) _ _)).
  - by_computation.
  - reflexivity.
Defined.

(** X18.  [OKX] and [Kucoin] buffer nothing.  From the moment
    [initializeOrderBook] has sent its request, every update of the ticker
    is dropped and leaves the connector as it is; when the snapshot
    arrives, the book of the ticker is the book of the snapshot alone. *)
Theorem updates_during_snapshot_request_are_dropped
    (now now' : Z) (t : string) (snapshot : Snapshot) (c : Connector)
    (okx : list OKX.OkxDepthUpdate) (kucoin : list Kucoin.KucoinLevel2Update) :
  Forall (λ msg, OKX.instId msg = t) okx →
  Forall (λ msg, js_splitAt ":"%char 1 (Kucoin.topic msg) = Some t) kucoin →
  foldl (λ c' msg, c' ≫= OKX.processOrderBookUpdate now msg)
    (Some (OKX.initializeOrderBook t c)) okx
    = Some (OKX.initializeOrderBook t c) ∧
  foldl (λ c' msg, Kucoin.processOrderBookUpdate now msg c')
    (Kucoin.initializeOrderBook t c) kucoin
    = Kucoin.initializeOrderBook t c ∧
  orderBooks
    (OKX.fetchSettles now' (length (pending c)) (Some snapshot)
       (OKX.initializeOrderBook t c)) !! t
    = Some (bookOfSnapshot snapshot) ∧
  orderBooks
    (Kucoin.fetchSettles now' (length (pending c)) (Some snapshot)
       (Kucoin.initializeOrderBook t c)) !! t
    = Some (bookOfSnapshot snapshot).
Proof.
  intros Hokx Hkucoin. split; [|split; [|split]].
  - induction Hokx as [|msg msgs Hmsg _ IH]; [done|].
    cbn [foldl mbind option_bind]. unfold OKX.processOrderBookUpdate at 2.
    rewrite Hmsg.
    replace (initializing t (OKX.initializeOrderBook t c)) with true; [done|].
    unfold initializing. cbn. by rewrite lookup_insert_eq.
  - induction Hkucoin as [|msg msgs Hmsg _ IH]; [done|].
    cbn [foldl]. unfold Kucoin.processOrderBookUpdate at 2.
    rewrite Hmsg.
    replace (initializing t (Kucoin.initializeOrderBook t c)) with true;
      [done|].
    unfold initializing. cbn. by rewrite lookup_insert_eq.
  - unfold OKX.fetchSettles, resume, OKX.initializeOrderBook. cbn.
    rewrite list_lookup_middle by done. cbn.
    unfold OKX.updatePricesOrderBook.
    by rewrite updatePricesOrderBook_orderBooks; cbn; rewrite lookup_insert_eq.
  - unfold Kucoin.fetchSettles, resume, Kucoin.initializeOrderBook. cbn.
    rewrite list_lookup_middle by done. cbn.
    unfold Kucoin.updatePricesOrderBook.
    by rewrite updatePricesOrderBook_orderBooks; cbn; rewrite lookup_insert_eq.
Qed.

Lemma updates_during_snapshot_request_are_dropped_witness :
  foldl (λ c' msg, c' ≫= OKX.processOrderBookUpdate 1 msg)
    (Some (OKX.initializeOrderBook "BTC-USDT" (OKX.new [Samples.btc])))
    [Samples.okxStale]
  = Some (OKX.initializeOrderBook "BTC-USDT" (OKX.new [Samples.btc])).
Proof.
  refine (proj1 (updates_during_snapshot_request_are_dropped 1 2 "BTC-USDT"
    (Samples.snapshotAt 1000 [(100, 1)] []) (OKX.new [Samples.btc])
    [Samples.okxStale] [] _ _)); repeat constructor.
Defined.

(** X19.  [Bybit] takes its snapshot from the socket.  A connector that
    was just built drops a delta.  A snapshot message installs the book of
    its levels of quantity above zero under the ticker of its topic,
    whatever was there, clears the flag and publishes the book; the delta
    that follows is applied to that book and sets the marker to its own,
    which is compared with nothing. *)
Theorem bybit_snapshot_then_deltas (now now' : Z) (t : string)
    (snapshot delta : Bybit.BybitDepthUpdate) (c : Connector)
    (configs : list TickerConfig) :
  js_splitAt "."%char 2 (Bybit.topic snapshot) = Some t →
  js_splitAt "."%char 2 (Bybit.topic delta) = Some t →
  Bybit.processOrderBookUpdate now delta (Bybit.new configs)
    = Bybit.new configs ∧
  ∃ c',
    Bybit.processOrderBookSnapshot now snapshot c = Some c' ∧
    orderBooks c' !! t =
      Some {| lastUpdateId := Bybit.u snapshot;
              bids := snapshotLevels (Bybit.b snapshot);
              asks := snapshotLevels (Bybit.a snapshot) |} ∧
    initializing t c' = false ∧
    storedOrders c' (Bybit.parseTicker t) =
      {| bid := readLadder byPriceDesc Bybit.orderBookDepth
                  (snapshotLevels (Bybit.b snapshot));
         ask := readLadder byPriceAsc Bybit.orderBookDepth
                  (snapshotLevels (Bybit.a snapshot));
         Orders_lastUpdateId := Some (Bybit.u snapshot) |} ∧
    orderBooks (Bybit.processOrderBookUpdate now' delta c') !! t =
      Some {| lastUpdateId := Bybit.u delta;
              bids := applyLevels (Bybit.b delta)
                        (snapshotLevels (Bybit.b snapshot));
              asks := applyLevels (Bybit.a delta)
                        (snapshotLevels (Bybit.a snapshot)) |}.
Proof.
  intros Hs Hd. split.
  - unfold Bybit.processOrderBookUpdate. rewrite Hd.
    destruct (initializing t (Bybit.new configs)); [done|].
    assert (orderBooks (Bybit.new configs) = ∅) as ->; [|done].
    unfold Bybit.new, construct.
    match goal with
    | |- orderBooks (foldl _ ?c0 ?l) = _ =>
        assert (orderBooks c0 = ∅) as Hc0 by done;
        generalize dependent c0; generalize l
    end.
    intros ts. induction ts as [|t' ts IH]; intros c0 Hc0; [done|].
    cbn. by apply IH.
  - unfold Bybit.processOrderBookSnapshot. rewrite Hs. eexists.
    split; [done|]. unfold Bybit.updatePricesOrderBook.
    split; [|split; [|split]].
    + cbn [orderBooks with_isInitializing].
      rewrite updatePricesOrderBook_orderBooks. cbn. apply lookup_insert_eq.
    + unfold initializing. cbn. by rewrite lookup_insert_eq.
    + unfold storedOrders, updatePricesOrderBook. cbn.
      rewrite lookup_insert_eq. cbn. by rewrite lookup_insert_eq.
    + unfold Bybit.processOrderBookUpdate. rewrite Hd.
      unfold initializing. cbn [isInitializing with_isInitializing].
      rewrite lookup_insert_eq. cbn [default orderBooks with_isInitializing].
      rewrite updatePricesOrderBook_orderBooks. cbn [orderBooks with_orderBooks].
      rewrite lookup_insert_eq. unfold id.
      rewrite writeBook_orderBooks. cbn. apply lookup_insert_eq.
Qed.

Lemma bybit_snapshot_then_deltas_witness :
  Bybit.processOrderBookUpdate 1
    {| Bybit.topic := "orderbook.50.BTCUSDT"; Bybit.b := [(100, 0)];
       Bybit.a := []; Bybit.u := 7 |}
    (Bybit.new [Samples.btc])
  = Bybit.new [Samples.btc].
Proof.
  refine (proj1 (bybit_snapshot_then_deltas 1 2 "BTCUSDT"
    {| Bybit.topic := "orderbook.50.BTCUSDT"; Bybit.b := [(100, 3)];
       Bybit.a := [(101, 1)]; Bybit.u := 5 |}
    {| Bybit.topic := "orderbook.50.BTCUSDT"; Bybit.b := [(100, 0)];
       Bybit.a := []; Bybit.u := 7 |}
    (Bybit.new [Samples.btc]) [Samples.btc] _ _)); reflexivity.
Defined.

(** X20.  [changeTickers] cancels no request in flight.  When a snapshot
    request of a ticker is pending and the ticker is dropped from the
    configuration, [changeTickers] empties the order books, but the
    snapshot that arrives afterwards is installed all the same: the order
    books hold a book of the dropped ticker again, at the marker of the
    snapshot or later, although the ticker is no longer tracked.  When the
    array that the request captured holds no update that ends after the
    snapshot, that book is the book of the snapshot, it is published in
    the prices map and the flag of the ticker is cleared. *)
Theorem change_tickers_keeps_requests_in_flight
    (newTickerConfigs : list TickerConfig) (c : Connector) (i : nat)
    (t : string) (buffer : nat) (firstEventU : Z) (again : bool)
    (snapshot : Snapshot) (now : Z) :
  pending c !! i = Some (AwaitSnapshot t buffer firstEventU again) →
  t ∉ trackedOrderBook Binance.createTicker newTickerConfigs →
  again = true ∨ firstEventU ≤ snapshot_lastUpdateId snapshot →
  let c1 := (Binance.changeTickers true newTickerConfigs c).2 in
  let c2 := Binance.step now (Binance.FetchSettles i (Some snapshot)) c1 in
  orderBooks c1 = ∅ ∧ prices c1 = ∅ ∧ (t ∉ trackingOrderBook c1) ∧
  markerAtLeast t (snapshot_lastUpdateId snapshot) c2 ∧
  (Forall (λ event, u event ≤ snapshot_lastUpdateId snapshot)
     (default [] (arrays c1 !! buffer)) →
   orderBooks c2 !! t = Some (bookOfSnapshot snapshot) ∧
   Orders_lastUpdateId (storedOrders c2 (Binance.parseTicker t))
     = Some (snapshot_lastUpdateId snapshot) ∧
   initializing t c2 = false).
Proof.
  intros Hi Ht Hagain. cbn zeta.
  destruct (Binance_changeTickers_open newTickerConfigs c)
    as (Hb & Hp & Hto & tasks & Hpe).
  set (c1 := (Binance.changeTickers true newTickerConfigs c).2) in *.
  split; [done|]. split; [done|].
  split; [rewrite Hto; by rewrite elem_of_list_to_set|].
  assert (pending c1 !! i = Some (AwaitSnapshot t buffer firstEventU again))
    as Hi1 by (rewrite Hpe; by apply lookup_app_l_Some).
  cbn [Binance.step]. unfold resume. rewrite Hi1. cbn [fmap option_fmap option_map].
  unfold Binance.snapshotSettled.
  assert (negb again &&
          bool_decide (snapshot_lastUpdateId snapshot < firstEventU) = false)
    as ->.
  { destruct Hagain as [->|Hle]; [done|].
    rewrite bool_decide_eq_false_2 by lia. by destruct again. }
  set (c1' := with_pending _ c1).
  split; [apply Binance_installSnapshot_book|].
  intros Hstale.
  rewrite Binance_installSnapshot_alone by done.
  unfold Binance.markInitialized, Binance.updatePricesOrderBook.
  split; [|split].
  - cbn [orderBooks resetBuffer with_depthUpdateBuffers with_arrays
           with_isInitializing].
    rewrite updatePricesOrderBook_orderBooks. cbn. apply lookup_insert_eq.
  - unfold storedOrders, updatePricesOrderBook. cbn.
    rewrite lookup_insert_eq. cbn. by rewrite lookup_insert_eq.
  - unfold initializing. cbn. by rewrite lookup_insert_eq.
Qed.

Lemma change_tickers_keeps_requests_in_flight_witness :
  let c1 := (Binance.changeTickers true [pageConfig "ETH"]
               Samples.fetchInFlight).2 in
  orderBooks c1 = ∅ ∧
  orderBooks
    (Binance.step 3
       (Binance.FetchSettles 0
          (Some (Samples.snapshotAt 600 [(100, 1)] [(101, 5)])))
       c1) !! "BTCUSDT"
  = Some (bookOfSnapshot (Samples.snapshotAt 600 [(100, 1)] [(101, 5)])).
Proof.
  pose proof (change_tickers_keeps_requests_in_flight [pageConfig "ETH"]
    Samples.fetchInFlight 0 "BTCUSDT" 1 498 false
    (Samples.snapshotAt 600 [(100, 1)] [(101, 5)]) 3) as H.
  destruct H as (H1 & _ & _ & _ & H2);
    [reflexivity | by_computation | right; cbn; lia |].
  split; [exact H1|].
  apply H2. vm_compute. repeat constructor; discriminate.
Defined.

(** X21.  A polling timer outlives its ticker.  Take a state that a
    Binance connector reaches from its constructor, in which the buffer of
    a ticker is empty and a polling timer of [initializeOrderBook] is
    armed for it.  When [changeTickers] drops the ticker, on an open or on
    a closed socket, the timer is not cancelled, and whatever happens
    afterwards it stays armed on an empty buffer: the ticker is not
    tracked, so no update is buffered for it, and each time the timer
    fires it does nothing but arm itself again. *)
Theorem dropped_ticker_keeps_polling (configs : list TickerConfig)
    (before : list (Z * Binance.Event)) (open : bool)
    (newTickerConfigs : list TickerConfig) (t : string)
    (es : list (Z * Binance.Event)) :
  let c := Binance.run before (Binance.new configs) in
  let c' :=
    Binance.run es (Binance.changeTickers open newTickerConfigs c).2 in
  bufferOf t c = [] → WaitBuffer t ∈ pending c →
  t ∉ trackedOrderBook Binance.createTicker newTickerConfigs →
  (t ∉ trackingOrderBook c') ∧
  bufferOf t c' = [] ∧ WaitBuffer t ∈ pending c' ∧
  ∀ now i, pending c' !! i = Some (WaitBuffer t) →
    Binance.step now (Binance.TimerFires i) c'
      = with_pending (delete i (pending c') ++ [WaitBuffer t]) c'.
Proof.
  cbn zeta. intros Hb Hw Ht.
  set (c := Binance.run before (Binance.new configs)) in *.
  assert (pollsIdle t c) as Hc
    by (split; [apply Binance_buffersSeparate_run | done]).
  apply (Binance_pollsIdle_changeTickers t open newTickerConfigs) in Hc.
  assert (t ∉ trackingOrderBook
                (Binance.changeTickers open newTickerConfigs c).2) as Ht1
    by (rewrite Binance_changeTickers_tracking;
        by rewrite elem_of_list_to_set).
  destruct (Binance_pollsIdle_run t es _ Ht1 Hc) as (Ht' & _ & Hb' & Hw').
  split; [done|]. split; [done|]. split; [done|].
  intros now i Hi. cbn. unfold resume. rewrite Hi. cbn.
  by rewrite Binance_checkBuffer_idle.
Qed.

Lemma dropped_ticker_keeps_polling_witness :
  WaitBuffer "BTCUSDT" ∈
    pending
      (Binance.run
         [(1, Binance.TimerFires 0);
          (2, Binance.WsMessage
                (Binance.Depth
                   (Samples.range "BTCUSDT" 498 501 [(100, 2)] [])))]
         (Binance.changeTickers true [pageConfig "ETH"]
            (Binance.run [(0, Binance.WsOpen)]
               (Binance.new [Samples.btc]))).2).
Proof.
  refine (proj1 (proj2 (proj2 (dropped_ticker_keeps_polling [Samples.btc]
    [(0, Binance.WsOpen)] true [pageConfig "ETH"] "BTCUSDT"
    [(1, Binance.TimerFires 0);
     (2, Binance.WsMessage
           (Binance.Depth (Samples.range "BTCUSDT" 498 501 [(100, 2)] [])))]
    _ _ _)))).
  - reflexivity.
  - vm_compute. left.
  - by_computation.
Defined.

(** X22.  The aggregated book of the page is sorted and bounded, whatever
    the exchanges publish: the bids are strictly descending and the asks
    strictly ascending in price, so no price occurs twice on a side, and
    each side has at most [orderbookDepth] levels.  When every collected
    order of a side has a size above zero, so has every level of that
    side. *)
Theorem aggregated_book_is_sorted_and_bounded (selectedTicker : string)
    (orderbookDepth : nat) (exchanges : Page.Exchanges) :
  let book := Page.aggregate selectedTicker orderbookDepth exchanges in
  descending (Page.bids book) ∧ ascending (Page.asks book) ∧
  (length (Page.bids book) ≤ orderbookDepth)%nat ∧
  (length (Page.asks book) ≤ orderbookDepth)%nat ∧
  (Forall (λ o, 0 < size o) (Page.collect bid selectedTicker exchanges) →
   Forall (λ o, 0 < size o) (Page.bids book)) ∧
  (Forall (λ o, 0 < size o) (Page.collect ask selectedTicker exchanges) →
   Forall (λ o, 0 < size o) (Page.asks book)).
Proof.
  cbn zeta. unfold Page.aggregate.
  cbn [Page.bids Page.asks].
  split; [apply StronglySorted_take, aggregateOrders_descending|].
  split; [apply StronglySorted_take, aggregateOrders_ascending|].
  split; [rewrite length_take; lia|].
  split; [rewrite length_take; lia|].
  split; intros Hpos; apply Forall_take; by apply aggregateOrders_positive.
Qed.

(** X23.  A request that is in flight at a gap ends the resynchronisation
    with its old snapshot.  When a gap flags a live [Binance] book while
    the continuation of an earlier snapshot request of the same ticker is
    still suspended, the reply to that earlier request is installed as if
    it answered the new initialization: no snapshot has been requested
    since the gap, yet the book of the ticker is written from the old
    snapshot, at its marker or later, whatever the marker of the book was.
    When the array that the earlier request captured holds no update that
    ends after its snapshot, the book is the book of that snapshot, it is
    published and the flag is cleared. *)
Theorem request_in_flight_ends_resync
    (now now' : Z) (d : DepthUpdate) (c : Connector) (orderBook : OrderBook)
    (i : nat) (buffer : nat) (firstEventU : Z) (again : bool)
    (snapshot : Snapshot) :
  initializing (s d) c = false →
  orderBooks c !! s d = Some orderBook →
  lastUpdateId orderBook + 1 < U d →
  U d ≤ u d →
  pending c !! i = Some (AwaitSnapshot (s d) buffer firstEventU again) →
  again = true ∨ firstEventU ≤ snapshot_lastUpdateId snapshot →
  let c' := Binance.processDepthUpdate now d c in
  let c'' := Binance.step now' (Binance.FetchSettles i (Some snapshot)) c' in
  initializing (s d) c' = true ∧
  orderBooks c' !! s d = Some orderBook ∧
  trace c'' = trace c ∧
  markerAtLeast (s d) (snapshot_lastUpdateId snapshot) c'' ∧
  (Forall (λ event, u event ≤ snapshot_lastUpdateId snapshot)
     (default [] (arrays c !! buffer)) →
   orderBooks c'' !! s d = Some (bookOfSnapshot snapshot) ∧
   Orders_lastUpdateId (storedOrders c'' (Binance.parseTicker (s d)))
     = Some (snapshot_lastUpdateId snapshot) ∧
   initializing (s d) c'' = false).
Proof.
  intros Hlive Hob Hgap Hrange Hi Hagain. cbn zeta.
  assert (Binance.processDepthUpdate now d c =
          Binance.initializeOrderBook (s d)
            (with_isInitializing (<[s d := true]> (isInitializing c)) c))
    as ->.
  { unfold Binance.processDepthUpdate, Binance.applyDepthUpdate.
    rewrite Hlive, Hob. rewrite decide_False by lia.
    by rewrite decide_True by lia. }
  set (c' := Binance.initializeOrderBook _ _).
  assert (pending c' !! i = Some (AwaitSnapshot (s d) buffer firstEventU again))
    as Hi' by (by apply lookup_app_l_Some).
  split; [unfold initializing; cbn; by rewrite lookup_insert_eq|].
  split; [done|].
  cbn [Binance.step]. unfold resume. rewrite Hi'.
  cbn [fmap option_fmap option_map].
  unfold Binance.snapshotSettled.
  assert (negb again &&
          bool_decide (snapshot_lastUpdateId snapshot < firstEventU) = false)
    as ->.
  { destruct Hagain as [->|Hle]; [done|].
    rewrite bool_decide_eq_false_2 by lia. by destruct again. }
  set (c0 := with_pending _ c').
  split; [by rewrite Binance_installSnapshot_trace|].
  split; [apply Binance_installSnapshot_book|].
  intros Hstale.
  assert (default [] (arrays c0 !! buffer) = default [] (arrays c !! buffer))
    as Harr.
  { cbn. destruct (decide (buffer < length (arrays c))%nat).
    - by rewrite lookup_app_l.
    - rewrite (proj2 (lookup_ge_None (arrays c) buffer)) by lia.
      destruct (decide (buffer = length (arrays c))) as [->|].
      + by rewrite list_lookup_middle.
      + rewrite (proj2 (lookup_ge_None _ buffer)); [done|].
        rewrite length_app. cbn. lia. }
  rewrite Binance_installSnapshot_alone by (by rewrite Harr).
  unfold Binance.markInitialized, Binance.updatePricesOrderBook.
  split; [|split].
  - cbn [orderBooks resetBuffer with_depthUpdateBuffers with_arrays
           with_isInitializing].
    rewrite updatePricesOrderBook_orderBooks. cbn. apply lookup_insert_eq.
  - unfold storedOrders, updatePricesOrderBook. cbn.
    rewrite lookup_insert_eq. cbn. by rewrite lookup_insert_eq.
  - unfold initializing. cbn. by rewrite lookup_insert_eq.
Qed.

Lemma request_in_flight_ends_resync_witness :
  let c :=
    Binance.run
      [(0, Binance.WsOpen); (1, Binance.WsClose 1006); (2, Binance.WsOpen);
       (3, Binance.WsMessage
             (Binance.Depth (Samples.range "BTCUSDT" 498 501 [(100, 2)] [])));
       (4, Binance.TimerFires 0); (5, Binance.TimerFires 0);
       (6, Binance.FetchSettles 0
             (Some (Samples.snapshotAt 501 [(100, 1)] [])));
       (7, Binance.WsMessage
             (Binance.Depth (Samples.range "BTCUSDT" 502 503 [(99, 4)] [])))]
      (Binance.new [Samples.btc]) in
  lastUpdateId <$> orderBooks c !! "BTCUSDT" = Some 503 ∧
  orderBooks
    (Binance.step 9
       (Binance.FetchSettles 0
          (Some (Samples.snapshotAt 501 [(100, 1)] [])))
       (Binance.processDepthUpdate 8
          (Samples.range "BTCUSDT" 510 511 [(98, 1)] []) c)) !! "BTCUSDT"
  = Some (bookOfSnapshot (Samples.snapshotAt 501 [(100, 1)] [])).
Proof.
  cbn zeta. split; [by vm_compute|].
  pose proof (request_in_flight_ends_resync 8 9
    (Samples.range "BTCUSDT" 510 511 [(98, 1)] [])
    (Binance.run
      [(0, Binance.WsOpen); (1, Binance.WsClose 1006); (2, Binance.WsOpen);
       (3, Binance.WsMessage
             (Binance.Depth (Samples.range "BTCUSDT" 498 501 [(100, 2)] [])));
       (4, Binance.TimerFires 0); (5, Binance.TimerFires 0);
       (6, Binance.FetchSettles 0
             (Some (Samples.snapshotAt 501 [(100, 1)] [])));
       (7, Binance.WsMessage
             (Binance.Depth (Samples.range "BTCUSDT" 502 503 [(99, 4)] [])))]
      (Binance.new [Samples.btc]))
    {| lastUpdateId := 503; bids := [(100, 1); (99, 4)]; asks := [] |}
    0 2 498 false (Samples.snapshotAt 501 [(100, 1)] [])) as H.
  destruct H as (_ & _ & _ & _ & H);
    [reflexivity | reflexivity | cbn; lia | cbn; lia | reflexivity
    | right; cbn; lia |].
  apply H. vm_compute. repeat constructor; discriminate.
Defined.
